(** * Encrypted room messaging: the message service, its cipher and its fan-out

    A shallow embedding of the chat server's messaging core:
    - [Buffer]: the byte/text transcodings the cipher path goes through
      ([toString('hex')], [Buffer.from(_, 'hex')], UTF-8 of a JS string);
    - [EncryptionService] (src/utils/encryption.ts);
    - [MessageService] (services/message-service);
    - [validateRequest] (middleware/security) and the message routes
      (src/routes/message-routes.ts);
    - the socket handlers (src/socket/socket-handlers.ts).

    Message text is a JS string, that is a sequence of UTF-16 code units,
    because the cipher path transcodes it to UTF-8 and back.  Identifiers,
    names, keys and hex/JSON text are ASCII strings.  A MongoDB collection is
    a finite map from the [_id] of a document to the document, the [_id]
    being a string or an ObjectId; a filter on [_id] is a lookup by that
    value, and a string never matches an ObjectId.  What Node's [crypto]
    and [JSON] compute is a parameter of the development, the class
    [Platform]. *)

From Stdlib Require Import ZArith NArith Lia Strings.Byte Ascii String.
From stdpp Require Import base option list strings gmap sorting.

Local Open Scope N_scope.

(** ** Buffers and transcodings *)

(** A JS string: its UTF-16 code units, each below [0x10000]. *)
Definition jsstring := list N.

(** The code units of an ASCII literal. *)
Fixpoint js (s : string) : jsstring :=
  match s with
  | EmptyString => []
  | String c r => N_of_ascii c :: js r
  end.

Global Instance byte_eq_dec : EqDecision byte := Byte.byte_eq_dec.

Module Buffer.

Definition byte_of_N (n : N) : byte :=
  match Byte.of_N (n mod 256) with
  | Some b => b
  | None => x00
  end.

(** *** [buf.toString('hex')] and [Buffer.from(s, 'hex')] *)

Definition hex_digit (n : N) : ascii :=
  match n with
  | 0 => "0" | 1 => "1" | 2 => "2" | 3 => "3"
  | 4 => "4" | 5 => "5" | 6 => "6" | 7 => "7"
  | 8 => "8" | 9 => "9" | 10 => "a" | 11 => "b"
  | 12 => "c" | 13 => "d" | 14 => "e" | _ => "f"
  end%char.

(** Digits are accepted in either case when decoding. *)
Definition hex_value (c : ascii) : option N :=
  let n := N_of_ascii c in
  if (48 <=? n) && (n <=? 57) then Some (n - 48)
  else if (97 <=? n) && (n <=? 102) then Some (n - 87)
  else if (65 <=? n) && (n <=? 70) then Some (n - 55)
  else None.

Fixpoint toString_hex (buf : list byte) : string :=
  match buf with
  | [] => EmptyString
  | b :: r =>
      String (hex_digit (Byte.to_N b / 16))
        (String (hex_digit (Byte.to_N b mod 16)) (toString_hex r))
  end.

(** Decoding stops at the first pair that is not two hex digits; a
    trailing single character is dropped. *)
Fixpoint from_hex (s : string) : list byte :=
  match s with
  | String c1 (String c2 r) =>
      match hex_value c1, hex_value c2 with
      | Some h, Some l => byte_of_N (16 * h + l) :: from_hex r
      | _, _ => []
      end
  | _ => []
  end.

(** *** UTF-8 of a JS string *)

Definition is_high_surrogate (u : N) : bool := (0xD800 <=? u) && (u <=? 0xDBFF).
Definition is_low_surrogate (u : N) : bool := (0xDC00 <=? u) && (u <=? 0xDFFF).

(** U+FFFD in UTF-8. *)
Definition replacement : list byte := [xef; xbf; xbd].

(** [Buffer.from(s, 'utf8')]: a surrogate pair is one four-byte sequence,
    an unpaired surrogate is written as U+FFFD. *)
Fixpoint from_utf8 (s : jsstring) : list byte :=
  match s with
  | [] => []
  | u :: rest =>
      if u <? 0x80 then byte_of_N u :: from_utf8 rest
      else if u <? 0x800 then
        byte_of_N (0xC0 + u / 64) :: byte_of_N (0x80 + u mod 64) :: from_utf8 rest
      else if is_high_surrogate u then
        match rest with
        | l :: rest' =>
            if is_low_surrogate l then
              let cp := 0x10000 + (u - 0xD800) * 0x400 + (l - 0xDC00) in
              byte_of_N (0xF0 + cp / 0x40000)
                :: byte_of_N (0x80 + (cp / 0x1000) mod 64)
                :: byte_of_N (0x80 + (cp / 64) mod 64)
                :: byte_of_N (0x80 + cp mod 64)
                :: from_utf8 rest'
            else replacement ++ from_utf8 rest
        | [] => replacement
        end
      else if is_low_surrogate u then replacement ++ from_utf8 rest
      else
        byte_of_N (0xE0 + u / 0x1000)
          :: byte_of_N (0x80 + (u / 64) mod 64)
          :: byte_of_N (0x80 + u mod 64)
          :: from_utf8 rest
  end.

Definition in_range (lo hi : N) (b : byte) : bool :=
  (lo <=? Byte.to_N b) && (Byte.to_N b <=? hi).

Definition continuation (b : byte) : bool := in_range 0x80 0xBF b.

(** [buf.toString('utf8')]: an ill-formed sequence yields U+FFFD and
    decoding resumes at the byte that broke it. *)
Fixpoint toString_utf8 (buf : list byte) : jsstring :=
  match buf with
  | [] => []
  | b0 :: r0 =>
      let n0 := Byte.to_N b0 in
      if n0 <? 0x80 then n0 :: toString_utf8 r0
      else if in_range 0xC2 0xDF b0 then
        match r0 with
        | b1 :: r1 =>
            if continuation b1
            then (n0 - 0xC0) * 64 + (Byte.to_N b1 - 0x80) :: toString_utf8 r1
            else 0xFFFD :: toString_utf8 r0
        | [] => [0xFFFD]
        end
      else if in_range 0xE0 0xEF b0 then
        match r0 with
        | b1 :: r1 =>
            if in_range (if n0 =? 0xE0 then 0xA0 else 0x80)
                        (if n0 =? 0xED then 0x9F else 0xBF) b1
            then
              match r1 with
              | b2 :: r2 =>
                  if continuation b2
                  then (n0 - 0xE0) * 0x1000 + (Byte.to_N b1 - 0x80) * 64
                         + (Byte.to_N b2 - 0x80) :: toString_utf8 r2
                  else 0xFFFD :: toString_utf8 r1
              | [] => [0xFFFD]
              end
            else 0xFFFD :: toString_utf8 r0
        | [] => [0xFFFD]
        end
      else if in_range 0xF0 0xF4 b0 then
        match r0 with
        | b1 :: r1 =>
            if in_range (if n0 =? 0xF0 then 0x90 else 0x80)
                        (if n0 =? 0xF4 then 0x8F else 0xBF) b1
            then
              match r1 with
              | b2 :: r2 =>
                  if continuation b2 then
                    match r2 with
                    | b3 :: r3 =>
                        if continuation b3 then
                          let cp := (n0 - 0xF0) * 0x40000
                                    + (Byte.to_N b1 - 0x80) * 0x1000
                                    + (Byte.to_N b2 - 0x80) * 64
                                    + (Byte.to_N b3 - 0x80) in
                          0xD800 + (cp - 0x10000) / 0x400
                            :: 0xDC00 + (cp - 0x10000) mod 0x400
                            :: toString_utf8 r3
                        else 0xFFFD :: toString_utf8 r2
                    | [] => [0xFFFD]
                    end
                  else 0xFFFD :: toString_utf8 r1
              | [] => [0xFFFD]
              end
            else 0xFFFD :: toString_utf8 r0
        | [] => [0xFFFD]
        end
      else 0xFFFD :: toString_utf8 r0
  end.

(** Text that UTF-8 represents exactly: every unit is a 16-bit value and
    every surrogate is half of a pair. *)
Fixpoint well_formed (s : jsstring) : bool :=
  match s with
  | [] => true
  | u :: rest =>
      if is_high_surrogate u then
        match rest with
        | l :: rest' => is_low_surrogate l && well_formed rest'
        | [] => false
        end
      else if is_low_surrogate u then false
      else (u <? 0x10000) && well_formed rest
  end.

End Buffer.

(** ** The platform: randomness, cipher objects, JSON *)

(** [crypto.randomBytes(n)]: the next [n] bytes of a tape. *)
Record Entropy := { tape : nat -> byte; cursor : nat }.

Definition randomBytes (n : nat) (e : Entropy) : list byte * Entropy :=
  (tape e <$> seq (cursor e) n,
   {| tape := tape e; cursor := (cursor e + n)%nat |}).

(** What [encrypt] returns and [decrypt] takes. *)
Record EncryptedData := { encrypted : string; iv : string; tag : string }.

(** The library calls the service makes.  [createCipher] and
    [createDecipher] take an algorithm and a password and nothing else: the
    cipher's key and initialisation vector are both derived from the
    password. *)
Class Platform := {
  (** [crypto.createCipher(algorithm, password)], then [update] on the whole
      input, [final], and [getAuthTag()]: the ciphertext and the tag. *)
  cipher_run : string -> list byte -> list byte -> list byte * list byte;
  (** [crypto.createDecipher(algorithm, password)], [setAuthTag] when a tag
      is given, then [update] and [final]; [None] when one of them throws. *)
  decipher_run :
    string -> list byte -> option (list byte) -> list byte -> option (list byte);
  (** [JSON.stringify] of an [EncryptedData]. *)
  JSON_stringify : EncryptedData -> string;
  (** [JSON.parse] read as an [EncryptedData]; a field that is absent reads
      as the empty string, and [None] stands for text that does not parse or
      has no string [encrypted] field (the decipher throws on it). *)
  JSON_parse : string -> option EncryptedData;
}.

Module config.
Module encryption.
Definition algorithm : string := "aes-256-gcm".
Definition keyLength : nat := 32.
Definition ivLength : nat := 16.
End encryption.
End config.

(** An authenticated cipher under the configured algorithm: the tag is not
    empty, and the decipher created from the same password, given the tag,
    returns the input. *)
Class AuthenticatedCipher `{Platform} := {
  tag_nonempty : forall pw pt,
    snd (cipher_run config.encryption.algorithm pw pt) <> [];
  decipher_cipher : forall pw pt,
    decipher_run config.encryption.algorithm pw
      (Some (snd (cipher_run config.encryption.algorithm pw pt)))
      (fst (cipher_run config.encryption.algorithm pw pt)) = Some pt;
}.

(** [JSON.parse] gives back what [JSON.stringify] wrote, on the objects
    [encrypt] returns (three strings of hexadecimal digits). *)
Class JsonCodec `{Platform} := {
  parse_stringify : forall e i t : list byte,
    JSON_parse
      (JSON_stringify {| encrypted := Buffer.toString_hex e;
                         iv := Buffer.toString_hex i;
                         tag := Buffer.toString_hex t |})
    = Some {| encrypted := Buffer.toString_hex e;
              iv := Buffer.toString_hex i;
              tag := Buffer.toString_hex t |};
}.

(** JS truthiness of a string. *)
Definition truthy (s : string) : bool :=
  match s with EmptyString => false | _ => true end.

(** ** src/utils/encryption.ts *)

Module EncryptionService.
Section EncryptionService.
Context `{Platform}.

Definition algorithm := config.encryption.algorithm.
Definition keyLength := config.encryption.keyLength.
Definition ivLength := config.encryption.ivLength.

Definition generateKey (e : Entropy) : string * Entropy :=
  let '(bytes, e') := randomBytes keyLength e in
  (Buffer.toString_hex bytes, e').

Definition encrypt (text : jsstring) (key : string) (e : Entropy)
  : EncryptedData * Entropy :=
  let '(iv, e') := randomBytes ivLength e in
  let '(encrypted, tag) :=
    cipher_run algorithm (Buffer.from_hex key) (Buffer.from_utf8 text) in
  ({| encrypted := Buffer.toString_hex encrypted;
      iv := Buffer.toString_hex iv;
      tag := Buffer.toString_hex tag |}, e').

(** [None] when the call throws. *)
Definition decrypt (encryptedData : EncryptedData) (key : string)
  : option jsstring :=
  let authTag :=
    if truthy (tag encryptedData)
    then Some (Buffer.from_hex (tag encryptedData))
    else None in
  Buffer.toString_utf8 <$>
    decipher_run algorithm (Buffer.from_hex key) authTag
      (Buffer.from_hex (encrypted encryptedData)).

End EncryptionService.
End EncryptionService.

(** ** Documents *)

Module Message.
Record t := mk {
  _id : option string;
  chatId : string;
  senderId : string;
  senderName : string;
  content : jsstring;
  encryptedContent : option string;
  messageType : string;
  timestamp : Z;
  edited : option bool;
  editedAt : option Z;
  replyTo : option string;
  reactions : option (list (string * list string));
  fileUrl : option string;
  fileName : option string;
  fileSize : option Z;
}.

Global Instance eq_dec : EqDecision t.
Proof. solve_decision. Defined.
End Message.

(** [Omit<Message, '_id' | 'timestamp'>] *)
Module MessageData.
Record t := mk {
  chatId : string;
  senderId : string;
  senderName : string;
  content : jsstring;
  encryptedContent : option string;
  messageType : string;
  edited : option bool;
  editedAt : option Z;
  replyTo : option string;
  reactions : option (list (string * list string));
  fileUrl : option string;
  fileName : option string;
  fileSize : option Z;
}.
End MessageData.

Module ChatRoom.
Record t := mk {
  _id : option string;
  name : string;
  description : option string;
  participants : list string;
  createdBy : string;
  createdAt : Z;
  isPrivate : bool;
  encryptionKey : option string;
}.
End ChatRoom.

(** [Omit<ChatRoom, '_id' | 'createdAt'>] *)
Module RoomData.
Record t := mk {
  name : string;
  description : option string;
  participants : list string;
  createdBy : string;
  isPrivate : bool;
  encryptionKey : option string;
}.
End RoomData.

(** ** The world the service runs in *)

(** The [_id] of a stored document is a BSON value: a string, or an
    ObjectId such as the driver generates for a document inserted without
    an [_id].  An ObjectId is written by its 24 hexadecimal digits.  A
    filter [{ _id: s }] with [s] a string matches a document whose [_id]
    is that string and never one whose [_id] is an ObjectId, whatever its
    digits. *)
Inductive DocId : Type :=
  | IdString (s : string)
  | IdObject (hex : string).

Global Instance DocId_eq_dec : EqDecision DocId.
Proof. solve_decision. Defined.

Definition DocId_to_sum (k : DocId) : string + string :=
  match k with IdString s => inl s | IdObject hex => inr hex end.

Definition DocId_of_sum (x : string + string) : DocId :=
  match x with inl s => IdString s | inr hex => IdObject hex end.

Global Instance DocId_countable : Countable DocId.
Proof.
  refine (inj_countable' DocId_to_sum DocId_of_sum _). by intros [].
Defined.

(** The two collections, the id the driver hands out next, the random tape,
    the clock, and the service's static [encryptionKey].  A collection maps
    the [_id] of each document to the document; the [_id] field of the
    record has the id's text, which is what [toString()] and the JSON of
    an answer show. *)
Record World := {
  chatrooms : gmap DocId ChatRoom.t;
  messages : gmap DocId Message.t;
  next_oid : N;
  entropy : Entropy;
  now : Z;
  static_encryptionKey : string;
}.

(** Time passes: the clock reads [t] from now on. *)
Definition set_clock (t : Z) (w : World) : World :=
  {| chatrooms := chatrooms w; messages := messages w;
     next_oid := next_oid w; entropy := entropy w; now := t;
     static_encryptionKey := static_encryptionKey w |}.

(** The driver's 12-byte object id in hex, here the big-endian counter. *)
Fixpoint be_bytes (k : nat) (n : N) : list byte :=
  match k with
  | O => []
  | S k' => be_bytes k' (n / 256) ++ [Buffer.byte_of_N n]
  end.

Definition ObjectId (n : N) : string := Buffer.toString_hex (be_bytes 12 n).
Arguments ObjectId : simpl never.

(** A promise settles with a value or rejects with an error. *)
Inductive result (A : Type) : Type :=
  | Ok (a : A)
  | Throw (error : string).
Arguments Ok {A} a.
Arguments Throw {A} error.

Definition M (A : Type) : Type := World -> result A * World.

Global Instance M_ret : MRet M := fun A a w => (Ok a, w).
Global Instance M_bind : MBind M := fun A B k m w =>
  match m w with
  | (Ok a, w') => k a w'
  | (Throw e, w') => (Throw e, w')
  end.

Definition throw {A} (error : string) : M A := fun w => (Throw error, w).
Definition get : M World := fun w => (Ok w, w).

(** ** services/message-service *)

Module MessageService.
Section MessageService.
Context `{Platform}.

Definition with_entropy (e : Entropy) (w : World) : World :=
  {| chatrooms := chatrooms w; messages := messages w;
     next_oid := next_oid w; entropy := e; now := now w;
     static_encryptionKey := static_encryptionKey w |}.

Definition with_messages (ms : gmap DocId Message.t) (w : World) : World :=
  {| chatrooms := chatrooms w; messages := ms; next_oid := next_oid w;
     entropy := entropy w; now := now w;
     static_encryptionKey := static_encryptionKey w |}.

(** [private static encryptionKey = EncryptionService.generateKey()],
    evaluated once, when the class is loaded. *)
Definition load (w : World) : World :=
  let '(key, e') := EncryptionService.generateKey (entropy w) in
  {| chatrooms := chatrooms w; messages := messages w;
     next_oid := next_oid w; entropy := e'; now := now w;
     static_encryptionKey := key |}.

Definition room_with_id (id : string) (r : ChatRoom.t) : ChatRoom.t :=
  ChatRoom.mk (Some id) (ChatRoom.name r) (ChatRoom.description r)
    (ChatRoom.participants r) (ChatRoom.createdBy r) (ChatRoom.createdAt r)
    (ChatRoom.isPrivate r) (ChatRoom.encryptionKey r).

(** [db.collection('chatrooms').insertOne(room)]: the room has no [_id],
    so the driver gives it a new ObjectId and stores it under that; an
    ObjectId already present is a duplicate-key error.  The answer is
    [result.insertedId.toString()], the digits of the ObjectId. *)
Definition insert_chatroom (room : ChatRoom.t) : M string :=
  fun w =>
    let id := ObjectId (next_oid w) in
    match chatrooms w !! IdObject id with
    | Some _ => (Throw "E11000 duplicate key error", w)
    | None =>
        (Ok id,
         {| chatrooms := <[IdObject id := room_with_id id room]> (chatrooms w);
            messages := messages w;
            next_oid := next_oid w + 1; entropy := entropy w; now := now w;
            static_encryptionKey := static_encryptionKey w |})
    end.

Definition with_id (id : string) (m : Message.t) : Message.t :=
  Message.mk (Some id) (Message.chatId m) (Message.senderId m)
    (Message.senderName m) (Message.content m) (Message.encryptedContent m)
    (Message.messageType m) (Message.timestamp m) (Message.edited m)
    (Message.editedAt m) (Message.replyTo m) (Message.reactions m)
    (Message.fileUrl m) (Message.fileName m) (Message.fileSize m).

(** [db.collection('messages').insertOne(message)], likewise stored
    under a new ObjectId. *)
Definition insert_message (message : Message.t) : M string :=
  fun w =>
    let id := ObjectId (next_oid w) in
    match messages w !! IdObject id with
    | Some _ => (Throw "E11000 duplicate key error", w)
    | None =>
        (Ok id,
         {| chatrooms := chatrooms w;
            messages := <[IdObject id := with_id id message]> (messages w);
            next_oid := next_oid w + 1; entropy := entropy w; now := now w;
            static_encryptionKey := static_encryptionKey w |})
    end.

Definition set_messages (ms : gmap DocId Message.t) : M unit :=
  fun w => (Ok tt, with_messages ms w).

(** [EncryptionService.encrypt] on the world's random tape. *)
Definition encrypt (text : jsstring) (key : string) : M EncryptedData :=
  fun w =>
    let '(data, e') := EncryptionService.encrypt text key (entropy w) in
    (Ok data, with_entropy e' w).

Definition createChatRoom (roomData : RoomData.t) : M ChatRoom.t :=
  w ← get;
  let room :=
    ChatRoom.mk None (RoomData.name roomData) (RoomData.description roomData)
      (RoomData.participants roomData) (RoomData.createdBy roomData)
      (now w) (RoomData.isPrivate roomData)
      (Some (static_encryptionKey w)) in
  id ← insert_chatroom room;
  mret (room_with_id id room).

(** [findOne({ _id: roomId })], [roomId] a string. *)
Definition getChatRoom (roomId : string) : M (option ChatRoom.t) :=
  w ← get;
  mret (chatrooms w !! IdString roomId).

(** [room?.encryptionKey] when it is truthy. *)
Definition room_key (room : option ChatRoom.t) : option string :=
  match room with
  | Some r =>
      match ChatRoom.encryptionKey r with
      | Some k => if truthy k then Some k else None
      | None => None
      end
  | None => None
  end.

(** [{ ...messageData, encryptedContent, timestamp }] *)
Definition stamped (messageData : MessageData.t) (encryptedContent : string)
    (timestamp : Z) : Message.t :=
  Message.mk None
    (MessageData.chatId messageData) (MessageData.senderId messageData)
    (MessageData.senderName messageData) (MessageData.content messageData)
    (Some encryptedContent)
    (MessageData.messageType messageData)
    timestamp
    (MessageData.edited messageData) (MessageData.editedAt messageData)
    (MessageData.replyTo messageData) (MessageData.reactions messageData)
    (MessageData.fileUrl messageData) (MessageData.fileName messageData)
    (MessageData.fileSize messageData).

Definition sendMessage (messageData : MessageData.t) : M Message.t :=
  room ← getChatRoom (MessageData.chatId messageData);
  match room_key room with
  | None => throw "Chat room encryption key not found"
  | Some key =>
      encrypted ← encrypt (MessageData.content messageData) key;
      w ← get;
      let message := stamped messageData (JSON_stringify encrypted) (now w) in
      id ← insert_message message;
      mret (with_id id message)
  end.

Definition decryption_failed : jsstring :=
  js "[Encrypted message - decryption failed]".

Definition with_content (text : jsstring) (m : Message.t) : Message.t :=
  Message.mk (Message._id m) (Message.chatId m) (Message.senderId m)
    (Message.senderName m) text (Message.encryptedContent m)
    (Message.messageType m) (Message.timestamp m) (Message.edited m)
    (Message.editedAt m) (Message.replyTo m) (Message.reactions m)
    (Message.fileUrl m) (Message.fileName m) (Message.fileSize m).

(** What the [try] block of [getMessages] computes; [None] when
    [JSON.parse] or [decrypt] throws. *)
Definition decode (encryptedContent key : string) : option jsstring :=
  encryptedData ← JSON_parse encryptedContent;
  EncryptionService.decrypt encryptedData key.

(** The body of the [forEach]. *)
Definition decrypt_message (key : string) (message : Message.t) : Message.t :=
  match Message.encryptedContent message with
  | Some ec =>
      if truthy ec then
        match decode ec key with
        | Some text => with_content text message
        | None => with_content decryption_failed message
        end
      else message
  | None => message
  end.

(** [sort({ timestamp: -1 })] *)
Definition newer_first (a b : Message.t) : Prop :=
  (Message.timestamp b <= Message.timestamp a)%Z.

Global Instance newer_first_dec a b : Decision (newer_first a b).
Proof. unfold newer_first. apply _. Defined.

(** [find({ chatId }).sort({ timestamp: -1 })]: the room's log, newest
    first. *)
Definition room_log (chatId : string) (w : World) : list Message.t :=
  merge_sort newer_first
    (filter (fun m => Message.chatId m = chatId) (map_to_list (messages w)).*2).

(** [.limit(limit)]: a limit of 0 is no limit. *)
Definition cursor_limit (limit : nat) (docs : list Message.t) : list Message.t :=
  match limit with
  | O => docs
  | _ => take limit docs
  end.

(** [.limit(limit).skip(skip).toArray()]: the cursor skips, then limits. *)
Definition page (chatId : string) (limit skip : nat) (w : World)
  : list Message.t :=
  cursor_limit limit (drop skip (room_log chatId w)).

Definition getMessages (chatId : string) (limit skip : nat)
  : M (list Message.t) :=
  w ← get;
  let messages := page chatId limit skip w in
  room ← getChatRoom chatId;
  let messages :=
    match room_key room with
    | Some key => decrypt_message key <$> messages
    | None => messages
    end in
  mret (reverse messages).

(** [deleteOne({ _id: messageId, senderId: userId })], [messageId] a
    string. *)
Definition deleteMessage (messageId userId : string) : M bool :=
  w ← get;
  match messages w !! IdString messageId with
  | Some m =>
      if decide (Message.senderId m = userId) then
        _ ← set_messages (delete (IdString messageId) (messages w));
        mret true
      else mret false
  | None => mret false
  end.

(** The [$set] of [editMessage]. *)
Definition edit_set (newContent : jsstring) (encryptedContent : string)
    (editedAt : Z) (m : Message.t) : Message.t :=
  Message.mk (Message._id m) (Message.chatId m) (Message.senderId m)
    (Message.senderName m) newContent (Some encryptedContent)
    (Message.messageType m) (Message.timestamp m) (Some true)
    (Some editedAt) (Message.replyTo m) (Message.reactions m)
    (Message.fileUrl m) (Message.fileName m) (Message.fileSize m).

(** [findOne({ _id: messageId, senderId: userId })], [messageId] a
    string. *)
Definition find_own (messageId userId : string) (w : World) : option Message.t :=
  match messages w !! IdString messageId with
  | Some m => if decide (Message.senderId m = userId) then Some m else None
  | None => None
  end.

Definition editMessage (messageId userId : string) (newContent : jsstring)
  : M bool :=
  w ← get;
  match find_own messageId userId w with
  | None => mret false
  | Some message =>
      room ← getChatRoom (Message.chatId message);
      match room_key room with
      | None => mret false
      | Some key =>
          encrypted ← encrypt newContent key;
          w ← get;
          (* updateOne: [modifiedCount] counts a document only when the
             update changed it *)
          match find_own messageId userId w with
          | Some old =>
              let new :=
                edit_set newContent (JSON_stringify encrypted) (now w) old in
              _ ← set_messages (<[IdString messageId := new]> (messages w));
              mret (bool_decide (new <> old))
          | None => mret false
          end
      end
  end.

(** One call of the service by the application, or the passing of
    time, and the world it leaves. *)
Inductive Call : Type :=
  | call_createChatRoom (roomData : RoomData.t)
  | call_getChatRoom (roomId : string)
  | call_sendMessage (messageData : MessageData.t)
  | call_getMessages (chatId : string) (limit skip : nat)
  | call_deleteMessage (messageId userId : string)
  | call_editMessage (messageId userId : string) (newContent : jsstring)
  | call_clock (t : Z).

Definition exec (c : Call) (w : World) : World :=
  match c with
  | call_createChatRoom roomData => snd (createChatRoom roomData w)
  | call_getChatRoom roomId => snd (getChatRoom roomId w)
  | call_sendMessage messageData => snd (sendMessage messageData w)
  | call_getMessages chatId limit skip => snd (getMessages chatId limit skip w)
  | call_deleteMessage messageId userId => snd (deleteMessage messageId userId w)
  | call_editMessage messageId userId newContent =>
      snd (editMessage messageId userId newContent w)
  | call_clock t => set_clock t w
  end.

Definition execs (cs : list Call) (w : World) : World :=
  fold_left (fun w c => exec c w) cs w.

End MessageService.
End MessageService.

(** ** The authenticated principal *)

Record User := { id : string; email : string; displayName : option string }.

(** [user.displayName || user.email] *)
Definition display_name (user : User) : string :=
  match displayName user with
  | Some n => if truthy n then n else email user
  | None => email user
  end.

(** ** src/routes/message-routes.ts *)

Module validator.

Definition is_hex_digit (c : ascii) : bool :=
  match Buffer.hex_value c with Some _ => true | None => false end.

Fixpoint all_hex (s : string) : bool :=
  match s with
  | EmptyString => true
  | String c r => is_hex_digit c && all_hex r
  end.

(** One hexadecimal digit or more. *)
Definition hex_digits (s : string) : bool := truthy s && all_hex s.

(** [isHexadecimal]: a match of [/^(0x|0h)?[0-9A-F]+$/i]. *)
Definition isHexadecimal (s : string) : bool :=
  hex_digits s
  || match s with
     | String "0"%char (String c r) =>
         bool_decide (c ∈ ["x"; "X"; "h"; "H"]%char) && hex_digits r
     | _ => false
     end.

(** [isMongoId]: [isHexadecimal(str) && str.length === 24]. *)
Definition isMongoId (s : string) : bool :=
  isHexadecimal s && bool_decide (String.length s = 24%nat).

(** The matches of [/[\uD800-\uDBFF][\uDC00-\uDFFF]/g]. *)
Fixpoint surrogate_pairs (s : jsstring) : nat :=
  match s with
  | [] => O
  | u :: rest =>
      if Buffer.is_high_surrogate u then
        match rest with
        | l :: rest' =>
            if Buffer.is_low_surrogate l then S (surrogate_pairs rest')
            else surrogate_pairs rest
        | [] => O
        end
      else surrogate_pairs rest
  end.

(** The length [isLength] measures: code units, a surrogate pair counting
    once. *)
Definition units (s : jsstring) : nat := (length s - surrogate_pairs s)%nat.

Definition isLength (min max : nat) (s : jsstring) : bool :=
  bool_decide (min <= units s)%nat && bool_decide (units s <= max)%nat.

Definition isIn (values : list string) (s : string) : bool :=
  bool_decide (s ∈ values).

End validator.

(** The JSON bodies the message routes answer with. *)
Inductive Json : Type :=
  | JsonError (error : string)
  | JsonValidationFailed (details : list string)
  | JsonInfo (message : string)
  | JsonMessage (m : Message.t).

Record Response := { status : nat; json : Json }.

(** middleware/security *)
Module security.

(** [validateRequest]: a failed check answers 400 and the handler does
    not run.  [errors] lists the fields that failed. *)
Definition validateRequest (errors : list string)
    (next : World -> Response * World) : World -> Response * World :=
  fun w =>
    match errors with
    | [] => next w
    | _ => ({| status := 400; json := JsonValidationFailed errors |}, w)
    end.

End security.

(** A request is taken as it reaches its route, authenticated and past the
    security middleware. *)
Module message_routes.
Section message_routes.
Context `{Platform}.

Definition check (field : string) (ok : bool) : list string :=
  if ok then [] else [field].

(** The body of [POST /rooms/:roomId/messages]; a field that is absent
    reads as empty. *)
Record SendBody := {
  body_content : jsstring;
  body_messageType : string;
  body_replyTo : option string;
}.

Definition message_data (user : User) (chatId : string) (content : jsstring)
    (messageType : string) (replyTo : option string) : MessageData.t :=
  MessageData.mk chatId (id user) (display_name user) content None
    messageType None None replyTo None None None None.

Definition POST_rooms_messages (user : User) (roomId : string)
    (body : SendBody) : World -> Response * World :=
  security.validateRequest
    (check "roomId" (validator.isMongoId roomId)
     ++ check "content" (validator.isLength 1 5000 (body_content body))
     ++ check "messageType"
          (validator.isIn ["text"; "file"; "image"] (body_messageType body)))
    (fun w =>
       match MessageService.sendMessage
               (message_data user roomId (body_content body)
                  (body_messageType body) (body_replyTo body)) w with
       | (Ok message, w') => ({| status := 201; json := JsonMessage message |}, w')
       | (Throw _, w') =>
           ({| status := 500; json := JsonError "Failed to send message" |}, w')
       end).

Definition PUT_messages (user : User) (messageId : string)
    (content : jsstring) : World -> Response * World :=
  security.validateRequest
    (check "messageId" (validator.isMongoId messageId)
     ++ check "content" (validator.isLength 1 5000 content))
    (fun w =>
       match MessageService.editMessage messageId (id user) content w with
       | (Ok success, w') =>
           if success
           then ({| status := 200;
                    json := JsonInfo "Message updated successfully" |}, w')
           else ({| status := 404;
                    json := JsonError "Message not found or unauthorized" |}, w')
       | (Throw _, w') =>
           ({| status := 500; json := JsonError "Failed to edit message" |}, w')
       end).

Definition DELETE_messages (user : User) (messageId : string)
  : World -> Response * World :=
  security.validateRequest
    (check "messageId" (validator.isMongoId messageId))
    (fun w =>
       match MessageService.deleteMessage messageId (id user) w with
       | (Ok success, w') =>
           if success
           then ({| status := 200;
                    json := JsonInfo "Message deleted successfully" |}, w')
           else ({| status := 404;
                    json := JsonError "Message not found or unauthorized" |}, w')
       | (Throw _, w') =>
           ({| status := 500; json := JsonError "Failed to delete message" |}, w')
       end).

End message_routes.
End message_routes.

(** ** src/socket/socket-handlers.ts *)

(** A connected socket: its authenticated user and the rooms it is in. *)
Record Socket := { user : User; rooms : gset string }.

(** The id of the [n]-th socket to connect: 20 characters, never used
    twice. *)
Definition socket_id (n : N) : string := Buffer.toString_hex (be_bytes 10 n).
Arguments socket_id : simpl never.

Record Server := {
  world : World;
  sockets : gmap string Socket;
  next_sid : N;
}.

(** What a client sends. *)
Inductive ClientEvent : Type :=
  | join_rooms (roomIds : list string)
  | send_message (chatId : string) (content : jsstring)
      (messageType : option string) (replyTo : option string)
  | typing_start (chatId : string)
  | typing_stop (chatId : string)
  | edit_message (messageId : string) (content : jsstring)
  | delete_message (messageId : string)
  | update_status (status : string)
  | disconnect.

(** What the server emits. *)
Inductive ServerEvent : Type :=
  | new_message (message : Message.t)
  | user_typing (userId userName : string)
  | user_stopped_typing (userId : string)
  | message_edited (id : string) (content : jsstring) (edited : bool) (editedAt : Z)
  | message_deleted (messageId : string)
  | error (message : string)
  | user_status_changed (userId status : string)
  | user_offline (userId : string).

(** Whom an emit addresses:
    [io.to(room)], [socket.to(room)], [socket], [socket.broadcast]. *)
Inductive Target : Type :=
  | io_to (room : string)
  | socket_to (sid : string) (room : string)
  | socket_self (sid : string)
  | socket_broadcast (sid : string).

(** The sockets that are in a room. *)
Definition joined (room : string) (socks : gmap string Socket) : gset string :=
  dom (filter (fun kv => room ∈ rooms kv.2) socks).

(** The sockets an emit reaches. *)
Definition recipients (socks : gmap string Socket) (t : Target) : gset string :=
  match t with
  | io_to room => joined room socks
  | socket_to sid room => joined room socks ∖ {[sid]}
  | socket_self sid => {[sid]} ∩ dom socks
  | socket_broadcast sid => dom socks ∖ {[sid]}
  end.

(** One emit as it went out: the address, the sockets it reached and the
    event. *)
Record Delivery := {
  target : Target;
  reached : gset string;
  event : ServerEvent;
}.

Module socket_handlers.
Section socket_handlers.
Context `{Platform}.

Definition emit (sv : Server) (t : Target) (e : ServerEvent) : Delivery :=
  {| target := t; reached := recipients (sockets sv) t; event := e |}.

Definition with_world (w : World) (sv : Server) : Server :=
  {| world := w; sockets := sockets sv; next_sid := next_sid sv |}.

Definition with_sockets (socks : gmap string Socket) (sv : Server) : Server :=
  {| world := world sv; sockets := socks; next_sid := next_sid sv |}.

(** [io.on('connection', ...)] for a socket that passed the
    authentication middleware.  The library puts every socket in the room
    named by the socket's own id. *)
Definition connection (u : User) (sv : Server) : Server :=
  let sid := socket_id (next_sid sv) in
  {| world := world sv;
     sockets := <[sid := {| user := u; rooms := {[sid]} |}]> (sockets sv);
     next_sid := next_sid sv + 1 |}.

(** The handlers registered on one socket. *)
Definition on (sid : string) (socket : Socket) (ev : ClientEvent) (sv : Server)
  : Server * list Delivery :=
  let user := user socket in
  match ev with
  | join_rooms roomIds =>
      (with_sockets
         (<[sid := {| user := user;
                      rooms := rooms socket ∪ list_to_set roomIds |}]>
            (sockets sv)) sv, [])
  | send_message chatId content messageType replyTo =>
      let messageType := default "text" messageType in
      match MessageService.sendMessage
              (message_routes.message_data user chatId content messageType
                 replyTo) (world sv) with
      | (Ok message, w') =>
          let sv' := with_world w' sv in
          (sv', [emit sv' (io_to chatId) (new_message message)])
      | (Throw _, w') =>
          let sv' := with_world w' sv in
          (sv', [emit sv' (socket_self sid) (error "Failed to send message")])
      end
  | typing_start chatId =>
      (sv, [emit sv (socket_to sid chatId)
              (user_typing (id user) (display_name user))])
  | typing_stop chatId =>
      (sv, [emit sv (socket_to sid chatId) (user_stopped_typing (id user))])
  | edit_message messageId content =>
      match MessageService.editMessage messageId (id user) content (world sv) with
      | (Ok true, w') =>
          let sv' := with_world w' sv in
          let message := message_edited messageId content true (now w') in
          (sv', [emit sv' (socket_self sid) message;
                 emit sv' (socket_broadcast sid) message])
      | (_, w') =>
          let sv' := with_world w' sv in
          (sv', [emit sv' (socket_self sid) (error "Failed to edit message")])
      end
  | delete_message messageId =>
      match MessageService.deleteMessage messageId (id user) (world sv) with
      | (Ok true, w') =>
          let sv' := with_world w' sv in
          (sv', [emit sv' (socket_self sid) (message_deleted messageId);
                 emit sv' (socket_broadcast sid) (message_deleted messageId)])
      | (_, w') =>
          let sv' := with_world w' sv in
          (sv', [emit sv' (socket_self sid) (error "Failed to delete message")])
      end
  | update_status status =>
      (sv, [emit sv (socket_broadcast sid) (user_status_changed (id user) status)])
  | disconnect =>
      let sv' := with_sockets (delete sid (sockets sv)) sv in
      (sv', [emit sv' (socket_broadcast sid) (user_offline (id user))])
  end.

(** What reaches the server: a new connection, or an event from a
    socket, or the passing of time; an event from a socket that is not
    connected runs no handler. *)
Inductive Input : Type :=
  | connect (u : User)
  | from (sid : string) (ev : ClientEvent)
  | clock (t : Z).

Definition step (i : Input) (sv : Server) : Server * list Delivery :=
  match i with
  | connect u => (connection u sv, [])
  | clock t => (with_world (set_clock t (world sv)) sv, [])
  | from sid ev =>
      match sockets sv !! sid with
      | Some socket => on sid socket ev sv
      | None => (sv, [])
      end
  end.

(** A run of the server, with everything it emitted, in order. *)
Fixpoint run (inputs : list Input) (sv : Server) : Server * list Delivery :=
  match inputs with
  | [] => (sv, [])
  | i :: rest =>
      let '(sv', out) := step i sv in
      let '(sv'', out') := run rest sv' in
      (sv'', out ++ out')
  end.

(** Socket [sid] asked, somewhere in [inputs], to join [room]. *)
Definition asked_to_join (sid room : string) (inputs : list Input) : Prop :=
  exists roomIds, from sid (join_rooms roomIds) ∈ inputs /\ room ∈ roomIds.

(** A socket is in a room only if the room is the one named by its own id
    or it asked to join it. *)
Definition joins_recorded (inputs : list Input) (socks : gmap string Socket)
  : Prop :=
  forall s socket room,
    socks !! s = Some socket -> room ∈ rooms socket ->
    room = s \/ asked_to_join s room inputs.

End socket_handlers.
End socket_handlers.

(** ** A reference platform

    A small instance of [Platform] on which the service can be run: a cipher
    that shifts each byte by the password (the password read cyclically)
    and tags the ciphertext with a 16-byte checksum keyed by the password,
    and JSON text in the one layout [JSON.stringify] gives an
    [EncryptedData]. *)

Module Reference.

Definition key_at (pw : list byte) (i : nat) : N :=
  match pw with
  | [] => 0
  | _ => Byte.to_N (nth (i mod length pw) pw x00)
  end.

Fixpoint shift (f : N -> N -> N) (pw : list byte) (i : nat) (l : list byte)
  : list byte :=
  match l with
  | [] => []
  | b :: r =>
      Buffer.byte_of_N (f (Byte.to_N b) (key_at pw i)) :: shift f pw (S i) r
  end.

Definition checksum (pw ct : list byte) : N :=
  fold_left (fun acc b => (acc * 257 + Byte.to_N b + 1) mod 2 ^ 128)
    (pw ++ ct) 0.

Definition auth_tag (pw ct : list byte) : list byte :=
  be_bytes 16 (checksum pw ct).

Definition cipher (alg : string) (pw pt : list byte) : list byte * list byte :=
  let ct := shift (fun b k => b + k) pw 0 pt in
  (ct, auth_tag pw ct).

Definition decipher (alg : string) (pw : list byte)
    (authTag : option (list byte)) (ct : list byte) : option (list byte) :=
  match authTag with
  | Some t =>
      if decide (t = auth_tag pw ct)
      then Some (shift (fun b k => b + 256 - k) pw 0 ct)
      else None
  | None => None
  end.

Definition dquote : ascii := "034"%char.

Definition quoted (s : string) : string :=
  String dquote (s +:+ String dquote EmptyString).

Definition stringify (d : EncryptedData) : string :=
  "{" +:+ quoted "encrypted" +:+ ":" +:+ quoted (encrypted d)
    +:+ "," +:+ quoted "iv" +:+ ":" +:+ quoted (iv d)
    +:+ "," +:+ quoted "tag" +:+ ":" +:+ quoted (tag d) +:+ "}".

Fixpoint strip (prefix s : string) : option string :=
  match prefix with
  | EmptyString => Some s
  | String c p =>
      match s with
      | String c' s' => if decide (c = c') then strip p s' else None
      | EmptyString => None
      end
  end.

(** The text up to the closing quote, and what follows it; escapes are
    not read. *)
Fixpoint until_quote (s : string) : option (string * string) :=
  match s with
  | EmptyString => None
  | String c r =>
      if decide (c = dquote) then Some (EmptyString, r)
      else if decide (c = "\"%char) then None
      else '(a, b) ← until_quote r; Some (String c a, b)
  end.

Definition parse (s : string) : option EncryptedData :=
  s ← strip ("{" +:+ quoted "encrypted" +:+ ":" +:+ String dquote EmptyString) s;
  '(e, s) ← until_quote s;
  s ← strip ("," +:+ quoted "iv" +:+ ":" +:+ String dquote EmptyString) s;
  '(i, s) ← until_quote s;
  s ← strip ("," +:+ quoted "tag" +:+ ":" +:+ String dquote EmptyString) s;
  '(t, s) ← until_quote s;
  match s with
  | "}" => Some {| encrypted := e; iv := i; tag := t |}
  | _ => None
  end.

Definition platform : Platform :=
  {| cipher_run := cipher; decipher_run := decipher;
     JSON_stringify := stringify; JSON_parse := parse |}.

(** A random tape and a world to run examples in. *)
Definition a_tape (i : nat) : byte := Buffer.byte_of_N (N.of_nat (i * 37 + 11)).

(** The service just loaded, on an empty database. *)
Definition boot : World :=
  MessageService.load
    {| chatrooms := ∅; messages := ∅; next_oid := 1;
       entropy := {| tape := a_tape; cursor := 0 |}; now := 1700000000000;
       static_encryptionKey := EmptyString |}.

End Reference.

(** ** Example data *)

Module Example.
Import Reference.
Local Existing Instance platform.

Definition alice : User :=
  {| id := "u1"; email := "alice@example.org"; displayName := Some "Alice" |}.
Definition bob : User :=
  {| id := "u2"; email := "bob@example.org"; displayName := Some "Bob" |}.
Definition carol : User :=
  {| id := "u3"; email := "carol@example.org"; displayName := None |}.

(** The key generated when the service was loaded. *)
Definition a_key : string := static_encryptionKey boot.

Definition general : RoomData.t :=
  RoomData.mk "general" None ["u1"] "u1" false None.
Definition random : RoomData.t :=
  RoomData.mk "random" None ["u2"] "u2" false None.

(** The room "general" is created first and gets the first id. *)
Definition general_id : string := ObjectId 1.
Definition w_created : World := (MessageService.createChatRoom general boot).2.

(** Alice says hello in "general". *)
Definition hello : MessageData.t :=
  message_routes.message_data alice general_id (js "hello") "text" None.
Definition hello_id : string := ObjectId 2.

Definition general_room : ChatRoom.t :=
  ChatRoom.mk (Some general_id) "general" None ["u1"] "u1" 1700000000000 false
    (Some a_key).

Definition hello_message : Message.t :=
  Message.mk (Some hello_id) general_id "u1" "Alice" (js "hello")
    (Some (stringify
             {| encrypted := "7395c1e60e";
                iv := "abd0f51a3f6489aed3f81d42678cb1d6";
                tag := "bfc9548fb60d3230c434c862e7c81ef2" |}))
    "text" 1700000000000 None None None None None None None.

(** A second room, created after "general". *)
Definition random_id : string := ObjectId 2.
Definition random_room : ChatRoom.t :=
  ChatRoom.mk (Some random_id) "random" None ["u2"] "u2" 1700000000000 false
    (Some a_key).
Definition w_random : World := (MessageService.createChatRoom random w_created).2.

(** The same service on a database that was brought in from a JSON dump,
    where every [_id] is a string: "general" is there under its id as a
    string. *)
Definition w_general : World :=
  {| chatrooms := {[IdString general_id := general_room]}; messages := ∅;
     next_oid := 2; entropy := entropy boot; now := now boot;
     static_encryptionKey := a_key |}.

(** Alice says hello in "general": the message is stored under the
    ObjectId the driver gives it. *)
Definition w_sent : World := (MessageService.sendMessage hello w_general).2.

(** The database with Alice's message brought in from a dump too, its
    [_id] a string. *)
Definition w_hello : World :=
  MessageService.with_messages {[IdString hello_id := hello_message]} w_sent.

(** A body with no text. *)
Definition blank_body : message_routes.SendBody :=
  {| message_routes.body_content := [];
     message_routes.body_messageType := "text";
     message_routes.body_replyTo := None |}.
Definition hello_body : message_routes.SendBody :=
  {| message_routes.body_content := js "hello";
     message_routes.body_messageType := "text";
     message_routes.body_replyTo := None |}.

(** A message of the kind [system], which the [Message] type lists. *)
Definition system_body : message_routes.SendBody :=
  {| message_routes.body_content := js "hello";
     message_routes.body_messageType := "system";
     message_routes.body_replyTo := None |}.

(** An id that names no message. *)
Definition no_such_id : string := ObjectId 99.

(** A second message whose stored ciphertext was damaged. *)
Definition w_damaged : World :=
  let w := (MessageService.sendMessage
              (message_routes.message_data bob general_id (js "second")
                 "text" None)
              (set_clock 1700000000500 w_hello)).2 in
  MessageService.with_messages
    (alter (MessageService.edit_set (js "second") "not json" 1700000000900)
       (IdObject (ObjectId 3)) (messages w)) w.

Definition damaged_message : Message.t :=
  Message.mk (Some (ObjectId 3)) general_id "u2" "Bob" (js "second")
    (Some "not json") "text" 1700000000500 (Some true) (Some 1700000000900%Z)
    None None None None None.

(** The same messages when the room "general" is gone. *)
Definition w_roomless : World :=
  {| chatrooms := ∅; messages := messages w_damaged;
     next_oid := next_oid w_damaged; entropy := entropy w_damaged;
     now := now w_damaged;
     static_encryptionKey := static_encryptionKey w_damaged |}.

(** Alice, Bob and Carol connect; Alice and Bob join "general". *)
Definition sv_start : Server :=
  {| world := w_general; sockets := ∅; next_sid := 0 |}.
Definition alice_socket : string := socket_id 0.
Definition bob_socket : string := socket_id 1.
Definition carol_socket : string := socket_id 2.
Definition three_connected : list socket_handlers.Input :=
  [socket_handlers.connect alice; socket_handlers.connect bob;
   socket_handlers.connect carol;
   socket_handlers.from alice_socket (join_rooms [general_id]);
   socket_handlers.from bob_socket (join_rooms [general_id])].
Definition sv_joined : Server := (socket_handlers.run three_connected sv_start).1.

(** The sockets of Alice, Bob and Carol from then on. *)
Definition alice_connected : Socket :=
  {| user := alice; rooms := {[alice_socket]} ∪ list_to_set [general_id] |}.
Definition bob_connected : Socket :=
  {| user := bob; rooms := {[bob_socket]} ∪ list_to_set [general_id] |}.
Definition carol_connected : Socket :=
  {| user := carol; rooms := {[carol_socket]} |}.

(** Then Alice says hello in "general". *)
Definition talking : list socket_handlers.Input :=
  three_connected
    ++ [socket_handlers.from alice_socket
          (send_message general_id (js "hello") None None)].
Definition sv_talking : Server := (socket_handlers.run talking sv_start).1.

(** Alice starts typing in "general": what goes out. *)
Definition alice_types : socket_handlers.Input :=
  socket_handlers.from alice_socket (typing_start general_id).
Definition typing_delivery : Delivery :=
  socket_handlers.emit sv_talking (socket_to alice_socket general_id)
    (user_typing "u1" "Alice").

End Example.

(** ** Passwords (src/utils/encryption.ts, [hashPassword] and [verifyPassword]) *)

(** [s.split(sep)]: the pieces between the separators, at least one. *)
Fixpoint split (sep : ascii) (s : string) : list string :=
  match s with
  | EmptyString => [EmptyString]
  | String c r =>
      if decide (c = sep) then EmptyString :: split sep r
      else
        match split sep r with
        | piece :: pieces => String c piece :: pieces
        | [] => [String c EmptyString]
        end
  end.

(** The bytes a string argument is read as. *)
Definition utf8 (s : string) : list byte := Buffer.from_utf8 (js s).

Module Passwords.
Section Passwords.

(** [crypto.scrypt(password, salt, keylen, callback)]: the derived key the
    callback receives. *)
Variable scrypt : list byte -> list byte -> nat -> list byte.

Definition hashPassword (password : jsstring) (e : Entropy) : string * Entropy :=
  let '(bytes, e') := randomBytes 32 e in
  let salt := Buffer.toString_hex bytes in
  let derivedKey := scrypt (Buffer.from_utf8 password) (utf8 salt) 64 in
  (salt +:+ ":" +:+ Buffer.toString_hex derivedKey, e').

(** [const [salt, key] = hash.split(':')]; a [key] that is missing is
    [undefined] and equals no string. *)
Definition verifyPassword (password : jsstring) (hash : string) : bool :=
  match split ":" hash with
  | salt :: key :: _ =>
      let derivedKey := scrypt (Buffer.from_utf8 password) (utf8 salt) 64 in
      bool_decide (key = Buffer.toString_hex derivedKey)
  | _ => false
  end.

End Passwords.
End Passwords.

(** ** Rooms of a user (services/message-service, [getUserChatRooms]) *)

Module RoomDirectory.

(** [sort({ createdAt: -1 })] *)
Definition newer_room_first (a b : ChatRoom.t) : Prop :=
  (ChatRoom.createdAt b <= ChatRoom.createdAt a)%Z.

Global Instance newer_room_first_dec a b : Decision (newer_room_first a b).
Proof. unfold newer_room_first. apply _. Defined.

(** [find({ participants: userId }).sort({ createdAt: -1 }).toArray()]:
    a filter on an array field matches the documents whose array holds
    the value. *)
Definition getUserChatRooms (userId : string) : M (list ChatRoom.t) :=
  w ← get;
  mret (merge_sort newer_room_first
          (filter (fun r => userId ∈ ChatRoom.participants r)
             (map_to_list (chatrooms w)).*2)).

End RoomDirectory.

(** ** The room routes (src/routes/message-routes.ts, [/rooms]) *)

Inductive RoomsJson : Type :=
  | RoomsError (error : string)
  | RoomsValidationFailed (details : list string)
  | RoomCreated (room : ChatRoom.t)
  | RoomList (rooms : list ChatRoom.t).

Record RoomsResponse := { rooms_status : nat; rooms_json : RoomsJson }.

Module room_routes.

(** [validateRequest] in front of a route that answers with rooms. *)
Definition validateRequest (errors : list string)
    (next : World -> RoomsResponse * World) : World -> RoomsResponse * World :=
  fun w =>
    match errors with
    | [] => next w
    | _ => ({| rooms_status := 400; rooms_json := RoomsValidationFailed errors |}, w)
    end.

(** The body of [POST /rooms], its [isPrivate] a JSON boolean; a [name]
    that is absent reads as empty. *)
Record RoomBody := {
  body_name : string;
  body_description : option string;
  body_isPrivate : bool;
}.

(** [body('description').optional().isLength({ max: 500 })] *)
Definition description_ok (description : option string) : bool :=
  match description with
  | Some text => validator.isLength 0 500 (js text)
  | None => true
  end.

Definition POST_rooms (user : User) (body : RoomBody)
  : World -> RoomsResponse * World :=
  validateRequest
    (message_routes.check "name" (validator.isLength 1 100 (js (body_name body)))
     ++ message_routes.check "description" (description_ok (body_description body)))
    (fun w =>
       match MessageService.createChatRoom
               (RoomData.mk (body_name body) (body_description body) [id user]
                  (id user) (body_isPrivate body) None) w with
       | (Ok room, w') => ({| rooms_status := 201; rooms_json := RoomCreated room |}, w')
       | (Throw _, w') =>
           ({| rooms_status := 500;
               rooms_json := RoomsError "Failed to create chat room" |}, w')
       end).

Definition GET_rooms (user : User) : World -> RoomsResponse * World :=
  fun w =>
    match RoomDirectory.getUserChatRooms (id user) w with
    | (Ok rooms, w') => ({| rooms_status := 200; rooms_json := RoomList rooms |}, w')
    | (Throw _, w') =>
        ({| rooms_status := 500;
            rooms_json := RoomsError "Failed to get chat rooms" |}, w')
    end.

End room_routes.

(** ** Sockets (src/socket/socket-handlers.ts) *)

(** The events that announce a change to a stored message. *)
Definition announcement (e : ServerEvent) : bool :=
  match e with
  | message_edited _ _ _ _ | message_deleted _ => true
  | _ => false
  end.

(** ** More example data *)

Module MoreExample.
Import Reference Example socket_handlers.
Local Existing Instance platform.

(** A stand-in for scrypt, good enough to run the password functions. *)
Definition toy_scrypt (password salt : list byte) (keylen : nat) : list byte :=
  take keylen (password ++ salt ++ repeat x00 keylen).

(** A stored hash with no separator in it. *)
Definition no_colon : string := "deadbeef".

(** The world before the service is loaded. *)
Definition unloaded : World :=
  {| chatrooms := ∅; messages := ∅; next_oid := 1;
     entropy := {| tape := a_tape; cursor := 0 |}; now := 1700000000000;
     static_encryptionKey := EmptyString |}.

(** What the service is asked after "general" was created. *)
Definition later_calls : list MessageService.Call :=
  [MessageService.call_sendMessage hello;
   MessageService.call_createChatRoom random;
   MessageService.call_deleteMessage hello_id "u1"].

(** Alice's message left behind in a database that lost its rooms. *)
Definition w_orphan : World :=
  {| chatrooms := ∅; messages := messages w_hello; next_oid := next_oid w_hello;
     entropy := entropy w_hello; now := now w_hello;
     static_encryptionKey := static_encryptionKey w_hello |}.

(** An id that is no object id. *)
Definition short_id : string := "2a".

(** Bodies for [POST /rooms]. *)
Definition general_body : room_routes.RoomBody :=
  {| room_routes.body_name := "general";
     room_routes.body_description := None;
     room_routes.body_isPrivate := false |}.
Definition nameless_body : room_routes.RoomBody :=
  {| room_routes.body_name := EmptyString;
     room_routes.body_description := Some "a room without a name";
     room_routes.body_isPrivate := true |}.

(** Alice leaves, then Bob starts typing in "general". *)
Definition bob_types : list Input := [from bob_socket (typing_start general_id)].
Definition sv_left : Server :=
  (run (from alice_socket disconnect :: bob_types) sv_talking).1.
Definition bob_typing_delivery : Delivery :=
  emit sv_left (socket_to bob_socket general_id) (user_typing "u2" "Bob").

(** The three sockets on the database that holds Alice's message under
    its id as a string. *)
Definition sv_seeded : Server := with_world w_hello sv_joined.

(** Alice edits her message. *)
Definition alice_edits : ClientEvent := edit_message hello_id (js "hello!").
Definition w_edited : World :=
  (MessageService.editMessage hello_id "u1" (js "hello!") w_hello).2.

(** Bob tries to delete Alice's message. *)
Definition bob_deletes : ClientEvent := delete_message hello_id.

(** Alice says hello in "general": what goes out. *)
Definition alice_says_hello : ClientEvent :=
  send_message general_id (js "hello") None None.
Definition hello_delivery : Delivery :=
  emit sv_joined (io_to general_id) (new_message hello_message).

(** The same after Carol, no participant of "general", asked to join
    it. *)
Definition carol_joins : Input := from carol_socket (join_rooms [general_id]).
Definition sv_carol_joined : Server := (run [carol_joins] sv_joined).1.

End MoreExample.
Module BufferFacts.
Import Buffer.

Lemma to_N_byte_of_N (n : N) : n < 256 -> Byte.to_N (byte_of_N n) = n.
Proof.
  intros Hn. unfold byte_of_N.
  rewrite N.mod_small by exact Hn.
  destruct (Byte.of_N n) as [b|] eqn:E.
  - by apply Byte.to_of_N.
  - pose proof (Byte.to_of_N_option_map n) as H. rewrite E in H. simpl in H.
    destruct (N.leb_spec n 255); [discriminate | lia].
Qed.

Lemma byte_of_hex_digits (b : byte) :
  match hex_value (hex_digit (Byte.to_N b / 16)),
        hex_value (hex_digit (Byte.to_N b mod 16)) with
  | Some h, Some l => byte_of_N (16 * h + l) = b
  | _, _ => False
  end.
Proof. destruct b; vm_compute; reflexivity. Qed.

(** Hex text written by [toString_hex] reads back as the same bytes. *)
Lemma from_hex_toString_hex (buf : list byte) : from_hex (toString_hex buf) = buf.
Proof.
  induction buf as [|b r IH]; [reflexivity|].
  cbn [toString_hex from_hex].
  pose proof (byte_of_hex_digits b) as Hb.
  destruct (hex_value (hex_digit (Byte.to_N b / 16))) as [h|]; [|contradiction].
  destruct (hex_value (hex_digit (Byte.to_N b mod 16))) as [l|]; [|contradiction].
  by rewrite Hb, IH.
Qed.

(** *** UTF-8 *)

Ltac nlia := zify; Z.to_euclidean_division_equations; lia.

Lemma in_range_true lo hi b : lo <= Byte.to_N b <= hi -> in_range lo hi b = true.
Proof.
  intros [H1 H2]. unfold in_range.
  apply andb_true_intro; split; by apply N.leb_le.
Qed.

Lemma in_range_false lo hi b :
  Byte.to_N b < lo \/ hi < Byte.to_N b -> in_range lo hi b = false.
Proof.
  intros H. unfold in_range. apply andb_false_iff.
  destruct H; [left | right]; by apply N.leb_gt.
Qed.

Lemma decode_1 b r :
  Byte.to_N b < 0x80 ->
  toString_utf8 (b :: r) = Byte.to_N b :: toString_utf8 r.
Proof.
  intros H. cbn [toString_utf8].
  by rewrite (proj2 (N.ltb_lt _ _) H).
Qed.

Lemma decode_2 b0 b1 r :
  0xC2 <= Byte.to_N b0 <= 0xDF -> 0x80 <= Byte.to_N b1 <= 0xBF ->
  toString_utf8 (b0 :: b1 :: r)
  = (Byte.to_N b0 - 0xC0) * 64 + (Byte.to_N b1 - 0x80) :: toString_utf8 r.
Proof.
  intros H0 H1. cbn [toString_utf8]. unfold continuation.
  rewrite (proj2 (N.ltb_ge _ _)) by lia.
  by rewrite !in_range_true.
Qed.

Lemma decode_3 b0 b1 b2 r :
  0xE0 <= Byte.to_N b0 <= 0xEF ->
  (if Byte.to_N b0 =? 0xE0 then 0xA0 else 0x80) <= Byte.to_N b1
    <= (if Byte.to_N b0 =? 0xED then 0x9F else 0xBF) ->
  0x80 <= Byte.to_N b2 <= 0xBF ->
  toString_utf8 (b0 :: b1 :: b2 :: r)
  = (Byte.to_N b0 - 0xE0) * 0x1000 + (Byte.to_N b1 - 0x80) * 64
      + (Byte.to_N b2 - 0x80) :: toString_utf8 r.
Proof.
  intros H0 H1 H2. cbn [toString_utf8]. unfold continuation.
  rewrite (proj2 (N.ltb_ge _ _)) by lia.
  rewrite (in_range_false 0xC2 0xDF b0) by lia.
  rewrite (in_range_true 0xE0 0xEF b0) by lia.
  rewrite (in_range_true _ _ b1) by exact H1.
  by rewrite (in_range_true _ _ b2).
Qed.

Lemma decode_4 b0 b1 b2 b3 r :
  0xF0 <= Byte.to_N b0 <= 0xF4 ->
  (if Byte.to_N b0 =? 0xF0 then 0x90 else 0x80) <= Byte.to_N b1
    <= (if Byte.to_N b0 =? 0xF4 then 0x8F else 0xBF) ->
  0x80 <= Byte.to_N b2 <= 0xBF ->
  0x80 <= Byte.to_N b3 <= 0xBF ->
  toString_utf8 (b0 :: b1 :: b2 :: b3 :: r)
  = (let cp := (Byte.to_N b0 - 0xF0) * 0x40000
               + (Byte.to_N b1 - 0x80) * 0x1000
               + (Byte.to_N b2 - 0x80) * 64
               + (Byte.to_N b3 - 0x80) in
     0xD800 + (cp - 0x10000) / 0x400
       :: 0xDC00 + (cp - 0x10000) mod 0x400 :: toString_utf8 r).
Proof.
  intros H0 H1 H2 H3. cbn [toString_utf8]. unfold continuation.
  rewrite (proj2 (N.ltb_ge _ _)) by lia.
  rewrite (in_range_false 0xC2 0xDF b0) by lia.
  rewrite (in_range_false 0xE0 0xEF b0) by lia.
  rewrite (in_range_true 0xF0 0xF4 b0) by lia.
  rewrite (in_range_true _ _ b1) by exact H1.
  rewrite (in_range_true _ _ b2) by exact H2.
  by rewrite (in_range_true _ _ b3).
Qed.

Lemma surrogate_high_spec u : is_high_surrogate u = true <-> 0xD800 <= u <= 0xDBFF.
Proof.
  unfold is_high_surrogate. rewrite andb_true_iff, !N.leb_le. tauto.
Qed.

Lemma surrogate_low_spec u : is_low_surrogate u = true <-> 0xDC00 <= u <= 0xDFFF.
Proof.
  unfold is_low_surrogate. rewrite andb_true_iff, !N.leb_le. tauto.
Qed.

Lemma surrogate_high_nspec u : is_high_surrogate u = false <-> u < 0xD800 \/ 0xDBFF < u.
Proof.
  unfold is_high_surrogate. rewrite andb_false_iff, !N.leb_gt. tauto.
Qed.

Lemma surrogate_low_nspec u : is_low_surrogate u = false <-> u < 0xDC00 \/ 0xDFFF < u.
Proof.
  unfold is_low_surrogate. rewrite andb_false_iff, !N.leb_gt. tauto.
Qed.

(** One scalar value outside the surrogate range. *)
Lemma roundtrip_scalar u rest :
  u < 0x10000 -> is_high_surrogate u = false -> is_low_surrogate u = false ->
  toString_utf8 (from_utf8 rest) = rest ->
  toString_utf8 (from_utf8 (u :: rest)) = u :: rest.
Proof.
  intros Hu Hh Hl IH.
  apply surrogate_high_nspec in Hh. apply surrogate_low_nspec in Hl.
  cbn [from_utf8].
  destruct (N.ltb_spec u 0x80) as [H1|H1].
  { rewrite decode_1; rewrite to_N_byte_of_N by lia; [by rewrite IH | lia]. }
  destruct (N.ltb_spec u 0x800) as [H2|H2].
  { assert (Hq : u / 64 < 32) by nlia.
    assert (Hr : u mod 64 < 64) by nlia.
    assert (Hq' : 2 <= u / 64) by nlia.
    rewrite decode_2; rewrite !to_N_byte_of_N by nlia; [| nlia | nlia].
    rewrite IH. f_equal. nlia. }
  rewrite (proj2 (surrogate_high_nspec u)) by lia.
  rewrite (proj2 (surrogate_low_nspec u)) by lia.
  assert (Hq : u / 0x1000 < 16) by nlia.
  assert (Hm : (u / 64) mod 64 < 64) by nlia.
  assert (Hr : u mod 64 < 64) by nlia.
  rewrite decode_3; rewrite !to_N_byte_of_N by nlia; [| nlia | | nlia].
  - rewrite IH. f_equal. nlia.
  - destruct (N.eqb_spec (0xE0 + u / 0x1000) 0xE0) as [E1|E1];
      destruct (N.eqb_spec (0xE0 + u / 0x1000) 0xED) as [E2|E2]; nlia.
Qed.

(** One surrogate pair. *)
Lemma roundtrip_pair u l rest :
  is_high_surrogate u = true -> is_low_surrogate l = true ->
  toString_utf8 (from_utf8 rest) = rest ->
  toString_utf8 (from_utf8 (u :: l :: rest)) = u :: l :: rest.
Proof.
  intros Hh Hl IH.
  cbn [from_utf8]. rewrite Hh, Hl.
  apply surrogate_high_spec in Hh. apply surrogate_low_spec in Hl.
  rewrite (proj2 (N.ltb_ge _ _)) by lia.
  rewrite (proj2 (N.ltb_ge _ _)) by lia.
  set (cp := 0x10000 + (u - 0xD800) * 0x400 + (l - 0xDC00)).
  assert (Hcp : 0x10000 <= cp <= 0x10FFFF) by (unfold cp; lia).
  assert (H0 : cp / 0x40000 <= 4) by nlia.
  assert (H1 : (cp / 0x1000) mod 64 < 64) by nlia.
  assert (H2 : (cp / 64) mod 64 < 64) by nlia.
  assert (H3 : cp mod 64 < 64) by nlia.
  cbv zeta.
  rewrite decode_4; rewrite !to_N_byte_of_N by nlia; [| nlia | | nlia | nlia].
  - rewrite IH. cbv zeta.
    assert (E : (0xF0 + cp / 0x40000 - 0xF0) * 0x40000
                + (0x80 + (cp / 0x1000) mod 64 - 0x80) * 0x1000
                + (0x80 + (cp / 64) mod 64 - 0x80) * 64
                + (0x80 + cp mod 64 - 0x80) = cp)
      by (clear - Hcp; nlia).
    rewrite E. subst cp. clear - Hh Hl.
    f_equal; [nlia | f_equal; nlia].
  - clear - Hcp.
    destruct (N.eqb_spec (0xF0 + cp / 0x40000) 0xF0) as [E1|E1];
      destruct (N.eqb_spec (0xF0 + cp / 0x40000) 0xF4) as [E2|E2]; nlia.
Qed.

(** Well-formed text survives the UTF-8 encoding. *)
Lemma toString_from_utf8 (s : jsstring) :
  well_formed s = true -> toString_utf8 (from_utf8 s) = s.
Proof.
  remember (length s) as n eqn:Hn.
  revert s Hn. induction (lt_wf n) as [n _ IH]. intros s Hn Hwf.
  destruct s as [|u rest]; [reflexivity|].
  cbn [well_formed] in Hwf.
  destruct (is_high_surrogate u) eqn:Hh.
  - destruct rest as [|l rest']; [discriminate|].
    apply andb_true_iff in Hwf as [Hl Hwf].
    apply roundtrip_pair; [done | done |].
    apply (IH (length rest')); [subst n; simpl; lia | reflexivity | exact Hwf].
  - destruct (is_low_surrogate u) eqn:Hl; [discriminate|].
    apply andb_true_iff in Hwf as [Hu Hwf].
    apply N.ltb_lt in Hu.
    apply roundtrip_scalar; [done | done | done |].
    apply (IH (length rest)); [subst n; simpl; lia | reflexivity | exact Hwf].
Qed.

(** An unpaired surrogate does not survive it. *)
Lemma lone_surrogate_replaced :
  toString_utf8 (from_utf8 [0xD800]) = [0xFFFD].
Proof. reflexivity. Qed.

End BufferFacts.

(** ** The reference platform is an authenticated cipher *)

Module ReferenceFacts.
Import Reference BufferFacts.

Lemma shift_inverse pw i l :
  shift (fun b k => b + 256 - k) pw i (shift (fun b k => b + k) pw i l) = l.
Proof.
  revert i. induction l as [|b r IH]; intros i; [reflexivity|].
  cbn [shift]. rewrite IH. f_equal.
  pose proof (Byte.to_N_bounded b) as Hb.
  assert (Hk : key_at pw i <= 255).
  { unfold key_at. destruct pw; [lia | apply Byte.to_N_bounded]. }
  set (k := key_at pw i) in *.
  assert (E : Byte.to_N (Buffer.byte_of_N (Byte.to_N b + k))
              = (Byte.to_N b + k) mod 256).
  { unfold Buffer.byte_of_N.
    destruct (Byte.of_N ((Byte.to_N b + k) mod 256)) as [c|] eqn:Ec.
    - by apply Byte.to_of_N.
    - pose proof (Byte.to_of_N_option_map ((Byte.to_N b + k) mod 256)) as H.
      rewrite Ec in H. simpl in H.
      destruct (N.leb_spec ((Byte.to_N b + k) mod 256) 255) as [|Hlt];
        [discriminate|].
      pose proof (N.mod_upper_bound (Byte.to_N b + k) 256). lia. }
  rewrite E.
  assert (E' : ((Byte.to_N b + k) mod 256 + 256 - k) mod 256 = Byte.to_N b).
  { clear E. zify. Z.to_euclidean_division_equations. lia. }
  unfold Buffer.byte_of_N. rewrite E'.
  by rewrite Byte.of_to_N.
Qed.

Lemma be_bytes_length k n : length (be_bytes k n) = k.
Proof.
  revert n. induction k as [|k IH]; intros n; [reflexivity|].
  cbn [be_bytes]. rewrite length_app, IH. simpl. lia.
Qed.

Lemma auth_tag_nonempty pw ct : auth_tag pw ct <> [].
Proof.
  intros E. apply (f_equal length) in E.
  unfold auth_tag in E. rewrite be_bytes_length in E. discriminate.
Qed.

Global Instance authenticated : @AuthenticatedCipher platform.
Proof.
  split; intros pw pt; cbn.
  - apply auth_tag_nonempty.
  - unfold decipher. rewrite decide_True by reflexivity.
    by rewrite shift_inverse.
Qed.

End ReferenceFacts.

(** ** The encryption service *)

Module EncryptionFacts.
Section EncryptionFacts.
Context `{Platform}.
Import BufferFacts.

(** [encrypt] written out: the ciphertext and the tag come from the
    cipher run on the key and the text, the [iv] from the random tape. *)
Lemma encrypt_unfold text key e :
  EncryptionService.encrypt text key e
  = (let run := cipher_run config.encryption.algorithm (Buffer.from_hex key)
                  (Buffer.from_utf8 text) in
     {| encrypted := Buffer.toString_hex run.1;
        iv := Buffer.toString_hex (randomBytes config.encryption.ivLength e).1;
        tag := Buffer.toString_hex run.2 |},
     (randomBytes config.encryption.ivLength e).2).
Proof.
  unfold EncryptionService.encrypt, EncryptionService.algorithm,
    EncryptionService.ivLength.
  destruct (randomBytes _ e) as [ivb e'].
  by destruct (cipher_run _ _ _) as [ct t].
Qed.

Lemma truthy_toString_hex buf : buf <> [] -> truthy (Buffer.toString_hex buf) = true.
Proof. destruct buf; [congruence | reflexivity]. Qed.

(** Decrypting what [encrypt] returned gives the text as it reads after
    its passage through UTF-8. *)
Lemma decrypt_encrypt `{!AuthenticatedCipher} text key e :
  EncryptionService.decrypt (EncryptionService.encrypt text key e).1 key
  = Some (Buffer.toString_utf8 (Buffer.from_utf8 text)).
Proof.
  rewrite encrypt_unfold. unfold EncryptionService.decrypt. cbn.
  rewrite truthy_toString_hex by apply tag_nonempty.
  rewrite !from_hex_toString_hex.
  unfold EncryptionService.algorithm. by rewrite decipher_cipher.
Qed.

(** An unpaired surrogate comes back as U+FFFD, on every authenticated
    cipher. *)
Lemma lone_surrogate_not_restored `{!AuthenticatedCipher} key e :
  EncryptionService.decrypt
    (EncryptionService.encrypt [0xD800] key e).1 key = Some [0xFFFD].
Proof. by rewrite decrypt_encrypt. Qed.

End EncryptionFacts.
End EncryptionFacts.

(** ** Claims about the cipher *)

Section CipherClaims.
Context `{Platform}.
Import EncryptionFacts.

(** C4 (as amended).  Encrypt/decrypt round trip: on an authenticated
    cipher, for every key and every plaintext that is well-formed UTF-16
    (no unpaired surrogate), decrypting the output of [encrypt] with the
    same key returns the plaintext. *)
Theorem C4_round_trip `{!AuthenticatedCipher}
    (text : jsstring) (key : string) (e : Entropy) :
  Buffer.well_formed text = true ->
  EncryptionService.decrypt (EncryptionService.encrypt text key e).1 key
  = Some text.
Proof.
  intros Hwf. rewrite decrypt_encrypt.
  by rewrite BufferFacts.toString_from_utf8.
Qed.

(** C5.  The nonce is drawn but not used: whatever the random tape
    holds, [encrypt] returns the same ciphertext and the same tag for a
    given text and key, and the returned [iv] is the 16 bytes drawn from
    the tape, which the cipher never sees. *)
Theorem C5_nonce_unused (text : jsstring) (key : string) (e1 e2 : Entropy) :
  encrypted (EncryptionService.encrypt text key e1).1
    = encrypted (EncryptionService.encrypt text key e2).1
  /\ tag (EncryptionService.encrypt text key e1).1
    = tag (EncryptionService.encrypt text key e2).1
  /\ iv (EncryptionService.encrypt text key e1).1
    = Buffer.toString_hex (randomBytes 16 e1).1.
Proof. rewrite !encrypt_unfold. by cbn. Qed.

End CipherClaims.

Module CipherExamples.
Import Reference ReferenceFacts Example.
Local Existing Instance platform.

Lemma C4_round_trip_witness :
  Buffer.well_formed (js "hello") = true
  /\ EncryptionService.decrypt
       (EncryptionService.encrypt (js "hello") a_key (entropy boot)).1 a_key
     = Some (js "hello").
Proof.
  split; [reflexivity|].
  apply (@C4_round_trip platform authenticated); reflexivity.
Defined.

(** C4, as first stated, fails: under the key the generator produced,
    the one-unit text U+D800 comes back as U+FFFD; and so it does under
    any key, on any authenticated cipher. *)
Lemma C4_lone_surrogate :
  let key := (EncryptionService.generateKey (entropy boot)).1 in
  EncryptionService.decrypt
    (EncryptionService.encrypt [0xD800] key (entropy boot)).1 key
  = Some [0xFFFD]
  /\ Some [0xFFFD] <> Some [0xD800]
  /\ (forall (P : Platform) (A : @AuthenticatedCipher P) k e,
        @EncryptionService.decrypt P
          (@EncryptionService.encrypt P [0xD800] k e).1 k
        = Some [0xFFFD]).
Proof.
  cbv zeta. split; [|split].
  - apply EncryptionFacts.lone_surrogate_not_restored.
  - discriminate.
  - intros P A k e. apply EncryptionFacts.lone_surrogate_not_restored.
Qed.

(** C5 at a concrete input: two calls on the same text and key, the tape
    at two different places. *)
Example encrypt_twice :
  let e1 := {| tape := a_tape; cursor := 0 |} in
  let e2 := {| tape := a_tape; cursor := 16 |} in
  let first := (EncryptionService.encrypt (js "hi") a_key e1).1 in
  let second := (EncryptionService.encrypt (js "hi") a_key e2).1 in
  iv first <> iv second
  /\ encrypted first = encrypted second
  /\ tag first = tag second.
Proof. vm_compute. split; [discriminate | split; reflexivity]. Qed.

End CipherExamples.

(** ** The message service, call by call *)

Ltac unfold_M :=
  unfold MessageService.set_messages, MessageService.encrypt,
    MessageService.insert_message, MessageService.insert_chatroom,
    MessageService.getChatRoom in *;
  unfold mbind, M_bind, mret, M_ret, get, throw in *;
  cbn beta iota zeta in *.

Module ServiceFacts.
Section ServiceFacts.
Context `{Platform}.
Import MessageService.

Lemma createChatRoom_unfold roomData w :
  createChatRoom roomData w
  = let id := ObjectId (next_oid w) in
    let room :=
      ChatRoom.mk (Some id) (RoomData.name roomData)
        (RoomData.description roomData) (RoomData.participants roomData)
        (RoomData.createdBy roomData) (now w) (RoomData.isPrivate roomData)
        (Some (static_encryptionKey w)) in
    match chatrooms w !! IdObject id with
    | Some _ => (Throw "E11000 duplicate key error", w)
    | None =>
        (Ok room,
         {| chatrooms := <[IdObject id := room]> (chatrooms w);
            messages := messages w;
            next_oid := next_oid w + 1; entropy := entropy w; now := now w;
            static_encryptionKey := static_encryptionKey w |})
    end.
Proof.
  unfold createChatRoom. unfold_M. cbn.
  by destruct (chatrooms w !! IdObject (ObjectId (next_oid w))).
Qed.

Lemma createChatRoom_Ok roomData w room w1 :
  createChatRoom roomData w = (Ok room, w1) ->
  room = ChatRoom.mk (Some (ObjectId (next_oid w))) (RoomData.name roomData)
           (RoomData.description roomData) (RoomData.participants roomData)
           (RoomData.createdBy roomData) (now w) (RoomData.isPrivate roomData)
           (Some (static_encryptionKey w))
  /\ static_encryptionKey w1 = static_encryptionKey w
  /\ chatrooms w1 !! IdObject (ObjectId (next_oid w)) = Some room.
Proof.
  rewrite createChatRoom_unfold. cbv zeta.
  destruct (chatrooms w !! IdObject (ObjectId (next_oid w))) eqn:Hfresh; [discriminate|].
  intros Heq. injection Heq; clear Heq; intros <- <-.
  split; [reflexivity|]. split; [reflexivity|]. cbn. apply lookup_insert_eq.
Qed.

Lemma sendMessage_unfold messageData w :
  sendMessage messageData w
  = match room_key (chatrooms w !! IdString (MessageData.chatId messageData)) with
    | None => (Throw "Chat room encryption key not found", w)
    | Some key =>
        let enc :=
          EncryptionService.encrypt (MessageData.content messageData) key
            (entropy w) in
        let id := ObjectId (next_oid w) in
        let message :=
          with_id id (stamped messageData (JSON_stringify enc.1) (now w)) in
        match messages w !! IdObject id with
        | Some _ => (Throw "E11000 duplicate key error", with_entropy enc.2 w)
        | None =>
            (Ok message,
             {| chatrooms := chatrooms w;
                messages := <[IdObject id := message]> (messages w);
                next_oid := next_oid w + 1; entropy := enc.2; now := now w;
                static_encryptionKey := static_encryptionKey w |})
        end
    end.
Proof.
  unfold sendMessage. unfold_M.
  destruct (room_key (chatrooms w !! IdString (MessageData.chatId messageData))) as [key|];
    [|reflexivity].
  destruct (EncryptionService.encrypt _ key (entropy w)) as [enc e'].
  cbn. by destruct (messages w !! IdObject (ObjectId (next_oid w))).
Qed.

Lemma getMessages_unfold chatId limit skip w :
  getMessages chatId limit skip w
  = (Ok (reverse match room_key (chatrooms w !! IdString chatId) with
                 | Some key => decrypt_message key <$> page chatId limit skip w
                 | None => page chatId limit skip w
                 end), w).
Proof. reflexivity. Qed.

Lemma deleteMessage_unfold messageId userId w :
  deleteMessage messageId userId w
  = match find_own messageId userId w with
    | Some _ => (Ok true, with_messages (delete (IdString messageId) (messages w)) w)
    | None => (Ok false, w)
    end.
Proof.
  unfold deleteMessage, find_own. unfold_M.
  destruct (messages w !! IdString messageId) as [m|]; [|reflexivity].
  by destruct (decide (Message.senderId m = userId)).
Qed.

Lemma editMessage_unfold messageId userId newContent w :
  editMessage messageId userId newContent w
  = match find_own messageId userId w with
    | None => (Ok false, w)
    | Some message =>
        match room_key (chatrooms w !! IdString (Message.chatId message)) with
        | None => (Ok false, w)
        | Some key =>
            let enc := EncryptionService.encrypt newContent key (entropy w) in
            let new := edit_set newContent (JSON_stringify enc.1) (now w) message in
            (Ok (bool_decide (new <> message)),
             with_messages (<[IdString messageId := new]> (messages w))
               (with_entropy enc.2 w))
        end
    end.
Proof.
  unfold editMessage. unfold_M.
  destruct (find_own messageId userId w) as [message|] eqn:Hfind; [|reflexivity].
  destruct (room_key (chatrooms w !! IdString (Message.chatId message))) as [key|];
    [|reflexivity].
  destruct (EncryptionService.encrypt newContent key (entropy w)) as [enc e'].
  cbn. unfold find_own in *. cbn. by rewrite Hfind.
Qed.

Lemma find_own_Some messageId userId w m :
  find_own messageId userId w = Some m
  <-> messages w !! IdString messageId = Some m /\ Message.senderId m = userId.
Proof.
  unfold find_own. destruct (messages w !! IdString messageId) as [m'|].
  - destruct (decide (Message.senderId m' = userId)) as [E|E]; split.
    + intros [= ->]. by split.
    + by intros [[= ->] _].
    + discriminate.
    + intros [[= ->] E']. by destruct E.
  - split; [discriminate | by intros [? _]].
Qed.

(** No message is found for the requester when the id names no message,
    and when it names a message of another sender. *)
Lemma find_own_None messageId userId w :
  find_own messageId userId w = None
  <-> messages w !! IdString messageId = None
      \/ exists m, messages w !! IdString messageId = Some m
                   /\ Message.senderId m <> userId.
Proof.
  unfold find_own. destruct (messages w !! IdString messageId) as [m'|].
  - destruct (decide (Message.senderId m' = userId)) as [E|E]; split.
    + discriminate.
    + intros [? | (m & [= ->] & Hne)]; [discriminate | by destruct Hne].
    + intros _. right. by exists m'.
    + done.
  - split; [by left | done].
Qed.

(** What a call leaves alone: the static key, and every room there is. *)
Lemma exec_static_key c w :
  static_encryptionKey (exec c w) = static_encryptionKey w.
Proof.
  destruct c; cbn [exec].
  - rewrite createChatRoom_unfold. cbv zeta.
    by destruct (chatrooms w !! IdObject (ObjectId (next_oid w))).
  - reflexivity.
  - rewrite sendMessage_unfold.
    destruct (room_key _); [|reflexivity]. cbv zeta.
    by destruct (messages w !! IdObject (ObjectId (next_oid w))).
  - reflexivity.
  - rewrite deleteMessage_unfold. by destruct (find_own _ _ _).
  - rewrite editMessage_unfold. destruct (find_own _ _ _); [|reflexivity].
    by destruct (room_key _).
  - reflexivity.
Qed.

Lemma exec_room_kept c w (roomId : DocId) room :
  chatrooms w !! roomId = Some room ->
  chatrooms (exec c w) !! roomId = Some room.
Proof.
  intros Hroom. destruct c; cbn [exec].
  - rewrite createChatRoom_unfold. cbv zeta.
    destruct (chatrooms w !! IdObject (ObjectId (next_oid w))) eqn:Hfresh; [done|].
    cbn. rewrite lookup_insert_ne; [done | congruence].
  - done.
  - rewrite sendMessage_unfold.
    destruct (room_key _); [|done]. cbv zeta.
    by destruct (messages w !! IdObject (ObjectId (next_oid w))).
  - done.
  - rewrite deleteMessage_unfold. by destruct (find_own _ _ _).
  - rewrite editMessage_unfold. destruct (find_own _ _ _); [|done].
    by destruct (room_key _).
  - done.
Qed.

Lemma execs_static_key cs w :
  static_encryptionKey (execs cs w) = static_encryptionKey w.
Proof.
  revert w. induction cs as [|c cs IH]; intros w; [reflexivity|].
  cbn. unfold execs in IH. by rewrite IH, exec_static_key.
Qed.

Lemma execs_room_kept cs w (roomId : DocId) room :
  chatrooms w !! roomId = Some room ->
  chatrooms (execs cs w) !! roomId = Some room.
Proof.
  revert w. induction cs as [|c cs IH]; intros w Hroom; [done|].
  cbn. apply IH. by apply exec_room_kept.
Qed.

End ServiceFacts.
End ServiceFacts.

(** ** Claims about rooms and stored messages *)

Section StoreClaims.
Context `{Platform}.
Import MessageService ServiceFacts.

(** C1 (as amended).  A room has exactly one key for its entire lifetime:
    the key is bound when the room is created, it is the service's static
    key, and no later call changes the room's record; every room the
    same loaded service creates afterwards is bound to that same key. *)
Theorem C1_room_key (roomData : RoomData.t) (w w1 : World) (room : ChatRoom.t) :
  createChatRoom roomData w = (Ok room, w1) ->
  exists roomId,
    ChatRoom._id room = Some roomId
    /\ ChatRoom.encryptionKey room = Some (static_encryptionKey w)
    /\ (forall cs, chatrooms (execs cs w1) !! IdObject roomId = Some room)
    /\ (forall cs roomData' room' w3,
          createChatRoom roomData' (execs cs w1) = (Ok room', w3) ->
          ChatRoom.encryptionKey room' = ChatRoom.encryptionKey room).
Proof.
  intros Hcreate. apply createChatRoom_Ok in Hcreate as (-> & Hkey & Hstored).
  exists (ObjectId (next_oid w)).
  split; [reflexivity|]. split; [reflexivity|]. split.
  - intros cs. by apply execs_room_kept.
  - intros cs roomData' room' w3 Hcreate'.
    apply createChatRoom_Ok in Hcreate' as (-> & _ & _).
    cbn. rewrite execs_static_key. by rewrite Hkey.
Qed.

(** C3 (as amended).  The record [sendMessage] persists is the message
    it returns: it holds the ciphertext, nonce and tag of the content,
    serialised in [encryptedContent], and it also holds the plaintext
    content. *)
Theorem C3_persisted_record (messageData : MessageData.t) (w w' : World)
    (message : Message.t) :
  sendMessage messageData w = (Ok message, w') ->
  exists id key,
    Message._id message = Some id
    /\ messages w' !! IdObject id = Some message
    /\ room_key (chatrooms w !! IdString (MessageData.chatId messageData)) = Some key
    /\ Message.encryptedContent message
       = Some (JSON_stringify
                 (EncryptionService.encrypt (MessageData.content messageData)
                    key (entropy w)).1)
    /\ Message.content message = MessageData.content messageData.
Proof.
  rewrite sendMessage_unfold.
  destruct (room_key _) as [key|]; [|discriminate]. cbv zeta.
  destruct (messages w !! IdObject (ObjectId (next_oid w))); [discriminate|].
  intros Heq. injection Heq; clear Heq; intros <- <-.
  exists (ObjectId (next_oid w)), key.
  split; [reflexivity|]. split; [apply lookup_insert_eq|]. done.
Qed.

(** C6 (as amended).  Only the sender edits or deletes: an attempt by
    any other principal returns [false], which is also the answer for a
    message that does not exist, and leaves the world, the stored
    message with it, unchanged; an attempt that returns [true] was made
    by the sender. *)
Theorem C6_only_the_sender (w : World) (messageId : string) (m : Message.t)
    (userId : string) (newContent : jsstring) :
  messages w !! IdString messageId = Some m ->
  Message.senderId m <> userId ->
  editMessage messageId userId newContent w = (Ok false, w)
  /\ deleteMessage messageId userId w = (Ok false, w)
  /\ (forall u c w',
        editMessage messageId u c w = (Ok true, w')
        \/ deleteMessage messageId u w = (Ok true, w') ->
        u = Message.senderId m).
Proof.
  intros Hm Hne.
  assert (Hnone : find_own messageId userId w = None).
  { apply find_own_None. right. by exists m. }
  split; [by rewrite editMessage_unfold, Hnone|].
  split; [by rewrite deleteMessage_unfold, Hnone|].
  intros u c w' Hok.
  destruct (find_own messageId u w) as [m'|] eqn:Hfind.
  - apply find_own_Some in Hfind as [Hm' <-]. congruence.
  - destruct Hok as [Hok|Hok];
      [rewrite editMessage_unfold in Hok | rewrite deleteMessage_unfold in Hok];
      rewrite Hfind in Hok; discriminate.
Qed.

End StoreClaims.

(** ** Listing a room *)

Module ListingFacts.
Section ListingFacts.
Context `{Platform}.
Import MessageService.

Global Instance newer_first_transitive : Transitive newer_first.
Proof. unfold newer_first. intros a b c ? ?. lia. Qed.

Global Instance newer_first_total : Total newer_first.
Proof. unfold newer_first. intros a b. lia. Qed.

Lemma room_log_sorted chatId w : StronglySorted newer_first (room_log chatId w).
Proof. unfold room_log. apply StronglySorted_merge_sort; apply _. Qed.

Lemma room_log_permutation chatId w :
  room_log chatId w
  ≡ₚ filter (fun m => Message.chatId m = chatId) (map_to_list (messages w)).*2.
Proof. unfold room_log. apply merge_sort_Permutation. Qed.

Lemma page_sorted chatId limit skip w :
  StronglySorted newer_first (page chatId limit skip w).
Proof.
  unfold page.
  assert (Hdrop : StronglySorted newer_first (drop skip (room_log chatId w))).
  { pose proof (room_log_sorted chatId w) as Hlog.
    rewrite <- (take_drop skip (room_log chatId w)) in Hlog.
    by apply StronglySorted_app_1_r in Hlog. }
  destruct limit as [|n]; [exact Hdrop|]. cbn [cursor_limit].
  rewrite <- (take_drop (S n) (drop skip (room_log chatId w))) in Hdrop.
  by apply StronglySorted_app_1_l in Hdrop.
Qed.

(** Reading a sorted list backwards sorts it the other way round. *)
Lemma StronglySorted_reverse {A} (R : relation A) (l : list A) :
  StronglySorted R l -> StronglySorted (flip R) (reverse l).
Proof.
  induction 1 as [|x l Hl IH Hx]; [constructor|].
  rewrite reverse_cons. apply StronglySorted_app_2.
  - intros a b Ha Hb. apply list_elem_of_singleton in Hb as ->.
    rewrite elem_of_reverse in Ha. rewrite Forall_forall in Hx.
    unfold flip. by apply Hx.
  - exact IH.
  - repeat constructor.
Qed.

Lemma with_content_same m : with_content (Message.content m) m = m.
Proof. by destruct m. Qed.

(** What the [forEach] body does to one record. *)
Lemma decrypt_message_spec key record :
  let out := decrypt_message key record in
  out = with_content (Message.content out) record
  /\ forall ec,
       Message.encryptedContent record = Some ec -> truthy ec = true ->
       match decode ec key with
       | Some text => Message.content out = text
       | None => Message.content out = decryption_failed
       end.
Proof.
  unfold decrypt_message.
  destruct (Message.encryptedContent record) as [ec|] eqn:Hec; cbv zeta.
  - destruct (truthy ec) eqn:Ht.
    + destruct (decode ec key) as [text|] eqn:Hd; (split; [reflexivity|]);
        intros ec' [= <-] _; by rewrite Hd.
    + split; [by rewrite with_content_same|]. intros ec' [= <-]. congruence.
  - split; [by rewrite with_content_same | discriminate].
Qed.

(** The same, with the parsing and the decryption written out, and what
    comes back for a ciphertext that [encrypt] made. *)
Lemma decrypt_message_cases key record ec :
  Message.encryptedContent record = Some ec -> truthy ec = true ->
  match JSON_parse ec with
  | Some data =>
      match EncryptionService.decrypt data key with
      | Some text => Message.content (decrypt_message key record) = text
      | None =>
          Message.content (decrypt_message key record)
          = js "[Encrypted message - decryption failed]"
      end
  | None =>
      Message.content (decrypt_message key record)
      = js "[Encrypted message - decryption failed]"
  end.
Proof.
  intros Hec Ht. unfold decrypt_message, decode. rewrite Hec, Ht.
  destruct (JSON_parse ec) as [data|]; cbn; [|reflexivity].
  by destruct (EncryptionService.decrypt data key).
Qed.

(** The persisted ciphertext of a text decodes, under the key it was
    encrypted with, to the text as it reads after UTF-8. *)
Lemma decode_stringify_encrypt `{!AuthenticatedCipher, !JsonCodec} text key e :
  decode (JSON_stringify (EncryptionService.encrypt text key e).1) key
  = Some (Buffer.toString_utf8 (Buffer.from_utf8 text)).
Proof.
  pose proof (EncryptionFacts.decrypt_encrypt text key e) as Hd.
  rewrite EncryptionFacts.encrypt_unfold in Hd |- *.
  cbv zeta in Hd |- *. cbn [fst] in Hd |- *.
  unfold decode. rewrite parse_stringify. exact Hd.
Qed.

Lemma decrypt_message_written `{!AuthenticatedCipher, !JsonCodec}
    key record text e :
  Buffer.well_formed text = true ->
  Message.encryptedContent record
  = Some (JSON_stringify (EncryptionService.encrypt text key e).1) ->
  truthy (JSON_stringify (EncryptionService.encrypt text key e).1) = true ->
  Message.content (decrypt_message key record) = text.
Proof.
  intros Hwf Hec Ht. unfold decrypt_message. rewrite Hec, Ht.
  rewrite decode_stringify_encrypt. cbn.
  by apply BufferFacts.toString_from_utf8.
Qed.

Lemma decrypt_message_timestamp key record :
  Message.timestamp (decrypt_message key record) = Message.timestamp record.
Proof.
  destruct (decrypt_message_spec key record) as [-> _]. reflexivity.
Qed.

End ListingFacts.
End ListingFacts.

Section ListingClaims.
Context `{Platform}.
Import MessageService ServiceFacts ListingFacts.

(** C7 (as amended).  Listing the messages of a room never throws and
    changes nothing.  When the room exists and has its key, every record
    of the page comes back in its place, changed in its content at most:
    a record whose stored ciphertext does not parse, or on which the
    decipher throws, has the content "[Encrypted message - decryption
    failed]"; every other record that has a ciphertext has the content
    [decrypt] returns for it; so, on an authenticated cipher with a JSON
    that reads back what it writes, a record that holds the ciphertext
    [encrypt] made of a well-formed text under the room's key comes back
    with that text, whatever the records around it hold.  When the room
    does not exist or has no key, nothing is decrypted and no marker is
    set: the records come back as they are stored. *)
Theorem C7_decode_failure_contained (w : World) (chatId : string)
    (limit skip : nat) :
  exists msgs,
    getMessages chatId limit skip w = (Ok msgs, w)
    /\ match room_key (chatrooms w !! IdString chatId) with
       | Some key =>
           Forall2
             (fun record out =>
                out = with_content (Message.content out) record
                /\ (forall ec,
                      Message.encryptedContent record = Some ec ->
                      truthy ec = true ->
                      match JSON_parse ec with
                      | Some data =>
                          match EncryptionService.decrypt data key with
                          | Some text => Message.content out = text
                          | None =>
                              Message.content out
                              = js "[Encrypted message - decryption failed]"
                          end
                      | None =>
                          Message.content out
                          = js "[Encrypted message - decryption failed]"
                      end)
                /\ (AuthenticatedCipher -> JsonCodec ->
                    forall text e,
                      Buffer.well_formed text = true ->
                      Message.encryptedContent record
                      = Some (JSON_stringify
                                (EncryptionService.encrypt text key e).1) ->
                      truthy (JSON_stringify
                                (EncryptionService.encrypt text key e).1)
                      = true ->
                      Message.content out = text))
             (reverse (page chatId limit skip w)) msgs
       | None => msgs = reverse (page chatId limit skip w)
       end.
Proof.
  rewrite getMessages_unfold.
  eexists; split; [reflexivity|].
  destruct (room_key (chatrooms w !! IdString chatId)) as [key|];
    [|reflexivity].
  apply Forall2_reverse, Forall2_fmap_r, Forall_Forall2_diag, Forall_forall.
  intros record _. split; [apply decrypt_message_spec|]. split.
  - intros ec Hec Ht. by apply decrypt_message_cases.
  - intros Hcipher Hjson text e Hwf Hec Ht.
    by apply (decrypt_message_written key record text e).
Qed.

(** C8.  Listing returns the requested page in ascending chronological
    order: the room's log is kept newest first, the page is the window
    of it that [skip] and [limit] select, and the result is that window
    read backwards (each record with its content decrypted). *)
Theorem C8_list_ordering (w : World) (chatId : string) (limit skip : nat) :
  exists msgs,
    getMessages chatId limit skip w = (Ok msgs, w)
    /\ StronglySorted
         (fun a b => (Message.timestamp a <= Message.timestamp b)%Z) msgs
    /\ StronglySorted newer_first (room_log chatId w)
    /\ room_log chatId w
       ≡ₚ filter (fun m => Message.chatId m = chatId)
            (map_to_list (messages w)).*2
    /\ Forall2 (fun record out => out = with_content (Message.content out) record)
         (reverse (cursor_limit limit (drop skip (room_log chatId w)))) msgs.
Proof.
  rewrite getMessages_unfold. eexists; split; [reflexivity|].
  split; [|split; [apply room_log_sorted|split; [apply room_log_permutation|]]].
  - apply (StronglySorted_reverse newer_first).
    destruct (room_key _) as [key|]; [|apply page_sorted].
    apply (StronglySorted_fmap _ newer_first newer_first);
      [|apply page_sorted].
    intros a b. unfold newer_first.
    by rewrite !decrypt_message_timestamp.
  - apply Forall2_reverse. fold (page chatId limit skip w).
    destruct (room_key _) as [key|].
    + apply Forall2_fmap_r, Forall_Forall2_diag, Forall_forall.
      intros record _. apply decrypt_message_spec.
    + apply Forall_Forall2_diag, Forall_forall.
      intros record _. by rewrite with_content_same.
Qed.

End ListingClaims.

(** ** The message routes *)

Module RouteFacts.
Section RouteFacts.
Context `{Platform}.
Import MessageService ServiceFacts message_routes.

Lemma isLength_spec min max s :
  validator.isLength min max s = true
  <-> (min <= validator.units s /\ validator.units s <= max)%nat.
Proof.
  unfold validator.isLength.
  rewrite andb_true_iff, !bool_decide_eq_true. tauto.
Qed.

Lemma isIn_spec values s : validator.isIn values s = true <-> s ∈ values.
Proof. unfold validator.isIn. by rewrite bool_decide_eq_true. Qed.

(** A throw of [sendMessage] leaves both collections as they were. *)
Lemma sendMessage_Throw messageData w e w' :
  sendMessage messageData w = (Throw e, w') ->
  chatrooms w' = chatrooms w /\ messages w' = messages w.
Proof.
  rewrite sendMessage_unfold.
  destruct (room_key _) as [key|].
  - cbv zeta. destruct (messages w !! IdObject (ObjectId (next_oid w))); [|discriminate].
    intros Heq. injection Heq; clear Heq; intros <- _. by split.
  - intros Heq. injection Heq; clear Heq; intros <- _. by split.
Qed.

Lemma sendMessage_no_room messageData w :
  room_key (chatrooms w !! IdString (MessageData.chatId messageData)) = None ->
  sendMessage messageData w = (Throw "Chat room encryption key not found", w).
Proof. intros Hkey. by rewrite sendMessage_unfold, Hkey. Qed.

End RouteFacts.
End RouteFacts.

Section RouteClaims.
Context `{Platform}.
Import MessageService ServiceFacts message_routes RouteFacts.

(** C9 (as amended).  Through [POST /rooms/:roomId/messages] a send is
    rejected as a validation failure (400) when the content is empty or
    exceeds 5000 units or when the kind is not one of text, file and
    image; [sendMessage] throws when the room does not exist or has no
    key, which the route reports as the failure 500 "Failed to send
    message"; a rejected send changes no state: the world is as it was,
    and whenever the answer is not 201 the stored rooms and messages are
    as they were. *)
Theorem C9_send_rejections (user : User) (roomId : string) (body : SendBody)
    (w : World) :
  let answer := POST_rooms_messages user roomId body w in
  ((validator.units (body_content body) = 0
    \/ 5000 < validator.units (body_content body)
    \/ body_messageType body ∉ ["text"; "file"; "image"])%nat ->
   exists details,
     answer = ({| status := 400; json := JsonValidationFailed details |}, w))
  /\ (room_key (chatrooms w !! IdString roomId) = None ->
      (forall messageData,
         MessageData.chatId messageData = roomId ->
         sendMessage messageData w
         = (Throw "Chat room encryption key not found", w))
      /\ (validator.isMongoId roomId = true ->
          (1 <= validator.units (body_content body) <= 5000)%nat ->
          body_messageType body ∈ ["text"; "file"; "image"] ->
          answer = ({| status := 500; json := JsonError "Failed to send message" |},
                    w)))
  /\ (status answer.1 <> 201%nat ->
      chatrooms answer.2 = chatrooms w /\ messages answer.2 = messages w).
Proof.
  cbv zeta. unfold POST_rooms_messages, security.validateRequest.
  set (errors := check "roomId" _ ++ check "content" _ ++ check "messageType" _).
  split; [|split].
  - intros Hbad. assert (Herr : errors <> []).
    { unfold errors, check. intros Hnil.
      apply app_eq_nil in Hnil as [_ Hnil]. apply app_eq_nil in Hnil as [Hc Ht].
      destruct (validator.isLength 1 5000 (body_content body)) eqn:Hlen;
        [|discriminate].
      destruct (validator.isIn _ (body_messageType body)) eqn:Hin;
        [|discriminate].
      apply isLength_spec in Hlen. apply isIn_spec in Hin.
      destruct Hbad as [?|[?|?]]; [lia | lia | done]. }
    destruct errors as [|e es]; [done|]. by exists (e :: es).
  - intros Hkey. split.
    { intros messageData <-. by apply sendMessage_no_room. }
    intros Hid Hlen Hkind.
    apply isLength_spec in Hlen. apply isIn_spec in Hkind.
    unfold errors, check. rewrite Hid, Hlen, Hkind. cbn [app].
    by rewrite sendMessage_no_room by exact Hkey.
  - destruct errors as [|e es]; cbn; [|done].
    destruct (sendMessage _ w) as [[message|e] w'] eqn:Hsend; cbn; [done|].
    intros _. by apply sendMessage_Throw in Hsend.
Qed.

(** C10.  [editMessage] and [deleteMessage] answer a message id that
    does not exist and a requester who is not the sender in the same
    way, with [false] and the world unchanged, and the routes report
    both as the one 404 "Message not found or unauthorized". *)
Theorem C10_failures_collapse (w : World) (user : User) (messageId : string)
    (content : jsstring) :
  (messages w !! IdString messageId = None
   \/ exists m, messages w !! IdString messageId = Some m
                /\ Message.senderId m <> id user) ->
  editMessage messageId (id user) content w = (Ok false, w)
  /\ deleteMessage messageId (id user) w = (Ok false, w)
  /\ (validator.isMongoId messageId = true ->
      validator.isLength 1 5000 content = true ->
      PUT_messages user messageId content w
      = ({| status := 404;
            json := JsonError "Message not found or unauthorized" |}, w))
  /\ (validator.isMongoId messageId = true ->
      DELETE_messages user messageId w
      = ({| status := 404;
            json := JsonError "Message not found or unauthorized" |}, w)).
Proof.
  intros Hcause. apply find_own_None in Hcause.
  assert (Hedit : editMessage messageId (id user) content w = (Ok false, w))
    by (by rewrite editMessage_unfold, Hcause).
  assert (Hdelete : deleteMessage messageId (id user) w = (Ok false, w))
    by (by rewrite deleteMessage_unfold, Hcause).
  split; [exact Hedit|]. split; [exact Hdelete|]. split.
  - intros Hid Hlen. unfold PUT_messages, security.validateRequest, check.
    by rewrite Hid, Hlen, Hedit.
  - intros Hid. unfold DELETE_messages, security.validateRequest, check.
    by rewrite Hid, Hdelete.
Qed.

End RouteClaims.

(** ** The socket handlers *)

Module SocketFacts.
Section SocketFacts.
Context `{Platform}.
Import MessageService ServiceFacts socket_handlers.

Lemma elem_of_joined room socks s :
  s ∈ joined room socks
  <-> exists socket, socks !! s = Some socket /\ room ∈ rooms socket.
Proof.
  unfold joined. rewrite elem_of_dom. unfold is_Some.
  setoid_rewrite map_lookup_filter_Some. naive_solver.
Qed.

Lemma run_app l1 l2 sv :
  run (l1 ++ l2) sv
  = (let '(sv1, out1) := run l1 sv in
     let '(sv2, out2) := run l2 sv1 in
     (sv2, out1 ++ out2)).
Proof.
  revert sv. induction l1 as [|i l1 IH]; intros sv; cbn [run app].
  - by destruct (run l2 sv).
  - destruct (step i sv) as [sv' out]. rewrite IH.
    destruct (run l1 sv') as [sv1 out1]. destruct (run l2 sv1) as [sv2 out2].
    by rewrite app_assoc.
Qed.

Lemma run_snoc l i sv : (run (l ++ [i]) sv).1 = (step i (run l sv).1).1.
Proof.
  rewrite run_app. destruct (run l sv) as [sv1 out1]. cbn.
  by destruct (step i sv1).
Qed.

(** The handlers that touch the service leave the sockets alone. *)
Lemma on_sockets sid socket ev sv :
  sockets (on sid socket ev sv).1
  = match ev with
    | join_rooms roomIds =>
        <[sid := {| user := user socket;
                    rooms := rooms socket ∪ list_to_set roomIds |}]> (sockets sv)
    | disconnect => delete sid (sockets sv)
    | _ => sockets sv
    end.
Proof.
  destruct ev; cbn; try reflexivity.
  - by destruct (sendMessage _ _) as [[?|?] ?].
  - by destruct (editMessage _ _ _ _) as [[[]|?] ?].
  - by destruct (deleteMessage _ _ _) as [[[]|?] ?].
Qed.

Lemma asked_to_join_snoc s room inputs i :
  asked_to_join s room inputs -> asked_to_join s room (inputs ++ [i]).
Proof.
  intros (roomIds & Hin & Hroom). exists roomIds.
  split; [|done]. apply elem_of_app. by left.
Qed.

Lemma step_joins_recorded inputs i sv :
  joins_recorded inputs (sockets sv) ->
  joins_recorded (inputs ++ [i]) (sockets (step i sv).1).
Proof.
  intros Hrec s socket room Hs Hroom.
  assert (Hold : forall socket',
             sockets sv !! s = Some socket' -> room ∈ rooms socket' ->
             room = s \/ asked_to_join s room (inputs ++ [i])).
  { intros socket' Hs' Hroom'.
    destruct (Hrec s socket' room Hs' Hroom') as [->|Hasked]; [by left|].
    right. by apply asked_to_join_snoc. }
  destruct i as [u|sid ev|t]; cbn in Hs.
  - apply lookup_insert_Some in Hs as [[<- <-]|[_ Hs]]; [|eauto].
    cbn in Hroom. left. by apply elem_of_singleton in Hroom.
  - destruct (sockets sv !! sid) as [sk|] eqn:Hsid; [|eauto].
    rewrite on_sockets in Hs. destruct ev; eauto.
    + apply lookup_insert_Some in Hs as [[<- <-]|[_ Hs]]; [|eauto].
      cbn in Hroom. apply elem_of_union in Hroom as [Hroom|Hroom]; [eauto|].
      apply elem_of_list_to_set in Hroom.
      right. exists roomIds. split; [|done].
      apply elem_of_app. right. by apply list_elem_of_singleton.
    + apply lookup_delete_Some in Hs as [_ Hs]. eauto.
  - eauto.
Qed.

Lemma run_joins_recorded inputs sv0 :
  sockets sv0 = ∅ -> joins_recorded inputs (sockets (run inputs sv0).1).
Proof.
  intros Hempty. induction inputs as [|i inputs IH] using rev_ind.
  - intros s socket room Hs. cbn in Hs. by rewrite Hempty in Hs.
  - rewrite run_snoc. by apply step_joins_recorded.
Qed.

(** The message [sendMessage] returns is in the chat it was sent to. *)
Lemma sendMessage_chatId messageData w message w' :
  sendMessage messageData w = (Ok message, w') ->
  Message.chatId message = MessageData.chatId messageData.
Proof.
  rewrite sendMessage_unfold. destruct (room_key _); [|discriminate].
  cbv zeta. destruct (messages w !! IdObject (ObjectId (next_oid w))); [discriminate|].
  intros Heq. injection Heq; clear Heq; intros _ <-. reflexivity.
Qed.

(** An accepted send publishes the message to the room the client
    named. *)
Lemma on_send_message sid socket chatId content messageType replyTo sv
    message w' :
  sendMessage
    (message_routes.message_data (user socket) chatId content
       (default "text" messageType) replyTo) (world sv)
  = (Ok message, w') ->
  on sid socket (send_message chatId content messageType replyTo) sv
  = (with_world w' sv,
     [{| target := io_to chatId; reached := joined chatId (sockets sv);
         event := new_message message |}]).
Proof. intros Hsend. cbn [on]. by rewrite Hsend. Qed.

(** The new-message and typing events come from the handlers of
    [send-message], [typing-start] and [typing-stop] and from no other,
    and go to the room of the message, or to the room the client
    named. *)
Lemma step_room_events sid socket ev sv d :
  sockets sv !! sid = Some socket ->
  d ∈ (step (from sid ev) sv).2 ->
  match event d with
  | new_message message =>
      (exists content messageType replyTo,
         ev = send_message (Message.chatId message) content messageType replyTo)
      /\ reached d = joined (Message.chatId message) (sockets sv)
  | user_typing _ _ =>
      exists room,
        ev = typing_start room /\ reached d = joined room (sockets sv) ∖ {[sid]}
  | user_stopped_typing _ =>
      exists room,
        ev = typing_stop room /\ reached d = joined room (sockets sv) ∖ {[sid]}
  | _ => True
  end.
Proof.
  intros Hsid. cbn [step]. rewrite Hsid.
  destruct ev; cbn [on].
  - by intros ?%elem_of_nil.
  - destruct (sendMessage _ (world sv)) as [[message|e] w'] eqn:Hsend;
      intros ->%list_elem_of_singleton; cbn; [|done].
    apply sendMessage_chatId in Hsend. cbn in Hsend. rewrite Hsend.
    split; [|reflexivity]. by exists content, messageType, replyTo.
  - intros ->%list_elem_of_singleton. cbn. by exists chatId.
  - intros ->%list_elem_of_singleton. cbn. by exists chatId.
  - destruct (editMessage _ _ _ _) as [[[]|?] ?]; cbn;
      rewrite ?elem_of_cons, ?elem_of_nil; intros Hd;
      destruct_or?; subst; try done.
  - destruct (deleteMessage _ _ _) as [[[]|?] ?]; cbn;
      rewrite ?elem_of_cons, ?elem_of_nil; intros Hd;
      destruct_or?; subst; try done.
  - by intros ->%list_elem_of_singleton.
  - by intros ->%list_elem_of_singleton.
Qed.

End SocketFacts.
End SocketFacts.

Section FanOutClaims.
Context `{Platform}.
Import MessageService socket_handlers SocketFacts.

(** C2 (as amended).  In any run of the server that starts with no socket
    connected, for a connected socket and a room: a [send-message] for
    the room that the service accepts publishes one new-message event,
    the message being of that room, which reaches the sockets that are
    in the room at that moment and no other socket; [typing-start] and
    [typing-stop] for the room publish one typing event each, which
    reaches the sockets in the room, the originating socket excepted,
    and no other socket; a socket that never asked to join the room, the
    room not being the one named by its own id, is not in it, and so
    receives none of these; and whatever new-message or typing event a
    socket's event gives rise to comes from these three handlers and
    goes to the room of the message, or the room the client named, in
    the same way. *)
Theorem C2_fan_out (sv0 : Server) (before : list Input) (sid : string)
    (socket : Socket) (room : string) :
  sockets sv0 = ∅ ->
  sockets (run before sv0).1 !! sid = Some socket ->
  let sv := (run before sv0).1 in
  let now_joined := joined room (sockets sv) in
  (forall content messageType replyTo message w',
     sendMessage
       (message_routes.message_data (user socket) room content
          (default "text" messageType) replyTo) (world sv)
     = (Ok message, w') ->
     Message.chatId message = room
     /\ (step (from sid (send_message room content messageType replyTo)) sv).2
        = [{| target := io_to room; reached := now_joined;
              event := new_message message |}])
  /\ (step (from sid (typing_start room)) sv).2
     = [{| target := socket_to sid room; reached := now_joined ∖ {[sid]};
           event := user_typing (id (user socket))
                      (display_name (user socket)) |}]
  /\ (step (from sid (typing_stop room)) sv).2
     = [{| target := socket_to sid room; reached := now_joined ∖ {[sid]};
           event := user_stopped_typing (id (user socket)) |}]
  /\ (forall s, s <> room -> ~ asked_to_join s room before -> s ∉ now_joined)
  /\ (forall ev d,
        d ∈ (step (from sid ev) sv).2 ->
        match event d with
        | new_message message =>
            (exists content messageType replyTo,
               ev = send_message (Message.chatId message) content messageType
                      replyTo)
            /\ reached d = joined (Message.chatId message) (sockets sv)
        | user_typing _ _ =>
            exists room',
              ev = typing_start room'
              /\ reached d = joined room' (sockets sv) ∖ {[sid]}
        | user_stopped_typing _ =>
            exists room',
              ev = typing_stop room'
              /\ reached d = joined room' (sockets sv) ∖ {[sid]}
        | _ => True
        end).
Proof.
  intros Hempty Hsid sv now_joined.
  pose proof (run_joins_recorded before sv0 Hempty) as Hrec.
  fold sv in Hsid. split; [|split; [|split; [|split]]].
  - intros content messageType replyTo message w' Hsend.
    split; [by apply sendMessage_chatId in Hsend|].
    cbn [step]. rewrite Hsid.
    by rewrite (on_send_message _ _ _ _ _ _ _ _ _ Hsend).
  - cbn [step]. by rewrite Hsid.
  - cbn [step]. by rewrite Hsid.
  - intros s Hown Hnever Hs.
    apply elem_of_joined in Hs as (sk & Hsock & Hroom).
    destruct (Hrec s sk room Hsock Hroom) as [->|Hasked]; done.
  - intros ev d Hd. by apply (step_room_events sid socket ev sv d).
Qed.

End FanOutClaims.

(** ** The claims at concrete inputs *)

Module Examples.
Import Reference ReferenceFacts Example.
Import MessageService message_routes socket_handlers.
Local Existing Instance platform.

Lemma create_general :
  createChatRoom general boot = (Ok general_room, w_created).
Proof. vm_compute. reflexivity. Qed.

Lemma send_hello : sendMessage hello w_general = (Ok hello_message, w_sent).
Proof. vm_compute. reflexivity. Qed.

(** C1, as first stated, fails: two rooms created one after the other
    are distinct rooms bound to the same key. *)
Lemma C1_rooms_share_key :
  createChatRoom general boot = (Ok general_room, w_created)
  /\ createChatRoom random w_created = (Ok random_room, w_random)
  /\ ChatRoom._id general_room <> ChatRoom._id random_room
  /\ ChatRoom.encryptionKey general_room = ChatRoom.encryptionKey random_room.
Proof.
  split; [exact create_general|].
  split; [vm_compute; reflexivity|].
  split; [vm_compute; discriminate | reflexivity].
Qed.

Lemma C1_room_key_witness :
  createChatRoom general boot = (Ok general_room, w_created)
  /\ exists roomId,
       ChatRoom._id general_room = Some roomId
       /\ ChatRoom.encryptionKey general_room = Some (static_encryptionKey boot)
       /\ (forall cs,
             chatrooms (execs cs w_created) !! IdObject roomId = Some general_room)
       /\ (forall cs roomData' room' w3,
             createChatRoom roomData' (execs cs w_created) = (Ok room', w3) ->
             ChatRoom.encryptionKey room' = ChatRoom.encryptionKey general_room).
Proof.
  split; [exact create_general|].
  exact (C1_room_key general boot w_created general_room create_general).
Defined.

(** C3, as first stated, fails: the record persisted for "hello" holds
    the plaintext. *)
Lemma C3_plaintext_persisted :
  sendMessage hello w_general = (Ok hello_message, w_sent)
  /\ messages w_sent !! IdObject hello_id = Some hello_message
  /\ Message.content hello_message = js "hello".
Proof.
  split; [exact send_hello|]. split; vm_compute; reflexivity.
Qed.

Lemma C3_persisted_record_witness :
  sendMessage hello w_general = (Ok hello_message, w_sent)
  /\ exists id key,
       Message._id hello_message = Some id
       /\ messages w_sent !! IdObject id = Some hello_message
       /\ room_key (chatrooms w_general !! IdString (MessageData.chatId hello))
          = Some key
       /\ Message.encryptedContent hello_message
          = Some (JSON_stringify
                    (EncryptionService.encrypt (MessageData.content hello)
                       key (entropy w_general)).1)
       /\ Message.content hello_message = MessageData.content hello.
Proof.
  split; [exact send_hello|].
  exact (C3_persisted_record hello w_general w_sent hello_message send_hello).
Defined.

(** C6, as first stated, fails: Bob's attempt on Alice's message is
    answered exactly as an attempt on a message that does not exist,
    with [false] and the 404 "Message not found or unauthorized"; no
    answer says Unauthorized. *)
Lemma C6_no_unauthorized_answer :
  messages w_hello !! IdString hello_id = Some hello_message
  /\ Message.senderId hello_message <> id bob
  /\ messages w_hello !! IdString no_such_id = None
  /\ (editMessage hello_id (id bob) (js "x") w_hello).1 = Ok false
  /\ (editMessage no_such_id (id bob) (js "x") w_hello).1 = Ok false
  /\ (deleteMessage hello_id (id bob) w_hello).1 = Ok false
  /\ (deleteMessage no_such_id (id bob) w_hello).1 = Ok false
  /\ (PUT_messages bob hello_id (js "x") w_hello).1
     = {| status := 404; json := JsonError "Message not found or unauthorized" |}
  /\ (PUT_messages bob no_such_id (js "x") w_hello).1
     = {| status := 404; json := JsonError "Message not found or unauthorized" |}
  /\ (DELETE_messages bob hello_id w_hello).1
     = {| status := 404; json := JsonError "Message not found or unauthorized" |}
  /\ (DELETE_messages bob no_such_id w_hello).1
     = {| status := 404; json := JsonError "Message not found or unauthorized" |}.
Proof.
  split; [vm_compute; reflexivity|].
  split; [vm_compute; discriminate|].
  repeat split; vm_compute; reflexivity.
Qed.

Lemma hello_stored : messages w_hello !! IdString hello_id = Some hello_message.
Proof. vm_compute. reflexivity. Qed.

Lemma bob_is_not_the_sender : Message.senderId hello_message <> id bob.
Proof. vm_compute. discriminate. Qed.

Lemma C6_only_the_sender_witness :
  messages w_hello !! IdString hello_id = Some hello_message
  /\ Message.senderId hello_message <> id bob
  /\ editMessage hello_id (id bob) (js "x") w_hello = (Ok false, w_hello)
  /\ deleteMessage hello_id (id bob) w_hello = (Ok false, w_hello)
  /\ (forall u c w',
        editMessage hello_id u c w_hello = (Ok true, w')
        \/ deleteMessage hello_id u w_hello = (Ok true, w') ->
        u = Message.senderId hello_message).
Proof.
  split; [exact hello_stored|]. split; [exact bob_is_not_the_sender|].
  exact (C6_only_the_sender w_hello hello_id hello_message (id bob) (js "x")
           hello_stored bob_is_not_the_sender).
Defined.

Lemma general_has_its_key :
  room_key (chatrooms w_damaged !! IdString general_id) = Some a_key.
Proof. vm_compute. reflexivity. Qed.

(** The listing of "general" once the second record is damaged: the
    first message decrypted, the second with the marker, oldest first. *)
Lemma listing_with_damage :
  getMessages general_id 50 0 w_damaged
  = (Ok [hello_message;
         with_content (js "[Encrypted message - decryption failed]")
           damaged_message], w_damaged).
Proof. vm_compute. reflexivity. Qed.

Lemma C7_decode_failure_contained_witness :
  room_key (chatrooms w_damaged !! IdString general_id) = Some a_key
  /\ getMessages general_id 50 0 w_damaged
     = (Ok [hello_message;
            with_content (js "[Encrypted message - decryption failed]")
              damaged_message], w_damaged)
  /\ Forall2
       (fun record out =>
          out = with_content (Message.content out) record
          /\ (forall ec,
                Message.encryptedContent record = Some ec ->
                truthy ec = true ->
                match JSON_parse ec with
                | Some data =>
                    match EncryptionService.decrypt data a_key with
                    | Some text => Message.content out = text
                    | None =>
                        Message.content out
                        = js "[Encrypted message - decryption failed]"
                    end
                | None =>
                    Message.content out
                    = js "[Encrypted message - decryption failed]"
                end)
          /\ (AuthenticatedCipher -> JsonCodec ->
              forall text e,
                Buffer.well_formed text = true ->
                Message.encryptedContent record
                = Some (JSON_stringify
                          (EncryptionService.encrypt text a_key e).1) ->
                truthy (JSON_stringify
                          (EncryptionService.encrypt text a_key e).1) = true ->
                Message.content out = text))
       (reverse (page general_id 50 0 w_damaged))
       [hello_message;
        with_content (js "[Encrypted message - decryption failed]")
          damaged_message].
Proof.
  split; [exact general_has_its_key|]. split; [exact listing_with_damage|].
  destruct (C7_decode_failure_contained w_damaged general_id 50 0)
    as (msgs & Hget & Hall).
  rewrite general_has_its_key in Hall.
  rewrite listing_with_damage in Hget.
  injection Hget as <-. exact Hall.
Defined.

(** C7, as first stated, fails: when the room is gone, the record whose
    ciphertext does not parse is listed as it is stored, without the
    marker. *)
Lemma C7_no_marker_without_room :
  chatrooms w_roomless !! IdString general_id = None
  /\ getMessages general_id 50 0 w_roomless
     = (Ok [hello_message; damaged_message], w_roomless)
  /\ Message.encryptedContent damaged_message = Some "not json"
  /\ JSON_parse "not json" = None
  /\ Message.content damaged_message = js "second"
  /\ Message.content damaged_message
     <> js "[Encrypted message - decryption failed]".
Proof.
  split; [reflexivity|]. split; [vm_compute; reflexivity|].
  split; [reflexivity|]. split; [reflexivity|]. split; [reflexivity|].
  discriminate.
Qed.

(** C9, as first stated, fails.  A send to a room that does not exist is
    not answered with NotFound: the service throws a plain error, and
    the route answers as for any other failure, 500 "Failed to send
    message".  And a message of kind [system], with a content of five
    characters, for a room that exists, is refused as a validation
    failure. *)
Lemma C9_no_NotFound_and_system_refused :
  chatrooms w_general !! IdString no_such_id = None
  /\ validator.isMongoId no_such_id = true
  /\ sendMessage (message_data alice no_such_id (js "hello") "text" None) w_general
     = (Throw "Chat room encryption key not found", w_general)
  /\ POST_rooms_messages alice no_such_id hello_body w_general
     = ({| status := 500; json := JsonError "Failed to send message" |}, w_general)
  /\ chatrooms w_general !! IdString general_id = Some general_room
  /\ body_messageType system_body = "system"
  /\ validator.units (body_content system_body) = 5%nat
  /\ POST_rooms_messages alice general_id system_body w_general
     = ({| status := 400; json := JsonValidationFailed ["messageType"] |},
        w_general).
Proof. repeat split; vm_compute; reflexivity. Qed.

Lemma no_such_room : room_key (chatrooms w_general !! IdString no_such_id) = None.
Proof. vm_compute. reflexivity. Qed.

Lemma C9_send_rejections_witness :
  (exists details,
     POST_rooms_messages alice general_id blank_body w_general
     = ({| status := 400; json := JsonValidationFailed details |}, w_general))
  /\ (forall messageData,
        MessageData.chatId messageData = no_such_id ->
        sendMessage messageData w_general
        = (Throw "Chat room encryption key not found", w_general))
  /\ POST_rooms_messages alice no_such_id hello_body w_general
     = ({| status := 500; json := JsonError "Failed to send message" |}, w_general)
  /\ chatrooms (POST_rooms_messages alice no_such_id hello_body w_general).2
     = chatrooms w_general
  /\ messages (POST_rooms_messages alice no_such_id hello_body w_general).2
     = messages w_general.
Proof.
  pose proof (C9_send_rejections alice general_id blank_body w_general)
    as (Hinvalid & _ & _).
  pose proof (C9_send_rejections alice no_such_id hello_body w_general)
    as (_ & Hroom & Hstate).
  destruct (Hroom no_such_room) as [Hthrow Hanswer].
  split; [apply Hinvalid; by left|].
  split; [exact Hthrow|].
  split.
  - apply Hanswer; [reflexivity | vm_compute; lia |].
    apply (bool_decide_unpack _). vm_compute. exact I.
  - apply Hstate. vm_compute. discriminate.
Defined.

Lemma C10_failures_collapse_witness :
  (messages w_hello !! IdString hello_id = None
   \/ exists m, messages w_hello !! IdString hello_id = Some m
                /\ Message.senderId m <> id bob)
  /\ editMessage hello_id (id bob) (js "x") w_hello = (Ok false, w_hello)
  /\ deleteMessage hello_id (id bob) w_hello = (Ok false, w_hello)
  /\ (validator.isMongoId hello_id = true ->
      validator.isLength 1 5000 (js "x") = true ->
      PUT_messages bob hello_id (js "x") w_hello
      = ({| status := 404;
            json := JsonError "Message not found or unauthorized" |}, w_hello))
  /\ (validator.isMongoId hello_id = true ->
      DELETE_messages bob hello_id w_hello
      = ({| status := 404;
            json := JsonError "Message not found or unauthorized" |}, w_hello)).
Proof.
  assert (Hcause : messages w_hello !! IdString hello_id = None
                   \/ exists m, messages w_hello !! IdString hello_id = Some m
                                /\ Message.senderId m <> id bob).
  { right. exists hello_message.
    split; [exact hello_stored | exact bob_is_not_the_sender]. }
  split; [exact Hcause|].
  exact (C10_failures_collapse w_hello bob hello_id (js "x") Hcause).
Defined.

(** C2, as first stated, fails: Alice, whose socket is in "general",
    starts typing there; the typing event goes to "general", reaches
    Bob's socket and does not reach her own. *)
Lemma C2_fan_out_broken :
  (alice_socket ∈ joined general_id (sockets sv_talking))
  /\ step alice_types sv_talking = (sv_talking, [typing_delivery])
  /\ event typing_delivery = user_typing "u1" "Alice"
  /\ target typing_delivery = socket_to alice_socket general_id
  /\ (bob_socket ∈ reached typing_delivery)
  /\ (alice_socket ∉ reached typing_delivery).
Proof.
  split; [apply (bool_decide_unpack _); vm_compute; exact I|].
  split; [vm_compute; reflexivity|].
  split; [reflexivity|]. split; [reflexivity|].
  split; apply (bool_decide_unpack _); vm_compute; exact I.
Qed.

Lemma nothing_connected : sockets sv_start = ∅.
Proof. reflexivity. Qed.

Lemma alice_is_talking :
  sockets (run talking sv_start).1 !! alice_socket = Some alice_connected.
Proof. vm_compute. reflexivity. Qed.

Lemma carol_never_asked : ~ asked_to_join carol_socket general_id talking.
Proof.
  intros (roomIds & Hin & _). unfold talking, three_connected in Hin.
  repeat (apply elem_of_cons in Hin as [Hin|Hin]; [discriminate|]).
  by apply elem_of_nil in Hin.
Qed.

Lemma C2_fan_out_witness :
  sockets sv_start = ∅
  /\ sockets (run talking sv_start).1 !! alice_socket = Some alice_connected
  /\ (step (from alice_socket (typing_start general_id)) sv_talking).2
     = [{| target := socket_to alice_socket general_id;
           reached := joined general_id (sockets sv_talking) ∖ {[alice_socket]};
           event := user_typing (id alice) (display_name alice) |}]
  /\ (carol_socket ∉ joined general_id (sockets sv_talking)).
Proof.
  split; [exact nothing_connected|]. split; [exact alice_is_talking|].
  destruct (C2_fan_out sv_start talking alice_socket alice_connected general_id
              nothing_connected alice_is_talking)
    as (_ & Htyping & _ & Hnever & _).
  split; [exact Htyping|].
  apply Hnever; [discriminate | exact carol_never_asked].
Defined.

End Examples.

(** * Further properties of the code *)

(** ** Hex text *)

Module HexFacts.
Import Buffer BufferFacts.

Lemma hex_digit_cases n :
  hex_digit n ∈ ["0"; "1"; "2"; "3"; "4"; "5"; "6"; "7"; "8"; "9";
                 "a"; "b"; "c"; "d"; "e"; "f"]%char.
Proof.
  unfold hex_digit.
  destruct n as [|p]; [set_solver|].
  do 4 (destruct p as [p|p|]; try set_solver).
Qed.

Lemma hex_digit_is_hex n : validator.is_hex_digit (hex_digit n) = true.
Proof.
  pose proof (hex_digit_cases n) as Hn.
  repeat (apply elem_of_cons in Hn as [->|Hn]; [reflexivity|]).
  by apply elem_of_nil in Hn.
Qed.

Lemma hex_digit_not_colon n : hex_digit n <> ":"%char.
Proof.
  pose proof (hex_digit_cases n) as Hn.
  repeat (apply elem_of_cons in Hn as [->|Hn]; [discriminate|]).
  by apply elem_of_nil in Hn.
Qed.

Lemma all_hex_toString_hex buf : validator.all_hex (toString_hex buf) = true.
Proof.
  induction buf as [|b r IH]; [reflexivity|].
  cbn [toString_hex validator.all_hex]. by rewrite !hex_digit_is_hex, IH.
Qed.

Lemma length_toString_hex buf :
  String.length (toString_hex buf) = (2 * length buf)%nat.
Proof.
  induction buf as [|b r IH]; [reflexivity|].
  cbn [toString_hex String.length length]. rewrite IH. lia.
Qed.

Lemma toString_hex_inj buf1 buf2 : toString_hex buf1 = toString_hex buf2 -> buf1 = buf2.
Proof.
  intros E. apply (f_equal from_hex) in E.
  by rewrite !from_hex_toString_hex in E.
Qed.

Lemma split_nonempty sep s : split sep s <> [].
Proof.
  destruct s as [|c r]; [discriminate|]. cbn.
  destruct (decide (c = sep)); [discriminate|].
  by destruct (split sep r).
Qed.

Lemma split_cons sep c r :
  split sep (String c r)
  = if decide (c = sep) then EmptyString :: split sep r
    else match split sep r with
         | piece :: pieces => String c piece :: pieces
         | [] => [String c EmptyString]
         end.
Proof. reflexivity. Qed.

(** A text that holds no separator is cut right after it. *)
Lemma split_prefix sep s rest :
  (forall c, c ∈ list_ascii_of_string s -> c <> sep) ->
  split sep (s +:+ String sep rest) = s :: split sep rest.
Proof.
  induction s as [|c r IH]; intros Hno.
  - change (EmptyString +:+ String sep rest) with (String sep rest).
    by rewrite split_cons, decide_True.
  - change (String c r +:+ String sep rest)
      with (String c (r +:+ String sep rest)).
    rewrite split_cons, decide_False by (apply Hno; cbn; left).
    rewrite IH; [reflexivity|]. intros c' Hc'. apply Hno. cbn. by right.
Qed.

Lemma split_no_separator sep s :
  (forall c, c ∈ list_ascii_of_string s -> c <> sep) -> split sep s = [s].
Proof.
  induction s as [|c r IH]; intros Hno; [reflexivity|].
  rewrite split_cons, decide_False by (apply Hno; cbn; left).
  rewrite IH; [reflexivity|]. intros c' Hc'. apply Hno. cbn. by right.
Qed.

(** Hex text holds no colon. *)
Lemma toString_hex_no_colon buf c :
  c ∈ list_ascii_of_string (toString_hex buf) -> c <> ":"%char.
Proof.
  induction buf as [|b r IH]; cbn; [by intros ?%elem_of_nil|].
  rewrite !elem_of_cons. intros [->|[->|Hc]]; [| |by apply IH];
    apply hex_digit_not_colon.
Qed.

Lemma split_toString_hex buf rest :
  split ":" (toString_hex buf +:+ String ":" rest)
  = toString_hex buf :: split ":" rest.
Proof. apply split_prefix, toString_hex_no_colon. Qed.

Lemma split_toString_hex_end buf : split ":" (toString_hex buf) = [toString_hex buf].
Proof. apply split_no_separator, toString_hex_no_colon. Qed.

End HexFacts.

(** ** The key generator *)

Section KeyClaims.
Import HexFacts.

(** X1.  [generateKey] returns 64 hexadecimal digits that read back, as
    hex, as the 32 bytes it drew; the text is not empty, so it counts as set
    wherever a key is tested for truth, and the next draw starts 32 bytes
    further on the tape. *)
Theorem X1_generateKey_shape (e : Entropy) :
  let key := (EncryptionService.generateKey e).1 in
  String.length key = 64%nat
  /\ validator.all_hex key = true
  /\ truthy key = true
  /\ Buffer.from_hex key = (randomBytes 32 e).1
  /\ length (Buffer.from_hex key) = 32%nat
  /\ cursor (EncryptionService.generateKey e).2 = (cursor e + 32)%nat.
Proof.
  cbv zeta. unfold EncryptionService.generateKey, EncryptionService.keyLength,
    config.encryption.keyLength.
  cbn [randomBytes fst snd cursor].
  assert (Hlen : length (tape e <$> seq (cursor e) 32) = 32%nat)
    by (by rewrite length_fmap, length_seq).
  rewrite length_toString_hex, all_hex_toString_hex,
    BufferFacts.from_hex_toString_hex, Hlen.
  repeat split; reflexivity.
Qed.

End KeyClaims.

(** ** Passwords *)

Section PasswordClaims.
Import HexFacts Passwords.
Variable scrypt : list byte -> list byte -> nat -> list byte.

(** The salt [hashPassword] draws. *)
Lemma hashPassword_unfold password e :
  hashPassword scrypt password e
  = (let salt := Buffer.toString_hex (randomBytes 32 e).1 in
     salt +:+ ":" +:+ Buffer.toString_hex
                        (scrypt (Buffer.from_utf8 password) (utf8 salt) 64),
     (randomBytes 32 e).2).
Proof. reflexivity. Qed.

Lemma verify_hashed password password' e :
  verifyPassword scrypt password' (hashPassword scrypt password e).1
  = bool_decide
      (let salt := utf8 (Buffer.toString_hex (randomBytes 32 e).1) in
       scrypt (Buffer.from_utf8 password') salt 64
       = scrypt (Buffer.from_utf8 password) salt 64).
Proof.
  rewrite hashPassword_unfold. cbv zeta. cbn [fst].
  unfold verifyPassword.
  change (?a +:+ ":" +:+ ?b) with (a +:+ String ":" b).
  rewrite split_toString_hex, split_toString_hex_end.
  apply bool_decide_ext. split; [|by intros ->].
  intros E. symmetry. by apply toString_hex_inj.
Qed.

(** X2.  A password verifies against its own hash: for every password and
    whatever salt was drawn, [verifyPassword(p, hashPassword(p))] is
    true. *)
Theorem X2_password_round_trip (password : jsstring) (e : Entropy) :
  verifyPassword scrypt password (hashPassword scrypt password e).1 = true.
Proof. rewrite verify_hashed. by apply bool_decide_eq_true. Qed.

(** X3.  Another password verifies against a hash exactly when [scrypt]
    derives the same key from it under the hash's salt. *)
Theorem X3_password_exact (password password' : jsstring) (e : Entropy) :
  verifyPassword scrypt password' (hashPassword scrypt password e).1 = true
  <-> scrypt (Buffer.from_utf8 password')
        (utf8 (Buffer.toString_hex (randomBytes 32 e).1)) 64
      = scrypt (Buffer.from_utf8 password)
          (utf8 (Buffer.toString_hex (randomBytes 32 e).1)) 64.
Proof. rewrite verify_hashed. by rewrite bool_decide_eq_true. Qed.

(** X4.  A stored hash with no colon in it verifies no password. *)
Theorem X4_hash_without_colon (password : jsstring) (hash : string) :
  (forall c, c ∈ list_ascii_of_string hash -> c <> ":"%char) ->
  verifyPassword scrypt password hash = false.
Proof.
  intros Hno. unfold verifyPassword. by rewrite split_no_separator.
Qed.

End PasswordClaims.

(** ** Sending, editing, deleting: what changes in the store *)

Module StoreFacts.
Section StoreFacts.
Context `{Platform}.
Import MessageService ServiceFacts.

Lemma sendMessage_Ok messageData w message w' :
  sendMessage messageData w = (Ok message, w') ->
  exists key,
    room_key (chatrooms w !! IdString (MessageData.chatId messageData)) = Some key
    /\ messages w !! IdObject (ObjectId (next_oid w)) = None
    /\ message
       = with_id (ObjectId (next_oid w))
           (stamped messageData
              (JSON_stringify
                 (EncryptionService.encrypt (MessageData.content messageData)
                    key (entropy w)).1) (now w))
    /\ messages w' = <[IdObject (ObjectId (next_oid w)) := message]> (messages w)
    /\ chatrooms w' = chatrooms w
    /\ static_encryptionKey w' = static_encryptionKey w.
Proof.
  rewrite sendMessage_unfold.
  destruct (room_key _) as [key|]; [|discriminate]. cbv zeta.
  destruct (messages w !! IdObject (ObjectId (next_oid w))) eqn:Hfree; [discriminate|].
  intros Heq. injection Heq; clear Heq; intros <- <-.
  exists key. by repeat split.
Qed.

(** A call that answers [false] leaves every stored message and room as it
    was. *)
Lemma editMessage_false messageId userId newContent w w' :
  editMessage messageId userId newContent w = (Ok false, w') ->
  messages w' = messages w /\ chatrooms w' = chatrooms w.
Proof.
  rewrite editMessage_unfold.
  destruct (find_own messageId userId w) as [message|] eqn:Hfind.
  - destruct (room_key _) as [key|].
    + cbv zeta. intros Heq. injection Heq; clear Heq; intros <- Hsame.
      apply bool_decide_eq_false in Hsame. apply dec_stable in Hsame.
      apply find_own_Some in Hfind as [Hm _].
      split; [|reflexivity]. unfold with_messages. cbn [messages].
      rewrite Hsame. by apply insert_id.
    + intros Heq. injection Heq; clear Heq; intros <-. by split.
  - intros Heq. injection Heq; clear Heq; intros <-. by split.
Qed.

Lemma editMessage_no_throw messageId userId newContent w e w' :
  editMessage messageId userId newContent w <> (Throw e, w').
Proof.
  rewrite editMessage_unfold.
  destruct (find_own _ _ _); [|discriminate].
  destruct (room_key _); discriminate.
Qed.

Lemma deleteMessage_no_throw messageId userId w e w' :
  deleteMessage messageId userId w <> (Throw e, w').
Proof.
  rewrite deleteMessage_unfold. destruct (find_own _ _ _); discriminate.
Qed.

Lemma deleteMessage_false messageId userId w w' :
  deleteMessage messageId userId w = (Ok false, w') -> w' = w.
Proof.
  rewrite deleteMessage_unfold.
  destruct (find_own _ _ _); [discriminate|].
  intros Heq. by injection Heq.
Qed.

End StoreFacts.
End StoreFacts.

Section StoreEffects.
Context `{Platform}.
Import MessageService ServiceFacts StoreFacts.

(** X5.  An accepted [sendMessage] adds exactly one record, under an id
    no message had, and touches nothing else: every other message and
    every room is as before.  The record carries the chat, sender, sender
    name, kind and reply-to it was given and the time of the call. *)
Theorem X5_sendMessage_adds_one (messageData : MessageData.t) (w w' : World)
    (message : Message.t) :
  sendMessage messageData w = (Ok message, w') ->
  exists id,
    Message._id message = Some id
    /\ messages w !! IdObject id = None
    /\ messages w' !! IdObject id = Some message
    /\ (forall k : DocId,
          k <> IdObject id -> messages w' !! k = messages w !! k)
    /\ chatrooms w' = chatrooms w
    /\ Message.chatId message = MessageData.chatId messageData
    /\ Message.senderId message = MessageData.senderId messageData
    /\ Message.senderName message = MessageData.senderName messageData
    /\ Message.messageType message = MessageData.messageType messageData
    /\ Message.replyTo message = MessageData.replyTo messageData
    /\ Message.timestamp message = now w.
Proof.
  intros Hsend.
  apply sendMessage_Ok in Hsend as (key & _ & Hfree & -> & Hms & Hrooms & _).
  exists (ObjectId (next_oid w)).
  split; [reflexivity|]. split; [exact Hfree|].
  split; [rewrite Hms; apply lookup_insert_eq|].
  split; [intros id' Hne; rewrite Hms; by apply lookup_insert_ne|].
  by repeat split.
Qed.

(** X6.  An edit by the sender, of a message whose room has its key,
    replaces the stored record by one with the new content, its new
    ciphertext, [edited] set and [editedAt] the time of the call; the id,
    chat, sender, sender name, kind, reply-to and creation time stay, and
    so do all other messages and all rooms.  The answer is [true] whenever
    the content changed. *)
Theorem X6_editMessage_by_sender (w : World) (messageId userId key : string)
    (m : Message.t) (newContent : jsstring) :
  messages w !! IdString messageId = Some m ->
  Message.senderId m = userId ->
  room_key (chatrooms w !! IdString (Message.chatId m)) = Some key ->
  exists ok w' m',
    editMessage messageId userId newContent w = (Ok ok, w')
    /\ messages w' !! IdString messageId = Some m'
    /\ (forall k : DocId,
          k <> IdString messageId -> messages w' !! k = messages w !! k)
    /\ chatrooms w' = chatrooms w
    /\ Message.content m' = newContent
    /\ Message.encryptedContent m'
       = Some (JSON_stringify
                 (EncryptionService.encrypt newContent key (entropy w)).1)
    /\ Message.edited m' = Some true
    /\ Message.editedAt m' = Some (now w)
    /\ Message._id m' = Message._id m
    /\ Message.chatId m' = Message.chatId m
    /\ Message.senderId m' = Message.senderId m
    /\ Message.senderName m' = Message.senderName m
    /\ Message.messageType m' = Message.messageType m
    /\ Message.replyTo m' = Message.replyTo m
    /\ Message.timestamp m' = Message.timestamp m
    /\ (Message.content m <> newContent -> ok = true).
Proof.
  intros Hm Hsender Hkey.
  assert (Hfind : find_own messageId userId w = Some m)
    by (by apply find_own_Some).
  rewrite editMessage_unfold, Hfind, Hkey. cbv zeta.
  eexists _, _, _. split; [reflexivity|].
  split; [apply lookup_insert_eq|].
  split; [intros id' Hne; by apply lookup_insert_ne|].
  repeat (split; [reflexivity|]).
  intros Hchanged. apply bool_decide_eq_true.
  intros Hsame. apply Hchanged. by rewrite <- Hsame.
Qed.

(** X7.  A delete by the sender removes that record and no other, leaves
    the rooms alone and answers [true]; the route answers 200; a second
    delete of the same id answers [false] and changes nothing. *)
Theorem X7_deleteMessage_by_sender (w : World) (user : User) (messageId : string)
    (m : Message.t) :
  messages w !! IdString messageId = Some m ->
  Message.senderId m = id user ->
  exists w',
    deleteMessage messageId (id user) w = (Ok true, w')
    /\ messages w' !! IdString messageId = None
    /\ (forall k : DocId,
          k <> IdString messageId -> messages w' !! k = messages w !! k)
    /\ chatrooms w' = chatrooms w
    /\ deleteMessage messageId (id user) w' = (Ok false, w')
    /\ (validator.isMongoId messageId = true ->
        message_routes.DELETE_messages user messageId w
        = ({| status := 200; json := JsonInfo "Message deleted successfully" |},
           w')).
Proof.
  intros Hm Hsender.
  assert (Hfind : find_own messageId (id user) w = Some m)
    by (by apply find_own_Some).
  assert (Hdel : deleteMessage messageId (id user) w
                 = (Ok true, with_messages (delete (IdString messageId) (messages w)) w))
    by (by rewrite deleteMessage_unfold, Hfind).
  eexists. split; [exact Hdel|].
  split; [apply lookup_delete_eq|].
  split; [intros id' Hne; by apply lookup_delete_ne|].
  split; [reflexivity|]. split.
  - rewrite deleteMessage_unfold.
    assert (Hgone : find_own messageId (id user)
                      (with_messages (delete (IdString messageId) (messages w)) w) = None).
    { apply find_own_None. left. apply lookup_delete_eq. }
    by rewrite Hgone.
  - intros Hid. unfold message_routes.DELETE_messages, security.validateRequest,
      message_routes.check.
    by rewrite Hid, Hdel.
Qed.

End StoreEffects.

(** ** Listing, once more *)

Module PageFacts.
Section PageFacts.
Context `{Platform}.
Import MessageService ServiceFacts ListingFacts EncryptionFacts.

(** The room's log holds the stored messages of the room. *)
Lemma elem_of_room_log m chatId w :
  m ∈ room_log chatId w
  <-> (exists id, messages w !! id = Some m) /\ Message.chatId m = chatId.
Proof.
  rewrite room_log_permutation, list_elem_of_filter, list_elem_of_fmap.
  split.
  - intros [Hchat ([id m'] & -> & Hin)]. apply elem_of_map_to_list in Hin.
    split; [by exists id | exact Hchat].
  - intros [[id Hm] Hchat]. split; [exact Hchat|].
    exists (id, m). split; [reflexivity|]. by apply elem_of_map_to_list.
Qed.

Lemma page_subseteq chatId limit skip w :
  page chatId limit skip w ⊆ room_log chatId w.
Proof.
  unfold page. etrans; [|apply (subseteq_drop skip)].
  destruct limit as [|n]; [done | apply subseteq_take].
Qed.

Lemma room_log_length chatId w :
  length (room_log chatId w)
  = length (filter (fun m => Message.chatId m = chatId)
              (map_to_list (messages w)).*2).
Proof. by rewrite room_log_permutation. Qed.

Lemma decrypt_message_chatId key m :
  Message.chatId (decrypt_message key m) = Message.chatId m.
Proof. destruct (decrypt_message_spec key m) as [-> _]. reflexivity. Qed.

(** A record whose ciphertext decodes to its content is listed as it is. *)
Lemma decrypt_message_fixed key m ec :
  Message.encryptedContent m = Some ec ->
  decode ec key = Some (Message.content m) ->
  decrypt_message key m = m.
Proof.
  intros Hec Hd. unfold decrypt_message. rewrite Hec.
  destruct (truthy ec); [|reflexivity]. rewrite Hd. apply with_content_same.
Qed.

Lemma listed_as_it_is key m ec chatId limit skip w :
  room_key (chatrooms w !! IdString chatId) = Some key ->
  Message.encryptedContent m = Some ec ->
  decode ec key = Some (Message.content m) ->
  m ∈ page chatId limit skip w ->
  exists msgs, getMessages chatId limit skip w = (Ok msgs, w) /\ m ∈ msgs.
Proof.
  intros Hkey Hec Hd Hin. rewrite getMessages_unfold, Hkey.
  eexists; split; [reflexivity|].
  apply elem_of_reverse, list_elem_of_fmap. exists m.
  split; [|exact Hin]. symmetry. by eapply decrypt_message_fixed.
Qed.

End PageFacts.
End PageFacts.

Section ListingEffects.
Context `{Platform}.
Import MessageService ServiceFacts StoreFacts ListingFacts PageFacts.

(** X8.  What was sent can be read back: on an authenticated cipher, for
    well-formed content, the ciphertext persisted by an accepted
    [sendMessage] decodes under the room's key to the content sent; the
    message is in the room's log, and every page of the room that holds
    it lists it exactly as [sendMessage] returned it. *)
Theorem X8_sent_message_listed `{!AuthenticatedCipher, !JsonCodec}
    (messageData : MessageData.t) (w w' : World) (message : Message.t) :
  sendMessage messageData w = (Ok message, w') ->
  Buffer.well_formed (MessageData.content messageData) = true ->
  exists key ec,
    room_key (chatrooms w' !! IdString (MessageData.chatId messageData)) = Some key
    /\ Message.encryptedContent message = Some ec
    /\ decode ec key = Some (MessageData.content messageData)
    /\ message ∈ room_log (MessageData.chatId messageData) w'
    /\ (forall limit skip,
          message ∈ page (MessageData.chatId messageData) limit skip w' ->
          exists msgs,
            getMessages (MessageData.chatId messageData) limit skip w'
            = (Ok msgs, w')
            /\ message ∈ msgs).
Proof.
  intros Hsend Hwf.
  apply sendMessage_Ok in Hsend as (key & Hkey & _ & -> & Hms & Hrooms & _).
  assert (Hd : decode
                 (JSON_stringify
                    (EncryptionService.encrypt (MessageData.content messageData)
                       key (entropy w)).1) key
               = Some (MessageData.content messageData)).
  { rewrite decode_stringify_encrypt.
    by rewrite BufferFacts.toString_from_utf8. }
  rewrite <- Hrooms in Hkey.
  eexists key, _. split; [exact Hkey|]. split; [reflexivity|].
  split; [exact Hd|]. split.
  - apply elem_of_room_log. split; [|reflexivity].
    exists (IdObject (ObjectId (next_oid w))). rewrite Hms.
    apply lookup_insert_eq.
  - intros limit skip Hin.
    eapply listed_as_it_is; [exact Hkey | reflexivity | exact Hd | exact Hin].
Qed.

(** X9.  An edit can be read back: on an authenticated cipher, for
    well-formed new content, after the sender's edit the stored ciphertext
    decodes under the room's key to the new content, and every page of
    the room that holds the edited record lists it with that content. *)
Theorem X9_edited_message_listed `{!AuthenticatedCipher, !JsonCodec}
    (w : World) (messageId userId key : string) (m : Message.t)
    (newContent : jsstring) :
  messages w !! IdString messageId = Some m ->
  Message.senderId m = userId ->
  room_key (chatrooms w !! IdString (Message.chatId m)) = Some key ->
  Buffer.well_formed newContent = true ->
  exists ok w' m' ec,
    editMessage messageId userId newContent w = (Ok ok, w')
    /\ messages w' !! IdString messageId = Some m'
    /\ Message.content m' = newContent
    /\ Message.encryptedContent m' = Some ec
    /\ decode ec key = Some newContent
    /\ m' ∈ room_log (Message.chatId m) w'
    /\ (forall limit skip,
          m' ∈ page (Message.chatId m) limit skip w' ->
          exists msgs,
            getMessages (Message.chatId m) limit skip w' = (Ok msgs, w')
            /\ m' ∈ msgs).
Proof.
  intros Hm Hsender Hkey Hwf.
  assert (Hfind : find_own messageId userId w = Some m)
    by (by apply find_own_Some).
  assert (Hd : decode
                 (JSON_stringify
                    (EncryptionService.encrypt newContent key (entropy w)).1) key
               = Some newContent).
  { rewrite decode_stringify_encrypt.
    by rewrite BufferFacts.toString_from_utf8. }
  rewrite editMessage_unfold, Hfind, Hkey. cbv zeta.
  eexists _, _, _, _. split; [reflexivity|].
  split; [apply lookup_insert_eq|]. split; [reflexivity|].
  split; [reflexivity|]. split; [exact Hd|]. split.
  - apply elem_of_room_log. split; [|reflexivity].
    exists (IdString messageId). apply lookup_insert_eq.
  - intros limit skip Hin.
    eapply listed_as_it_is; [exact Hkey | reflexivity | exact Hd | exact Hin].
Qed.

(** X10.  A listing never changes the world and never shows a message of
    another room.  It returns as many messages as the room has beyond the
    first [skip], at most [limit] of them when [limit] is not 0, and each
    is a stored message of the room, its content aside. *)
Theorem X10_page_bounds (w : World) (chatId : string) (limit skip : nat) :
  let stored :=
    length (filter (fun m => Message.chatId m = chatId)
              (map_to_list (messages w)).*2) in
  exists msgs,
    getMessages chatId limit skip w = (Ok msgs, w)
    /\ length msgs
       = match limit with
         | O => (stored - skip)%nat
         | _ => (limit `min` (stored - skip))%nat
         end
    /\ Forall
         (fun out =>
            Message.chatId out = chatId
            /\ exists id record,
                 messages w !! id = Some record
                 /\ out = with_content (Message.content out) record)
         msgs.
Proof.
  cbv zeta. rewrite getMessages_unfold. eexists; split; [reflexivity|]. split.
  - rewrite length_reverse.
    assert (Hpage : length (page chatId limit skip w)
                    = match limit with
                      | O => (length (room_log chatId w) - skip)%nat
                      | _ => (limit `min` (length (room_log chatId w) - skip))%nat
                      end).
    { unfold page. destruct limit as [|n]; cbn [cursor_limit].
      - apply length_drop.
      - by rewrite length_take, length_drop. }
    rewrite <- room_log_length, <- Hpage.
    destruct (room_key _); [apply length_fmap | reflexivity].
  - apply Forall_forall. intros out Hout. rewrite elem_of_reverse in Hout.
    assert (Hrec : exists record,
               record ∈ page chatId limit skip w
               /\ Message.chatId out = Message.chatId record
               /\ out = with_content (Message.content out) record).
    { destruct (room_key _) as [key|].
      - apply list_elem_of_fmap in Hout as (record & -> & Hin).
        exists record. split; [exact Hin|].
        split; [apply decrypt_message_chatId | apply decrypt_message_spec].
      - exists out. by rewrite with_content_same. }
    destruct Hrec as (record & Hin & Hchat & Hout').
    apply page_subseteq, elem_of_room_log in Hin as [[id Hid] Hroom].
    split; [congruence|]. by exists id, record.
Qed.

End ListingEffects.

(** ** Rooms *)

Module RoomFacts.
Import MessageService ServiceFacts HexFacts.

(** The key a loaded service holds. *)
Lemma load_key w0 :
  static_encryptionKey (load w0)
  = Buffer.toString_hex (randomBytes 32 (entropy w0)).1.
Proof. reflexivity. Qed.

Lemma key_of_32_bytes e :
  String.length (Buffer.toString_hex (randomBytes 32 e).1) = 64%nat
  /\ truthy (Buffer.toString_hex (randomBytes 32 e).1) = true.
Proof.
  split; [|reflexivity].
  rewrite length_toString_hex. cbn [randomBytes fst].
  by rewrite length_fmap, length_seq.
Qed.

(** No call of the service stores, changes or removes a room whose id is
    a string. *)
Lemma exec_string_rooms `{Platform} c w s :
  chatrooms (exec c w) !! IdString s = chatrooms w !! IdString s.
Proof.
  destruct c; cbn [exec]; try reflexivity.
  - rewrite createChatRoom_unfold. cbv zeta.
    destruct (chatrooms w !! IdObject (ObjectId (next_oid w))); [done|].
    cbn. by rewrite lookup_insert_ne.
  - rewrite sendMessage_unfold.
    destruct (room_key _); [|done]. cbv zeta.
    by destruct (messages w !! IdObject (ObjectId (next_oid w))).
  - rewrite deleteMessage_unfold. by destruct (find_own _ _ _).
  - rewrite editMessage_unfold. destruct (find_own _ _ _); [|done].
    by destruct (room_key _).
Qed.

Lemma execs_string_rooms `{Platform} cs w s :
  chatrooms (execs cs w) !! IdString s = chatrooms w !! IdString s.
Proof.
  revert w. induction cs as [|c cs IH]; intros w; [reflexivity|].
  cbn. unfold execs in IH. by rewrite IH, exec_string_rooms.
Qed.

Lemma js_length s : length (js s) = String.length s.
Proof. induction s as [|c r IH]; [reflexivity|]. cbn. by rewrite IH. Qed.

Lemma js_no_surrogate_pairs s : validator.surrogate_pairs (js s) = O.
Proof.
  induction s as [|c r IH]; [reflexivity|].
  cbn [js validator.surrogate_pairs].
  assert (Hhigh : Buffer.is_high_surrogate (N_of_ascii c) = false).
  { apply BufferFacts.surrogate_high_nspec. left.
    pose proof (N_ascii_bounded c). lia. }
  by rewrite Hhigh.
Qed.

(** An ASCII text measures as many units as it has characters. *)
Lemma units_js s : validator.units (js s) = String.length s.
Proof. unfold validator.units. rewrite js_length, js_no_surrogate_pairs. lia. Qed.

Global Instance newer_room_first_transitive :
  Transitive RoomDirectory.newer_room_first.
Proof. unfold RoomDirectory.newer_room_first. intros a b c ? ?. lia. Qed.

Global Instance newer_room_first_total : Total RoomDirectory.newer_room_first.
Proof. unfold RoomDirectory.newer_room_first. intros a b. lia. Qed.

Lemma getUserChatRooms_unfold userId w :
  RoomDirectory.getUserChatRooms userId w
  = (Ok (merge_sort RoomDirectory.newer_room_first
           (filter (fun r => userId ∈ ChatRoom.participants r)
              (map_to_list (chatrooms w)).*2)), w).
Proof. reflexivity. Qed.

Lemma elem_of_user_rooms userId w r :
  r ∈ merge_sort RoomDirectory.newer_room_first
        (filter (fun r => userId ∈ ChatRoom.participants r)
           (map_to_list (chatrooms w)).*2)
  <-> (exists id, chatrooms w !! id = Some r)
      /\ userId ∈ ChatRoom.participants r.
Proof.
  rewrite merge_sort_Permutation, list_elem_of_filter, list_elem_of_fmap.
  split.
  - intros [Hin ([id r'] & -> & Hr)]. apply elem_of_map_to_list in Hr.
    split; [by exists id | exact Hin].
  - intros [[id Hr] Hin]. split; [exact Hin|].
    exists (id, r). split; [reflexivity|]. by apply elem_of_map_to_list.
Qed.

End RoomFacts.

Section RoomClaims.
Context `{Platform}.
Import MessageService ServiceFacts RoomFacts room_routes.

(** X11.  [getUserChatRooms] changes nothing and returns exactly the
    stored rooms that have the user among their participants, each once,
    the most recently created first. *)
Theorem X11_getUserChatRooms (userId : string) (w : World) :
  exists rooms,
    RoomDirectory.getUserChatRooms userId w = (Ok rooms, w)
    /\ StronglySorted RoomDirectory.newer_room_first rooms
    /\ rooms ≡ₚ filter (fun r => userId ∈ ChatRoom.participants r)
                  (map_to_list (chatrooms w)).*2
    /\ (forall r, r ∈ rooms
                  <-> (exists id, chatrooms w !! id = Some r)
                      /\ userId ∈ ChatRoom.participants r).
Proof.
  rewrite getUserChatRooms_unfold. eexists; split; [reflexivity|].
  split; [apply StronglySorted_merge_sort; apply _|].
  split; [apply merge_sort_Permutation|].
  intros r. apply elem_of_user_rooms.
Qed.

(** X12.  A room created through [POST /rooms] has the requesting user as
    its creator and its only participant; the 201 answer carries the
    stored room, encryption key included, that key being the service's
    static key; no message is touched; and [GET /rooms] then lists the
    room for that user. *)
Theorem X12_POST_rooms_creates (user : User) (body : RoomBody) (w w' : World)
    (room : ChatRoom.t) :
  POST_rooms user body w
  = ({| rooms_status := 201; rooms_json := RoomCreated room |}, w') ->
  ChatRoom.participants room = [id user]
  /\ ChatRoom.createdBy room = id user
  /\ ChatRoom.name room = body_name body
  /\ ChatRoom.isPrivate room = body_isPrivate body
  /\ ChatRoom.createdAt room = now w
  /\ ChatRoom.encryptionKey room = Some (static_encryptionKey w)
  /\ (exists roomId, ChatRoom._id room = Some roomId
                     /\ chatrooms w !! IdObject roomId = None
                     /\ chatrooms w' !! IdObject roomId = Some room)
  /\ messages w' = messages w
  /\ (exists rooms,
        GET_rooms user w' = ({| rooms_status := 200; rooms_json := RoomList rooms |}, w')
        /\ room ∈ rooms).
Proof.
  unfold POST_rooms, validateRequest.
  destruct (_ ++ _) as [|e es]; [|discriminate].
  rewrite createChatRoom_unfold. cbv zeta. cbn [RoomData.name RoomData.description
    RoomData.participants RoomData.createdBy RoomData.isPrivate].
  destruct (chatrooms w !! IdObject (ObjectId (next_oid w))) eqn:Hfree; [discriminate|].
  intros Heq. injection Heq; clear Heq; intros <- <-.
  repeat (split; [reflexivity|]).
  split.
  { exists (ObjectId (next_oid w)).
    split; [reflexivity|]. split; [exact Hfree|]. cbn. apply lookup_insert_eq. }
  split; [reflexivity|].
  unfold GET_rooms. rewrite getUserChatRooms_unfold.
  eexists; split; [reflexivity|].
  apply elem_of_user_rooms. split.
  - exists (IdObject (ObjectId (next_oid w))). cbn. apply lookup_insert_eq.
  - cbn. apply list_elem_of_singleton. reflexivity.
Qed.

(** X13.  [POST /rooms] with an empty name, a name of more than 100
    characters or a description of more than 500 is answered 400 and
    creates nothing: the world is as it was. *)
Theorem X13_POST_rooms_rejects (user : User) (body : RoomBody) (w : World) :
  (String.length (body_name body) = 0
   \/ 100 < String.length (body_name body)
   \/ exists text, body_description body = Some text
                   /\ 500 < String.length text)%nat ->
  exists details,
    POST_rooms user body w
    = ({| rooms_status := 400; rooms_json := RoomsValidationFailed details |}, w).
Proof.
  intros Hbad. unfold POST_rooms, validateRequest, message_routes.check.
  assert (Herr : (if validator.isLength 1 100 (js (body_name body))
                  then [] else ["name"])
                 ++ (if description_ok (body_description body)
                     then [] else ["description"]) <> []).
  { intros Hnil. apply app_eq_nil in Hnil as [Hname Hdesc].
    destruct (validator.isLength 1 100 (js (body_name body))) eqn:Hlen;
      [|discriminate].
    destruct (description_ok (body_description body)) eqn:Hd; [|discriminate].
    apply RouteFacts.isLength_spec in Hlen. rewrite units_js in Hlen.
    destruct Hbad as [?|[?|(text & Htext & Hlong)]]; [lia | lia |].
    rewrite Htext in Hd. cbn in Hd.
    apply RouteFacts.isLength_spec in Hd. rewrite units_js in Hd. lia. }
  destruct (_ ++ _) as [|e es]; [done|]. by eexists.
Qed.

(** X14.  Once the service is loaded, every room it creates holds a
    key of 64 characters, and keeps it, in the store, through every
    later call; but the room is stored under the ObjectId the driver gave
    it, where no lookup by the id returned, a string, finds it: as long
    as the database holds no room whose id is that string, every send
    to the created room throws "Chat room encryption key not found" and
    changes nothing. *)
Theorem X14_created_room_key_out_of_reach (w0 w1 : World)
    (before after : list Call) (roomData : RoomData.t) (room : ChatRoom.t)
    (roomId : string) :
  createChatRoom roomData (execs before (load w0)) = (Ok room, w1) ->
  ChatRoom._id room = Some roomId ->
  chatrooms w0 !! IdString roomId = None ->
  (exists key,
     ChatRoom.encryptionKey room = Some key
     /\ String.length key = 64%nat
     /\ room_key (chatrooms (execs after w1) !! IdObject roomId) = Some key)
  /\ (forall messageData,
        MessageData.chatId messageData = roomId ->
        sendMessage messageData (execs after w1)
        = (Throw "Chat room encryption key not found", execs after w1)).
Proof.
  intros Hcreate Hid Hnone.
  assert (Hw1 : w1 = exec (call_createChatRoom roomData)
                       (execs before (load w0)))
    by (cbn [exec]; by rewrite Hcreate).
  apply createChatRoom_Ok in Hcreate as (-> & _ & Hstored).
  cbn in Hid. injection Hid as <-. split.
  - rewrite execs_static_key, load_key in Hstored |- *.
    destruct (key_of_32_bytes (entropy w0)) as [Hlen Htruthy].
    eexists. split; [reflexivity|]. split; [exact Hlen|].
    rewrite (execs_room_kept after w1 _ _ Hstored).
    unfold room_key. cbn [ChatRoom.encryptionKey]. by rewrite Htruthy.
  - intros messageData Hchat. apply RouteFacts.sendMessage_no_room.
    rewrite Hchat, execs_string_rooms, Hw1, exec_string_rooms,
      execs_string_rooms.
    change (chatrooms (load w0)) with (chatrooms w0). by rewrite Hnone.
Qed.

End RoomClaims.

(** ** Sockets *)

Module SocketEffects.
Section SocketEffects.
Context `{Platform}.
Import MessageService ServiceFacts StoreFacts socket_handlers SocketFacts.

Lemma joined_connected room socks : joined room socks ⊆ dom socks.
Proof. unfold joined. apply dom_filter_subseteq. Qed.

(** An emit reaches connected sockets only. *)
Lemma recipients_connected socks t : recipients socks t ⊆ dom socks.
Proof.
  destruct t; cbn.
  - apply joined_connected.
  - etrans; [apply subseteq_difference_l; reflexivity|apply joined_connected].
  - apply intersection_subseteq_r.
  - apply subseteq_difference_l. reflexivity.
Qed.

(** What a handler emits is addressed over the sockets it leaves. *)
Lemma on_reached sid socket ev sv d :
  d ∈ (on sid socket ev sv).2 ->
  reached d = recipients (sockets (on sid socket ev sv).1) (target d).
Proof.
  destruct ev; cbn.
  - by intros ?%elem_of_nil.
  - destruct (sendMessage _ _) as [[?|?] ?]; cbn;
      by intros ->%list_elem_of_singleton.
  - by intros ->%list_elem_of_singleton.
  - by intros ->%list_elem_of_singleton.
  - destruct (editMessage _ _ _ _) as [[[]|?] ?]; cbn;
      rewrite ?elem_of_cons, ?elem_of_nil; intros Hd;
      destruct_or?; subst; done.
  - destruct (deleteMessage _ _ _) as [[[]|?] ?]; cbn;
      rewrite ?elem_of_cons, ?elem_of_nil; intros Hd;
      destruct_or?; subst; done.
  - by intros ->%list_elem_of_singleton.
  - by intros ->%list_elem_of_singleton.
Qed.

Lemma step_reached i sv d :
  d ∈ (step i sv).2 -> reached d ⊆ dom (sockets (step i sv).1).
Proof.
  destruct i as [u|sid ev|t]; cbn; [by intros ?%elem_of_nil| |by intros ?%elem_of_nil].
  destruct (sockets sv !! sid) as [socket|]; [|by intros ?%elem_of_nil].
  intros Hd. rewrite (on_reached _ _ _ _ _ Hd). apply recipients_connected.
Qed.

(** No handler connects a socket. *)
Lemma step_no_new_socket i sv :
  (forall u, i <> connect u) ->
  dom (sockets (step i sv).1) ⊆ dom (sockets sv).
Proof.
  intros Hi. destruct i as [u|sid ev|t]; cbn; [by destruct (Hi u)| |done].
  destruct (sockets sv !! sid) as [socket|] eqn:Hsid; [|done].
  rewrite on_sockets. destruct ev; try done.
  - rewrite dom_insert. apply union_least; [|done].
    apply singleton_subseteq_l, elem_of_dom. by exists socket.
  - rewrite dom_delete. apply subseteq_difference_l. reflexivity.
Qed.

Lemma run_cons i inputs sv :
  run (i :: inputs) sv
  = ((run inputs (step i sv).1).1, (step i sv).2 ++ (run inputs (step i sv).1).2).
Proof.
  cbn [run]. destruct (step i sv) as [sv' out]. cbn [fst snd].
  by destruct (run inputs sv') as [sv'' out'].
Qed.

Lemma run_not_reached inputs sv sid d :
  (forall u, connect u ∉ inputs) ->
  sid ∉ dom (sockets sv) ->
  d ∈ (run inputs sv).2 -> sid ∉ reached d.
Proof.
  revert sv. induction inputs as [|i inputs IH]; intros sv Hno Hout Hd.
  - by apply elem_of_nil in Hd.
  - assert (Hi : forall u, i <> connect u).
    { intros u ->. apply (Hno u). apply elem_of_cons. by left. }
    assert (Hout' : sid ∉ dom (sockets (step i sv).1)).
    { intros Hin. apply Hout. by apply (step_no_new_socket i sv Hi). }
    rewrite run_cons in Hd. cbn [snd] in Hd.
    apply elem_of_app in Hd as [Hd|Hd].
    + intros Hin. apply Hout'. by apply (step_reached i sv d Hd).
    + apply (IH (step i sv).1); [|done..].
      intros u Hu. apply (Hno u). apply elem_of_cons. by right.
Qed.

(** A socket that stays connected keeps its user and the rooms it is
    in. *)
Lemma step_keeps_rooms i sv sid socket :
  (forall u, i <> connect u) -> i <> from sid disconnect ->
  sockets sv !! sid = Some socket ->
  exists socket',
    sockets (step i sv).1 !! sid = Some socket'
    /\ user socket' = user socket
    /\ rooms socket ⊆ rooms socket'.
Proof.
  intros Hi Hstay Hsid.
  destruct i as [u|s ev|t]; cbn; [by destruct (Hi u)| |by exists socket].
  destruct (sockets sv !! s) as [sk|] eqn:Hs; [|by exists socket].
  rewrite on_sockets. destruct ev; try by exists socket.
  - destruct (decide (s = sid)) as [->|Hne].
    + rewrite lookup_insert_eq. eexists; split; [reflexivity|].
      assert (sk = socket) as -> by congruence.
      split; [reflexivity|]. apply union_subseteq_l.
    + rewrite lookup_insert_ne by done. by exists socket.
  - destruct (decide (s = sid)) as [->|Hne]; [done|].
    rewrite lookup_delete_ne by done. by exists socket.
Qed.

Lemma run_keeps_rooms inputs sv sid socket :
  (forall u, connect u ∉ inputs) -> from sid disconnect ∉ inputs ->
  sockets sv !! sid = Some socket ->
  exists socket',
    sockets (run inputs sv).1 !! sid = Some socket'
    /\ user socket' = user socket
    /\ rooms socket ⊆ rooms socket'.
Proof.
  revert sv socket. induction inputs as [|i inputs IH]; intros sv socket Hno Hstay Hsid.
  - by exists socket.
  - rewrite run_cons. cbn [fst].
    destruct (step_keeps_rooms i sv sid socket) as (sk & Hsk & Huser & Hrooms).
    { intros u ->. apply (Hno u). apply elem_of_cons. by left. }
    { intros ->. apply Hstay. apply elem_of_cons. by left. }
    { exact Hsid. }
    destruct (IH (step i sv).1 sk) as (sk' & Hsk' & Huser' & Hrooms').
    { intros u Hu. apply (Hno u). apply elem_of_cons. by right. }
    { intros Hin. apply Hstay. apply elem_of_cons. by right. }
    { exact Hsk. }
    exists sk'. split; [exact Hsk'|]. split; [congruence|]. by etrans.
Qed.

End SocketEffects.
End SocketEffects.

Section SocketClaims.
Context `{Platform}.
Import MessageService ServiceFacts StoreFacts socket_handlers SocketFacts
  SocketEffects.

(** X15.  Every emit reaches only sockets that are connected once the
    handler is done; and after a socket disconnects, as long as no new
    connection is made, nothing the server emits reaches it, the
    [user_offline] notice of its own disconnection included. *)
Theorem X15_nothing_after_disconnect (sv : Server) (sid : string)
    (later : list Input) (d : Delivery) :
  (forall u, connect u ∉ later) ->
  d ∈ (run (from sid disconnect :: later) sv).2 ->
  (sid ∉ reached d)
  /\ (sid ∉ dom (sockets (run (from sid disconnect :: later) sv).1)).
Proof.
  intros Hno Hd.
  assert (Hgone : sid ∉ dom (sockets (step (from sid disconnect) sv).1)).
  { cbn. destruct (sockets sv !! sid) as [socket|] eqn:Hsid; cbn.
    - rewrite dom_delete. intros [_ Hne]%elem_of_difference.
      apply Hne. by apply elem_of_singleton.
    - by apply not_elem_of_dom. }
  split.
  - rewrite run_cons in Hd. cbn [snd] in Hd.
    apply elem_of_app in Hd as [Hd|Hd].
    + intros Hin. apply Hgone. by apply (step_reached _ sv d Hd).
    + by apply (run_not_reached later _ sid d Hno Hgone).
  - rewrite run_cons. cbn [fst]. clear Hd.
    revert Hgone. generalize (step (from sid disconnect) sv).1.
    induction later as [|i later IH]; intros sv1 Hgone; [done|].
    rewrite run_cons. cbn [fst]. apply IH.
    + intros u Hu. apply (Hno u). apply elem_of_cons. by right.
    + intros Hin. apply Hgone. apply (step_no_new_socket i sv1); [|done].
      intros u ->. apply (Hno u). apply elem_of_cons. by left.
Qed.

(** X16.  An edit or a deletion that succeeds is announced twice, to the
    requesting socket and to all the others: the handler emits the event
    to the socket itself and then broadcasts it, so that between them
    the two emits reach every connected socket, whatever rooms it is in;
    a message-edited event carries the new text in clear.  The sockets
    are left as they were, the world is as the service left it. *)
Theorem X16_announced_to_all (sid : string) (socket : Socket)
    (ev : ClientEvent) (e : ServerEvent) (sv : Server) (w' : World) :
  sockets sv !! sid = Some socket ->
  (exists messageId content,
     ev = edit_message messageId content
     /\ e = message_edited messageId content true (now w')
     /\ editMessage messageId (id (user socket)) content (world sv)
        = (Ok true, w'))
  \/ (exists messageId,
        ev = delete_message messageId
        /\ e = message_deleted messageId
        /\ deleteMessage messageId (id (user socket)) (world sv)
           = (Ok true, w')) ->
  step (from sid ev) sv
  = (with_world w' sv,
     [{| target := socket_self sid; reached := {[sid]}; event := e |};
      {| target := socket_broadcast sid;
         reached := dom (sockets sv) ∖ {[sid]}; event := e |}])
  /\ {[sid]} ∪ (dom (sockets sv) ∖ {[sid]}) = dom (sockets sv).
Proof.
  intros Hsid Hdone.
  assert (Hself : {[sid]} ∩ dom (sockets sv) = ({[sid]} : gset string)).
  { apply elem_of_dom_2 in Hsid. apply set_eq. intros s.
    rewrite elem_of_intersection, elem_of_singleton.
    split; [tauto|]. by intros ->. }
  split.
  - cbn [step]. rewrite Hsid.
    destruct Hdone as [(messageId & content & -> & -> & Hedit)
                      |(messageId & -> & -> & Hdelete)]; cbn [on].
    + rewrite Hedit. unfold emit. cbn. by rewrite Hself.
    + rewrite Hdelete. unfold emit. cbn. by rewrite Hself.
  - apply elem_of_dom_2 in Hsid. apply set_eq. intros s.
    rewrite elem_of_union, elem_of_difference, elem_of_singleton.
    destruct (decide (s = sid)) as [->|]; tauto.
Qed.

(** X17.  When a send, an edit or a deletion fails, the service throwing
    or answering [false], the handler emits one [error] event, to the
    requesting socket alone, and nothing else; the stored rooms and
    messages and the sockets are as they were. *)
Theorem X17_failure_contained (sid : string) (socket : Socket)
    (ev : ClientEvent) (text : string) (sv : Server) :
  sockets sv !! sid = Some socket ->
  (exists chatId content messageType replyTo error w',
     ev = send_message chatId content messageType replyTo
     /\ text = "Failed to send message"
     /\ sendMessage
          (message_routes.message_data (user socket) chatId content
             (default "text" messageType) replyTo) (world sv)
        = (Throw error, w'))
  \/ (exists messageId content,
        ev = edit_message messageId content
        /\ text = "Failed to edit message"
        /\ (editMessage messageId (id (user socket)) content (world sv)).1
           <> Ok true)
  \/ (exists messageId,
        ev = delete_message messageId
        /\ text = "Failed to delete message"
        /\ (deleteMessage messageId (id (user socket)) (world sv)).1
           <> Ok true) ->
  let sv' := (step (from sid ev) sv).1 in
  (step (from sid ev) sv).2
  = [{| target := socket_self sid; reached := {[sid]}; event := error text |}]
  /\ messages (world sv') = messages (world sv)
  /\ chatrooms (world sv') = chatrooms (world sv)
  /\ sockets sv' = sockets sv.
Proof.
  intros Hsid Hfailed. cbv zeta.
  assert (Hself : {[sid]} ∩ dom (sockets sv) = ({[sid]} : gset string)).
  { apply elem_of_dom_2 in Hsid. apply set_eq. intros s.
    rewrite elem_of_intersection, elem_of_singleton.
    split; [tauto|]. by intros ->. }
  cbn [step]. rewrite Hsid.
  destruct Hfailed
    as [(chatId & content & messageType & replyTo & error & w' & -> & -> & Hsend)
       |[(messageId & content & -> & -> & Hedit)
        |(messageId & -> & -> & Hdelete)]]; cbn [on].
  - rewrite Hsend. unfold emit. cbn. rewrite Hself.
    apply RouteFacts.sendMessage_Throw in Hsend as [Hrooms Hmsgs].
    by repeat split.
  - destruct (editMessage _ _ _ _) as [[[]|?] w'] eqn:Hcall;
      unfold emit; cbn; rewrite ?Hself.
    + by destruct Hedit.
    + apply editMessage_false in Hcall as [Hmsgs Hrooms]. by repeat split.
    + by apply editMessage_no_throw in Hcall.
  - destruct (deleteMessage _ _ _) as [[[]|?] w'] eqn:Hcall;
      unfold emit; cbn; rewrite ?Hself.
    + by destruct Hdelete.
    + apply deleteMessage_false in Hcall as ->. by repeat split.
    + by apply deleteMessage_no_throw in Hcall.
Qed.

(** X18.  Whatever a socket's event makes the server emit names the user
    the socket was authenticated as: the identity in a new message, a
    typing notice, a status change or an offline notice is never taken
    from what the client sent. *)
Theorem X18_identity_from_socket (sid : string) (socket : Socket)
    (ev : ClientEvent) (sv : Server) (d : Delivery) :
  sockets sv !! sid = Some socket ->
  d ∈ (step (from sid ev) sv).2 ->
  match event d with
  | new_message message =>
      Message.senderId message = id (user socket)
      /\ Message.senderName message = display_name (user socket)
  | user_typing userId userName =>
      userId = id (user socket) /\ userName = display_name (user socket)
  | user_stopped_typing userId
  | user_status_changed userId _
  | user_offline userId => userId = id (user socket)
  | message_edited _ _ _ _ | message_deleted _ | error _ => True
  end.
Proof.
  intros Hsid. cbn [step]. rewrite Hsid.
  destruct ev; cbn [on];
    try (intros ->%list_elem_of_singleton; by cbn).
  - by intros ?%elem_of_nil.
  - destruct (sendMessage _ _) as [[message|?] w'] eqn:Hsend; cbn;
      intros ->%list_elem_of_singleton; cbn; [|done].
    apply sendMessage_Ok in Hsend as (key & _ & _ & -> & _). by split.
  - destruct (editMessage _ _ _ _) as [[[]|?] w']; cbn;
      rewrite ?elem_of_cons, ?elem_of_nil; intros Hd;
      destruct_or?; subst; done.
  - destruct (deleteMessage _ _ _) as [[[]|?] w']; cbn;
      rewrite ?elem_of_cons, ?elem_of_nil; intros Hd;
      destruct_or?; subst; done.
Qed.

(** X19.  The message a [new_message] event carries is the record that
    was just stored, under an id that was free before: it is in the chat
    the client named, of the kind the client named or [text] when none
    was given, stamped with the server's clock, and goes to the sockets
    in that chat's room. *)
Theorem X19_new_message_is_stored (sid : string) (socket : Socket)
    (ev : ClientEvent) (sv : Server) (d : Delivery) (message : Message.t) :
  sockets sv !! sid = Some socket ->
  d ∈ (step (from sid ev) sv).2 ->
  event d = new_message message ->
  let sv' := (step (from sid ev) sv).1 in
  exists chatId content messageType replyTo messageId,
    ev = send_message chatId content messageType replyTo
    /\ (step (from sid ev) sv).2 = [d]
    /\ Message._id message = Some messageId
    /\ messages (world sv) !! IdObject messageId = None
    /\ messages (world sv')
       = <[IdObject messageId := message]> (messages (world sv))
    /\ chatrooms (world sv') = chatrooms (world sv)
    /\ Message.chatId message = chatId
    /\ Message.content message = content
    /\ Message.messageType message = default "text" messageType
    /\ Message.replyTo message = replyTo
    /\ Message.timestamp message = now (world sv)
    /\ is_Some (room_key (chatrooms (world sv) !! IdString chatId))
    /\ reached d = joined chatId (sockets sv).
Proof.
  intros Hsid Hd Hev. cbv zeta. revert Hd.
  cbn [step]. rewrite Hsid.
  destruct ev; cbn [on];
    try (intros ->%list_elem_of_singleton; discriminate).
  - by intros ?%elem_of_nil.
  - destruct (sendMessage _ _) as [[m|?] w'] eqn:Hsend; cbn;
      intros ->%list_elem_of_singleton; [|discriminate].
    cbn in Hev. injection Hev as ->.
    apply sendMessage_Ok in Hsend as (key & Hkey & Hfree & -> & Hmsgs & Hrooms & _).
    exists chatId, content, messageType, replyTo, (ObjectId (next_oid (world sv))).
    cbn in Hkey. rewrite Hkey. by repeat split.
  - destruct (editMessage _ _ _ _) as [[[]|?] w']; cbn;
      rewrite ?elem_of_cons, ?elem_of_nil; intros Hd;
      destruct_or?; subst; done.
  - destruct (deleteMessage _ _ _) as [[[]|?] w']; cbn;
      rewrite ?elem_of_cons, ?elem_of_nil; intros Hd;
      destruct_or?; subst; done.
Qed.

(** X20.  Joining is not checked: a connected socket that asks to join a
    room is in it from then on, until it disconnects or a new connection
    is made, whoever the room's participants are and whether the room
    exists or not.  From then on every message a connected socket sends
    to that room and the service accepts is published to it, and so is
    every typing notice of another socket for that room. *)
Theorem X20_join_is_unchecked (sid : string) (socket : Socket)
    (roomIds : list string) (room : string) (sv : Server)
    (between : list Input) :
  sockets sv !! sid = Some socket ->
  room ∈ roomIds ->
  (forall u, connect u ∉ between) ->
  from sid disconnect ∉ between ->
  let sv1 := (run (from sid (join_rooms roomIds) :: between) sv).1 in
  (sid ∈ joined room (sockets sv1))
  /\ (forall sender sender_socket content messageType replyTo message w',
        sockets sv1 !! sender = Some sender_socket ->
        sendMessage
          (message_routes.message_data (user sender_socket) room content
             (default "text" messageType) replyTo) (world sv1)
        = (Ok message, w') ->
        exists d,
          (step (from sender (send_message room content messageType replyTo))
             sv1).2 = [d]
          /\ event d = new_message message
          /\ sid ∈ reached d)
  /\ (forall sender sender_socket,
        sockets sv1 !! sender = Some sender_socket ->
        sender <> sid ->
        exists d,
          (step (from sender (typing_start room)) sv1).2 = [d]
          /\ event d = user_typing (id (user sender_socket))
                         (display_name (user sender_socket))
          /\ sid ∈ reached d).
Proof.
  intros Hsid Hroom Hno Hstay sv1.
  assert (Hin : sid ∈ joined room (sockets sv1)).
  { subst sv1. rewrite run_cons. cbn [fst].
    destruct (run_keeps_rooms between (step (from sid (join_rooms roomIds)) sv).1
                sid {| user := user socket;
                       rooms := rooms socket ∪ list_to_set roomIds |})
      as (sk & Hsk & _ & Hrooms); [done..| |].
    { cbn [step]. rewrite Hsid. cbn. apply lookup_insert_eq. }
    apply elem_of_joined. exists sk. split; [exact Hsk|].
    apply Hrooms. cbn. apply elem_of_union. right.
    by apply elem_of_list_to_set. }
  split; [exact Hin|]. split.
  - intros sender sender_socket content messageType replyTo message w'
      Hsender Hsend.
    eexists. cbn [step]. rewrite Hsender.
    rewrite (on_send_message _ _ _ _ _ _ _ _ _ Hsend). cbn [snd].
    split; [reflexivity|]. split; [reflexivity|]. exact Hin.
  - intros sender sender_socket Hsender Hne.
    eexists. cbn [step]. rewrite Hsender. cbn [on snd].
    split; [reflexivity|]. split; [reflexivity|]. cbn.
    apply elem_of_difference. split; [exact Hin|].
    intros Heq%elem_of_singleton. by destruct Hne.
Qed.

End SocketClaims.

(** ** Ids *)

Module IdFacts.
Import HexFacts.

(** Twenty-four hexadecimal digits are what [isMongoId] accepts, among
    others. *)
Lemma isMongoId_hex s :
  validator.all_hex s = true -> String.length s = 24%nat ->
  validator.isMongoId s = true.
Proof.
  intros Hhex Hlen.
  unfold validator.isMongoId, validator.isHexadecimal, validator.hex_digits.
  rewrite Hhex, Hlen. destruct s; [discriminate|]. reflexivity.
Qed.

(** The ids the driver issues are what [isMongoId] accepts. *)
Lemma isMongoId_ObjectId n : validator.isMongoId (ObjectId n) = true.
Proof.
  apply isMongoId_hex; unfold ObjectId.
  - apply all_hex_toString_hex.
  - by rewrite length_toString_hex, ReferenceFacts.be_bytes_length.
Qed.

End IdFacts.

Section IdClaims.
Context `{Platform}.
Import MessageService ServiceFacts StoreFacts IdFacts.

(** X21.  A created room is out of the reach of [getChatRoom].  The
    room is stored under the ObjectId the driver gave it and stays there,
    unchanged, through every later call; [getChatRoom] with the id
    [createChatRoom] returned, a string, does not find it: at any later
    time it answers what it answered before the room was created, which
    is [null] unless the database already held a room whose id is that
    string. *)
Theorem X21_created_room_is_not_found (roomData : RoomData.t) (w w1 : World)
    (room : ChatRoom.t) (later : list Call) :
  createChatRoom roomData w = (Ok room, w1) ->
  exists id,
    ChatRoom._id room = Some id
    /\ chatrooms (execs later w1) !! IdObject id = Some room
    /\ getChatRoom id (execs later w1)
       = (Ok (chatrooms w !! IdString id), execs later w1)
    /\ getChatRoom id w = (Ok (chatrooms w !! IdString id), w).
Proof.
  intros Hcreate.
  assert (Hw1 : w1 = exec (call_createChatRoom roomData) w)
    by (cbn [exec]; by rewrite Hcreate).
  apply createChatRoom_Ok in Hcreate as (-> & _ & Hstored).
  exists (ObjectId (next_oid w)). split; [reflexivity|].
  split; [by apply execs_room_kept|]. split; [|reflexivity].
  unfold getChatRoom. unfold_M.
  by rewrite RoomFacts.execs_string_rooms, Hw1, RoomFacts.exec_string_rooms.
Qed.

(** X22.  Every id the service hands out, of a room or of a message, is
    one the routes' [isMongoId] check accepts. *)
Theorem X22_issued_ids_are_valid (w w' : World) (id : string) :
  (exists roomData room,
     createChatRoom roomData w = (Ok room, w') /\ ChatRoom._id room = Some id)
  \/ (exists messageData message,
        sendMessage messageData w = (Ok message, w')
        /\ Message._id message = Some id) ->
  validator.isMongoId id = true.
Proof.
  intros [(roomData & room & Hcreate & Hid)|(messageData & message & Hsend & Hid)].
  - apply createChatRoom_Ok in Hcreate as (-> & _ & _).
    injection Hid as <-. apply isMongoId_ObjectId.
  - apply sendMessage_Ok in Hsend as (key & _ & _ & -> & _).
    injection Hid as <-. apply isMongoId_ObjectId.
Qed.

End IdClaims.

(** ** The message routes *)

Section RouteEffects.
Context `{Platform}.
Import MessageService ServiceFacts StoreFacts message_routes.

(** X23.  The sender's edit of a message whose room is gone, or has no
    usable key, is refused like an edit by a stranger: [editMessage]
    answers [false] and changes nothing, and the route answers 404
    "Message not found or unauthorized". *)
Theorem X23_edit_without_key (w : World) (user : User) (messageId : string)
    (m : Message.t) (content : jsstring) :
  messages w !! IdString messageId = Some m ->
  Message.senderId m = id user ->
  room_key (chatrooms w !! IdString (Message.chatId m)) = None ->
  editMessage messageId (id user) content w = (Ok false, w)
  /\ (validator.isMongoId messageId = true ->
      validator.isLength 1 5000 content = true ->
      PUT_messages user messageId content w
      = ({| status := 404;
            json := JsonError "Message not found or unauthorized" |}, w)).
Proof.
  intros Hm Hsender Hkey.
  assert (Hfind : find_own messageId (id user) w = Some m)
    by (by apply find_own_Some).
  assert (Hedit : editMessage messageId (id user) content w = (Ok false, w))
    by (by rewrite editMessage_unfold, Hfind, Hkey).
  split; [exact Hedit|].
  intros Hid Hlen. unfold PUT_messages, security.validateRequest, check.
  by rewrite Hid, Hlen, Hedit.
Qed.

(** X24.  [PUT /messages/:messageId] by the sender, with a well-formed id
    and a new content of 1 to 5000 characters that differs from the stored
    one, the room having its key, answers 200 "Message updated
    successfully", and the stored record then holds the new content,
    marked as edited. *)
Theorem X24_PUT_by_sender (w : World) (user : User) (messageId key : string)
    (m : Message.t) (content : jsstring) :
  messages w !! IdString messageId = Some m ->
  Message.senderId m = id user ->
  room_key (chatrooms w !! IdString (Message.chatId m)) = Some key ->
  validator.isMongoId messageId = true ->
  validator.isLength 1 5000 content = true ->
  Message.content m <> content ->
  exists w' m',
    PUT_messages user messageId content w
    = ({| status := 200; json := JsonInfo "Message updated successfully" |}, w')
    /\ messages w' !! IdString messageId = Some m'
    /\ Message.content m' = content
    /\ Message.edited m' = Some true
    /\ Message.senderId m' = id user.
Proof.
  intros Hm Hsender Hkey Hid Hlen Hchanged.
  assert (Hfind : find_own messageId (id user) w = Some m)
    by (by apply find_own_Some).
  unfold PUT_messages, security.validateRequest, check.
  rewrite Hid, Hlen. cbn [app].
  rewrite editMessage_unfold, Hfind, Hkey. cbv zeta.
  rewrite bool_decide_true.
  - eexists _, _. split; [reflexivity|].
    split; [apply lookup_insert_eq|]. by repeat split.
  - intros Hsame. apply Hchanged. by rewrite <- Hsame.
Qed.

(** X25.  A message id that [isMongoId] rejects, one that is not 24
    characters long or is not made of hexadecimal digits (after [0x] or
    [0h], if it starts so), never reaches the service: [PUT] and [DELETE
    /messages/:messageId] answer 400, naming the field, and the world is
    as it was. *)
Theorem X25_malformed_id (w : World) (user : User) (messageId : string)
    (content : jsstring) :
  String.length messageId <> 24%nat
  \/ validator.isHexadecimal messageId = false ->
  (exists details,
     PUT_messages user messageId content w
     = ({| status := 400; json := JsonValidationFailed details |}, w)
     /\ "messageId" ∈ details)
  /\ DELETE_messages user messageId w
     = ({| status := 400; json := JsonValidationFailed ["messageId"] |}, w).
Proof.
  intros Hbad.
  assert (Hid : validator.isMongoId messageId = false).
  { unfold validator.isMongoId. destruct Hbad as [Hlen|Hhex].
    - rewrite (bool_decide_false _ Hlen). apply andb_false_r.
    - by rewrite Hhex. }
  unfold PUT_messages, DELETE_messages, security.validateRequest, check.
  rewrite Hid. cbn [app]. split; [|reflexivity].
  eexists. split; [reflexivity|]. apply elem_of_cons. by left.
Qed.

(** X26.  A message the service stored is out of the reach of its own
    edit and delete.  [sendMessage] stores the message under the ObjectId
    the driver gave it and returns that id as a string; [editMessage] and
    [deleteMessage] look the string up, so, the database holding no
    message whose id is that string, both answer [false] to anyone, the
    sender included, and change nothing, and the routes answer 404
    "Message not found or unauthorized". *)
Theorem X26_sent_message_out_of_reach (messageData : MessageData.t)
    (w w' : World) (message : Message.t) (messageId : string) (user : User)
    (content : jsstring) :
  sendMessage messageData w = (Ok message, w') ->
  Message._id message = Some messageId ->
  messages w !! IdString messageId = None ->
  messages w' !! IdObject messageId = Some message
  /\ editMessage messageId (id user) content w' = (Ok false, w')
  /\ deleteMessage messageId (id user) w' = (Ok false, w')
  /\ (validator.isLength 1 5000 content = true ->
      PUT_messages user messageId content w'
      = ({| status := 404;
            json := JsonError "Message not found or unauthorized" |}, w'))
  /\ DELETE_messages user messageId w'
     = ({| status := 404;
           json := JsonError "Message not found or unauthorized" |}, w').
Proof.
  intros Hsend Hid Hnone.
  apply sendMessage_Ok in Hsend as (key & _ & _ & -> & Hms & _).
  cbn in Hid. injection Hid as <-.
  assert (Hfind : find_own (ObjectId (next_oid w)) (id user) w' = None).
  { apply find_own_None. left. rewrite Hms. by rewrite lookup_insert_ne. }
  assert (Hedit : editMessage (ObjectId (next_oid w)) (id user) content w'
                  = (Ok false, w'))
    by (by rewrite editMessage_unfold, Hfind).
  assert (Hdelete : deleteMessage (ObjectId (next_oid w)) (id user) w'
                    = (Ok false, w'))
    by (by rewrite deleteMessage_unfold, Hfind).
  split; [rewrite Hms; apply lookup_insert_eq|].
  split; [exact Hedit|]. split; [exact Hdelete|]. split.
  - intros Hlen. unfold PUT_messages, security.validateRequest, check.
    by rewrite IdFacts.isMongoId_ObjectId, Hlen, Hedit.
  - unfold DELETE_messages, security.validateRequest, check.
    by rewrite IdFacts.isMongoId_ObjectId, Hdelete.
Qed.

End RouteEffects.

(** ** The reference platform reads back what it writes *)

Module ReferenceJson.
Import Reference HexFacts.

Lemma append_String c r s : String c r +:+ s = String c (r +:+ s).
Proof. reflexivity. Qed.

Lemma append_empty s : EmptyString +:+ s = s.
Proof. reflexivity. Qed.

Lemma append_assoc a b c : (a +:+ b) +:+ c = a +:+ (b +:+ c).
Proof.
  induction a as [|x a IH]; [reflexivity|].
  by rewrite !append_String, IH.
Qed.

Lemma strip_append prefix s : strip prefix (prefix +:+ s) = Some s.
Proof.
  induction prefix as [|c p IH]; [reflexivity|].
  rewrite append_String. cbn [strip]. by rewrite decide_True.
Qed.

Lemma hex_not_quote c :
  validator.is_hex_digit c = true -> c <> dquote /\ c <> "\"%char.
Proof. intros Hc. split; intros ->; discriminate. Qed.

Lemma until_quote_hex a r :
  validator.all_hex a = true ->
  until_quote (a +:+ String dquote r) = Some (a, r).
Proof.
  induction a as [|c a IH]; intros Ha.
  - rewrite append_empty. cbn [until_quote]. by rewrite decide_True.
  - cbn [validator.all_hex] in Ha. apply andb_true_iff in Ha as [Hc Ha].
    destruct (hex_not_quote c Hc) as [Hq Hb].
    rewrite append_String. cbn [until_quote].
    rewrite decide_False by done. rewrite decide_False by done.
    by rewrite (IH Ha).
Qed.

Lemma stringify_layout e i t :
  stringify {| encrypted := e; iv := i; tag := t |}
  = ("{" +:+ quoted "encrypted" +:+ ":" +:+ String dquote EmptyString)
      +:+ (e +:+ String dquote
             ((("," +:+ quoted "iv" +:+ ":" +:+ String dquote EmptyString))
                +:+ (i +:+ String dquote
                       (("," +:+ quoted "tag" +:+ ":" +:+ String dquote EmptyString)
                          +:+ (t +:+ String dquote "}"))))).
Proof.
  unfold stringify, quoted. cbn [encrypted iv tag].
  by rewrite ?append_String, ?append_empty, ?append_assoc,
    ?append_String, ?append_empty.
Qed.

Lemma parse_stringify_hex e i t :
  validator.all_hex e = true -> validator.all_hex i = true ->
  validator.all_hex t = true ->
  parse (stringify {| encrypted := e; iv := i; tag := t |})
  = Some {| encrypted := e; iv := i; tag := t |}.
Proof.
  intros He Hi Ht. rewrite stringify_layout. unfold parse.
  rewrite strip_append. cbn [mbind option_bind].
  rewrite (until_quote_hex e _ He). cbn [mbind option_bind].
  rewrite strip_append. cbn [mbind option_bind].
  rewrite (until_quote_hex i _ Hi). cbn [mbind option_bind].
  rewrite strip_append. cbn [mbind option_bind].
  rewrite (until_quote_hex t _ Ht). reflexivity.
Qed.

Global Instance json_codec : @JsonCodec platform.
Proof.
  constructor. intros e i t.
  apply parse_stringify_hex; apply all_hex_toString_hex.
Qed.

End ReferenceJson.

(** ** The properties at work *)

Module MoreExamples.
Import Reference ReferenceFacts ReferenceJson Example MoreExample Examples.
Import MessageService message_routes room_routes socket_handlers.
Local Existing Instance platform.

Lemma no_colon_in_it c :
  c ∈ list_ascii_of_string no_colon -> c <> ":"%char.
Proof.
  unfold no_colon. cbn. intros Hc.
  repeat (apply elem_of_cons in Hc as [->|Hc]; [discriminate|]).
  by apply elem_of_nil in Hc.
Qed.

Lemma X4_hash_without_colon_witness :
  (forall c, c ∈ list_ascii_of_string no_colon -> c <> ":"%char)
  /\ Passwords.verifyPassword toy_scrypt (js "secret") no_colon = false.
Proof.
  split; [exact no_colon_in_it|].
  exact (X4_hash_without_colon toy_scrypt (js "secret") no_colon no_colon_in_it).
Defined.

Lemma X5_sendMessage_adds_one_witness :
  sendMessage hello w_general = (Ok hello_message, w_sent)
  /\ exists id,
       Message._id hello_message = Some id
       /\ messages w_general !! IdObject id = None
       /\ messages w_sent !! IdObject id = Some hello_message
       /\ (forall k : DocId,
             k <> IdObject id -> messages w_sent !! k = messages w_general !! k)
       /\ chatrooms w_sent = chatrooms w_general.
Proof.
  split; [exact send_hello|].
  destruct (X5_sendMessage_adds_one hello w_general w_sent hello_message send_hello)
    as (id & Hid & Hfree & Hstored & Hothers & Hrooms & _).
  exists id. auto.
Defined.

Lemma alice_is_the_sender : Message.senderId hello_message = id alice.
Proof. reflexivity. Qed.

Lemma hello_room_has_its_key :
  room_key (chatrooms w_hello !! IdString (Message.chatId hello_message))
  = Some a_key.
Proof. vm_compute. reflexivity. Qed.

Lemma X6_editMessage_by_sender_witness :
  messages w_hello !! IdString hello_id = Some hello_message
  /\ Message.senderId hello_message = id alice
  /\ room_key (chatrooms w_hello !! IdString (Message.chatId hello_message))
     = Some a_key
  /\ exists w' m',
       editMessage hello_id (id alice) (js "hello!") w_hello = (Ok true, w')
       /\ messages w' !! IdString hello_id = Some m'
       /\ Message.content m' = js "hello!"
       /\ Message.edited m' = Some true
       /\ Message.timestamp m' = Message.timestamp hello_message.
Proof.
  split; [exact hello_stored|]. split; [exact alice_is_the_sender|].
  split; [exact hello_room_has_its_key|].
  destruct (X6_editMessage_by_sender w_hello hello_id (id alice) a_key
              hello_message (js "hello!") hello_stored alice_is_the_sender
              hello_room_has_its_key)
    as (ok & w' & m' & Hedit & Hstored & _ & _ & Hcontent & _ & Hedited & _
        & _ & _ & _ & _ & _ & _ & Htime & Hok).
  exists w', m'. rewrite (Hok ltac:(discriminate)) in Hedit. auto.
Defined.

Lemma X7_deleteMessage_by_sender_witness :
  messages w_hello !! IdString hello_id = Some hello_message
  /\ Message.senderId hello_message = id alice
  /\ exists w',
       deleteMessage hello_id (id alice) w_hello = (Ok true, w')
       /\ messages w' !! IdString hello_id = None
       /\ chatrooms w' = chatrooms w_hello
       /\ deleteMessage hello_id (id alice) w' = (Ok false, w')
       /\ DELETE_messages alice hello_id w_hello
          = ({| status := 200; json := JsonInfo "Message deleted successfully" |},
             w').
Proof.
  split; [exact hello_stored|]. split; [exact alice_is_the_sender|].
  destruct (X7_deleteMessage_by_sender w_hello alice hello_id hello_message
              hello_stored alice_is_the_sender)
    as (w' & Hdel & Hgone & _ & Hrooms & Hagain & Hroute).
  exists w'. repeat (split; [assumption|]). apply Hroute. reflexivity.
Defined.

Lemma hello_is_well_formed : Buffer.well_formed (js "hello") = true.
Proof. reflexivity. Qed.

Lemma X8_sent_message_listed_witness :
  sendMessage hello w_general = (Ok hello_message, w_sent)
  /\ Buffer.well_formed (js "hello") = true
  /\ exists key ec,
       room_key (chatrooms w_sent !! IdString general_id) = Some key
       /\ Message.encryptedContent hello_message = Some ec
       /\ decode ec key = Some (js "hello")
       /\ hello_message ∈ room_log general_id w_sent.
Proof.
  split; [exact send_hello|]. split; [exact hello_is_well_formed|].
  destruct (X8_sent_message_listed hello w_general w_sent hello_message
              send_hello hello_is_well_formed)
    as (key & ec & Hkey & Hec & Hdecode & Hlog & _).
  exists key, ec. auto.
Defined.

Lemma X9_edited_message_listed_witness :
  messages w_hello !! IdString hello_id = Some hello_message
  /\ Message.senderId hello_message = id alice
  /\ room_key (chatrooms w_hello !! IdString (Message.chatId hello_message))
     = Some a_key
  /\ Buffer.well_formed (js "hello!") = true
  /\ exists ok w' m' ec,
       editMessage hello_id (id alice) (js "hello!") w_hello = (Ok ok, w')
       /\ messages w' !! IdString hello_id = Some m'
       /\ Message.encryptedContent m' = Some ec
       /\ decode ec a_key = Some (js "hello!")
       /\ m' ∈ room_log general_id w'.
Proof.
  split; [exact hello_stored|]. split; [exact alice_is_the_sender|].
  split; [exact hello_room_has_its_key|]. split; [reflexivity|].
  destruct (X9_edited_message_listed w_hello hello_id (id alice) a_key
              hello_message (js "hello!") hello_stored alice_is_the_sender
              hello_room_has_its_key eq_refl)
    as (ok & w' & m' & ec & Hedit & Hstored & _ & Hec & Hdecode & Hlog & _).
  exists ok, w', m', ec. auto.
Defined.

Lemma post_general :
  POST_rooms alice general_body boot
  = ({| rooms_status := 201; rooms_json := RoomCreated general_room |}, w_created).
Proof. vm_compute. reflexivity. Qed.

Lemma X12_POST_rooms_creates_witness :
  POST_rooms alice general_body boot
  = ({| rooms_status := 201; rooms_json := RoomCreated general_room |}, w_created)
  /\ ChatRoom.participants general_room = [id alice]
  /\ ChatRoom.encryptionKey general_room = Some (static_encryptionKey boot)
  /\ exists rooms,
       GET_rooms alice w_created
       = ({| rooms_status := 200; rooms_json := RoomList rooms |}, w_created)
       /\ general_room ∈ rooms.
Proof.
  split; [exact post_general|].
  destruct (X12_POST_rooms_creates alice general_body boot w_created general_room
              post_general)
    as (Hparts & _ & _ & _ & _ & Hkey & _ & _ & Hlisted).
  auto.
Defined.

Lemma nameless :
  (String.length (body_name nameless_body) = 0
   \/ 100 < String.length (body_name nameless_body)
   \/ exists text, body_description nameless_body = Some text
                   /\ 500 < String.length text)%nat.
Proof. left. reflexivity. Qed.

Lemma X13_POST_rooms_rejects_witness :
  (String.length (body_name nameless_body) = 0
   \/ 100 < String.length (body_name nameless_body)
   \/ exists text, body_description nameless_body = Some text
                   /\ 500 < String.length text)%nat
  /\ exists details,
       POST_rooms alice nameless_body w_general
       = ({| rooms_status := 400; rooms_json := RoomsValidationFailed details |},
          w_general).
Proof.
  split; [exact nameless|].
  exact (X13_POST_rooms_rejects alice nameless_body w_general nameless).
Defined.

Lemma create_general_loaded :
  createChatRoom general (execs [] (load unloaded)) = (Ok general_room, w_created).
Proof. exact create_general. Qed.

Lemma general_has_its_id : ChatRoom._id general_room = Some general_id.
Proof. reflexivity. Qed.

Lemma no_room_before : chatrooms unloaded !! IdString general_id = None.
Proof. reflexivity. Qed.

Lemma X14_created_room_key_out_of_reach_witness :
  createChatRoom general (execs [] (load unloaded)) = (Ok general_room, w_created)
  /\ ChatRoom._id general_room = Some general_id
  /\ chatrooms unloaded !! IdString general_id = None
  /\ (exists key,
        ChatRoom.encryptionKey general_room = Some key
        /\ String.length key = 64%nat
        /\ room_key (chatrooms (execs later_calls w_created) !! IdObject general_id)
           = Some key)
  /\ (forall messageData,
        MessageData.chatId messageData = general_id ->
        sendMessage messageData (execs later_calls w_created)
        = (Throw "Chat room encryption key not found",
           execs later_calls w_created)).
Proof.
  split; [exact create_general_loaded|]. split; [exact general_has_its_id|].
  split; [exact no_room_before|].
  exact (X14_created_room_key_out_of_reach unloaded w_created [] later_calls
           general general_room general_id create_general_loaded
           general_has_its_id no_room_before).
Defined.

Lemma X21_created_room_is_not_found_witness :
  createChatRoom general boot = (Ok general_room, w_created)
  /\ chatrooms (execs later_calls w_created) !! IdObject general_id
     = Some general_room
  /\ getChatRoom general_id (execs later_calls w_created)
     = (Ok None, execs later_calls w_created).
Proof.
  split; [exact create_general|].
  destruct (X21_created_room_is_not_found general boot w_created general_room
              later_calls create_general)
    as (id & Hid & Hstored & Hget & _).
  injection Hid as <-. split; [exact Hstored | exact Hget].
Defined.

Lemma general_was_issued :
  (exists roomData room,
     createChatRoom roomData boot = (Ok room, w_created)
     /\ ChatRoom._id room = Some general_id)
  \/ (exists messageData message,
        sendMessage messageData boot = (Ok message, w_created)
        /\ Message._id message = Some general_id).
Proof. left. exists general, general_room. split; [exact create_general|reflexivity]. Qed.

Lemma X22_issued_ids_are_valid_witness :
  ((exists roomData room,
      createChatRoom roomData boot = (Ok room, w_created)
      /\ ChatRoom._id room = Some general_id)
   \/ (exists messageData message,
         sendMessage messageData boot = (Ok message, w_created)
         /\ Message._id message = Some general_id))
  /\ validator.isMongoId general_id = true.
Proof.
  split; [exact general_was_issued|].
  exact (X22_issued_ids_are_valid boot w_created general_id general_was_issued).
Defined.

Lemma hello_is_orphaned : messages w_orphan !! IdString hello_id = Some hello_message.
Proof. vm_compute. reflexivity. Qed.

Lemma orphan_has_no_key :
  room_key (chatrooms w_orphan !! IdString (Message.chatId hello_message)) = None.
Proof. vm_compute. reflexivity. Qed.

Lemma X23_edit_without_key_witness :
  messages w_orphan !! IdString hello_id = Some hello_message
  /\ Message.senderId hello_message = id alice
  /\ room_key (chatrooms w_orphan !! IdString (Message.chatId hello_message))
     = None
  /\ editMessage hello_id (id alice) (js "hello!") w_orphan = (Ok false, w_orphan)
  /\ PUT_messages alice hello_id (js "hello!") w_orphan
     = ({| status := 404;
           json := JsonError "Message not found or unauthorized" |}, w_orphan).
Proof.
  split; [exact hello_is_orphaned|]. split; [exact alice_is_the_sender|].
  split; [exact orphan_has_no_key|].
  destruct (X23_edit_without_key w_orphan alice hello_id hello_message
              (js "hello!") hello_is_orphaned alice_is_the_sender
              orphan_has_no_key) as [Hedit Hroute].
  split; [exact Hedit|]. apply Hroute; reflexivity.
Defined.

Lemma hello_id_is_valid : validator.isMongoId hello_id = true.
Proof. reflexivity. Qed.

Lemma new_text_is_valid : validator.isLength 1 5000 (js "hello!") = true.
Proof. reflexivity. Qed.

Lemma new_text_differs : Message.content hello_message <> js "hello!".
Proof. discriminate. Qed.

Lemma X24_PUT_by_sender_witness :
  messages w_hello !! IdString hello_id = Some hello_message
  /\ Message.senderId hello_message = id alice
  /\ room_key (chatrooms w_hello !! IdString (Message.chatId hello_message))
     = Some a_key
  /\ validator.isMongoId hello_id = true
  /\ validator.isLength 1 5000 (js "hello!") = true
  /\ Message.content hello_message <> js "hello!"
  /\ exists w' m',
       PUT_messages alice hello_id (js "hello!") w_hello
       = ({| status := 200; json := JsonInfo "Message updated successfully" |}, w')
       /\ messages w' !! IdString hello_id = Some m'
       /\ Message.content m' = js "hello!"
       /\ Message.edited m' = Some true
       /\ Message.senderId m' = id alice.
Proof.
  split; [exact hello_stored|]. split; [exact alice_is_the_sender|].
  split; [exact hello_room_has_its_key|]. split; [exact hello_id_is_valid|].
  split; [exact new_text_is_valid|]. split; [exact new_text_differs|].
  exact (X24_PUT_by_sender w_hello alice hello_id a_key hello_message
           (js "hello!") hello_stored alice_is_the_sender hello_room_has_its_key
           hello_id_is_valid new_text_is_valid new_text_differs).
Defined.

Lemma short_id_is_malformed :
  String.length short_id <> 24%nat \/ validator.isHexadecimal short_id = false.
Proof. left. discriminate. Qed.

Lemma X25_malformed_id_witness :
  (String.length short_id <> 24%nat
   \/ validator.isHexadecimal short_id = false)
  /\ (exists details,
        PUT_messages alice short_id (js "hello!") w_hello
        = ({| status := 400; json := JsonValidationFailed details |}, w_hello)
        /\ "messageId" ∈ details)
  /\ DELETE_messages alice short_id w_hello
     = ({| status := 400; json := JsonValidationFailed ["messageId"] |}, w_hello).
Proof.
  split; [exact short_id_is_malformed|].
  exact (X25_malformed_id w_hello alice short_id (js "hello!")
           short_id_is_malformed).
Defined.

Lemma hello_has_its_id : Message._id hello_message = Some hello_id.
Proof. reflexivity. Qed.

Lemma no_hello_before : messages w_general !! IdString hello_id = None.
Proof. reflexivity. Qed.

Lemma X26_sent_message_out_of_reach_witness :
  sendMessage hello w_general = (Ok hello_message, w_sent)
  /\ Message._id hello_message = Some hello_id
  /\ messages w_general !! IdString hello_id = None
  /\ messages w_sent !! IdObject hello_id = Some hello_message
  /\ editMessage hello_id (id alice) (js "hello!") w_sent = (Ok false, w_sent)
  /\ deleteMessage hello_id (id alice) w_sent = (Ok false, w_sent)
  /\ PUT_messages alice hello_id (js "hello!") w_sent
     = ({| status := 404;
           json := JsonError "Message not found or unauthorized" |}, w_sent)
  /\ DELETE_messages alice hello_id w_sent
     = ({| status := 404;
           json := JsonError "Message not found or unauthorized" |}, w_sent).
Proof.
  split; [exact send_hello|]. split; [exact hello_has_its_id|].
  split; [exact no_hello_before|].
  destruct (X26_sent_message_out_of_reach hello w_general w_sent hello_message
              hello_id alice (js "hello!") send_hello hello_has_its_id
              no_hello_before)
    as (Hstored & Hedit & Hdelete & Hput & Hdel).
  split; [exact Hstored|]. split; [exact Hedit|]. split; [exact Hdelete|].
  split; [|exact Hdel]. apply Hput. reflexivity.
Defined.

Lemma no_connection_later u : connect u ∉ bob_types.
Proof.
  unfold bob_types. intros Hin.
  apply elem_of_cons in Hin as [Hin|Hin]; [discriminate|].
  by apply elem_of_nil in Hin.
Qed.

Lemma bob_typing_goes_out :
  bob_typing_delivery
  ∈ (run (from alice_socket disconnect :: bob_types) sv_talking).2.
Proof.
  apply list_elem_of_lookup. exists 1%nat. vm_compute. reflexivity.
Qed.

Lemma X15_nothing_after_disconnect_witness :
  (forall u, connect u ∉ bob_types)
  /\ bob_typing_delivery
     ∈ (run (from alice_socket disconnect :: bob_types) sv_talking).2
  /\ (alice_socket ∉ reached bob_typing_delivery)
  /\ (alice_socket ∉ dom (sockets sv_left)).
Proof.
  split; [exact no_connection_later|]. split; [exact bob_typing_goes_out|].
  exact (X15_nothing_after_disconnect sv_talking alice_socket bob_types
           bob_typing_delivery no_connection_later bob_typing_goes_out).
Defined.

Lemma alice_is_connected : sockets sv_seeded !! alice_socket = Some alice_connected.
Proof. vm_compute. reflexivity. Qed.

Lemma bob_is_connected : sockets sv_seeded !! bob_socket = Some bob_connected.
Proof. vm_compute. reflexivity. Qed.

Lemma alice_edit_succeeds :
  (exists messageId content,
     alice_edits = edit_message messageId content
     /\ message_edited hello_id (js "hello!") true (now w_edited)
        = message_edited messageId content true (now w_edited)
     /\ editMessage messageId (id (user alice_connected)) content
          (world sv_seeded) = (Ok true, w_edited))
  \/ (exists messageId,
        alice_edits = delete_message messageId
        /\ message_edited hello_id (js "hello!") true (now w_edited)
           = message_deleted messageId
        /\ deleteMessage messageId (id (user alice_connected)) (world sv_seeded)
           = (Ok true, w_edited)).
Proof.
  left. exists hello_id, (js "hello!").
  split; [reflexivity|]. split; [reflexivity|]. vm_compute. reflexivity.
Qed.

Lemma X16_announced_to_all_witness :
  sockets sv_seeded !! alice_socket = Some alice_connected
  /\ editMessage hello_id (id alice) (js "hello!") (world sv_seeded)
     = (Ok true, w_edited)
  /\ step (from alice_socket alice_edits) sv_seeded
     = (with_world w_edited sv_seeded,
        [{| target := socket_self alice_socket; reached := {[alice_socket]};
            event := message_edited hello_id (js "hello!") true (now w_edited) |};
         {| target := socket_broadcast alice_socket;
            reached := dom (sockets sv_seeded) ∖ {[alice_socket]};
            event := message_edited hello_id (js "hello!") true (now w_edited) |}])
  /\ (carol_socket ∈ dom (sockets sv_seeded) ∖ {[alice_socket]})
  /\ (carol_socket ∉ joined general_id (sockets sv_seeded)).
Proof.
  split; [exact alice_is_connected|].
  split; [vm_compute; reflexivity|].
  split.
  - exact (proj1 (X16_announced_to_all alice_socket alice_connected alice_edits
                    (message_edited hello_id (js "hello!") true (now w_edited))
                    sv_seeded w_edited alice_is_connected alice_edit_succeeds)).
  - split; apply (bool_decide_unpack _); vm_compute; exact I.
Defined.

Lemma bob_delete_fails :
  (exists chatId content messageType replyTo error w',
     bob_deletes = send_message chatId content messageType replyTo
     /\ "Failed to delete message" = "Failed to send message"
     /\ sendMessage
          (message_data (user bob_connected) chatId content
             (default "text" messageType) replyTo) (world sv_seeded)
        = (Throw error, w'))
  \/ (exists messageId content,
        bob_deletes = edit_message messageId content
        /\ "Failed to delete message" = "Failed to edit message"
        /\ (editMessage messageId (id (user bob_connected)) content
              (world sv_seeded)).1 <> Ok true)
  \/ (exists messageId,
        bob_deletes = delete_message messageId
        /\ "Failed to delete message" = "Failed to delete message"
        /\ (deleteMessage messageId (id (user bob_connected))
              (world sv_seeded)).1 <> Ok true).
Proof.
  right. right. exists hello_id.
  split; [reflexivity|]. split; [reflexivity|]. vm_compute. discriminate.
Qed.

Lemma X17_failure_contained_witness :
  sockets sv_seeded !! bob_socket = Some bob_connected
  /\ (deleteMessage hello_id (id bob) (world sv_seeded)).1 = Ok false
  /\ (step (from bob_socket bob_deletes) sv_seeded).2
     = [{| target := socket_self bob_socket; reached := {[bob_socket]};
           event := error "Failed to delete message" |}]
  /\ messages (world (step (from bob_socket bob_deletes) sv_seeded).1)
     = messages (world sv_seeded)
  /\ chatrooms (world (step (from bob_socket bob_deletes) sv_seeded).1)
     = chatrooms (world sv_seeded)
  /\ sockets (step (from bob_socket bob_deletes) sv_seeded).1
     = sockets sv_seeded.
Proof.
  split; [exact bob_is_connected|]. split; [vm_compute; reflexivity|].
  exact (X17_failure_contained bob_socket bob_connected bob_deletes
           "Failed to delete message" sv_seeded bob_is_connected
           bob_delete_fails).
Defined.

Lemma alice_joined : sockets sv_joined !! alice_socket = Some alice_connected.
Proof. vm_compute. reflexivity. Qed.

Lemma carol_is_connected : sockets sv_joined !! carol_socket = Some carol_connected.
Proof. vm_compute. reflexivity. Qed.

Lemma hello_goes_out :
  hello_delivery ∈ (step (from alice_socket alice_says_hello) sv_joined).2.
Proof.
  apply list_elem_of_lookup. exists 0%nat. vm_compute. reflexivity.
Qed.

Lemma X18_identity_from_socket_witness :
  sockets sv_joined !! alice_socket = Some alice_connected
  /\ hello_delivery ∈ (step (from alice_socket alice_says_hello) sv_joined).2
  /\ Message.senderId hello_message = id alice
  /\ Message.senderName hello_message = display_name alice.
Proof.
  split; [exact alice_joined|]. split; [exact hello_goes_out|].
  exact (X18_identity_from_socket alice_socket alice_connected alice_says_hello
           sv_joined hello_delivery alice_joined hello_goes_out).
Defined.

Lemma X19_new_message_is_stored_witness :
  sockets sv_joined !! alice_socket = Some alice_connected
  /\ hello_delivery ∈ (step (from alice_socket alice_says_hello) sv_joined).2
  /\ event hello_delivery = new_message hello_message
  /\ exists messageId,
       Message._id hello_message = Some messageId
       /\ messages (world sv_joined) !! IdObject messageId = None
       /\ messages (world (step (from alice_socket alice_says_hello) sv_joined).1)
          = <[IdObject messageId := hello_message]> (messages (world sv_joined))
       /\ reached hello_delivery = joined general_id (sockets sv_joined).
Proof.
  split; [exact alice_joined|]. split; [exact hello_goes_out|].
  split; [reflexivity|].
  destruct (X19_new_message_is_stored alice_socket alice_connected
              alice_says_hello sv_joined hello_delivery hello_message
              alice_joined hello_goes_out eq_refl)
    as (chatId & content & messageType & replyTo & messageId & Hev & _ & Hid
        & Hfree & Hstored & _ & Hchat & _ & _ & _ & _ & _ & Hreached).
  exists messageId. injection Hev as <- _ _ _. auto.
Defined.

Lemma general_is_asked : general_id ∈ [general_id].
Proof. apply list_elem_of_singleton. reflexivity. Qed.

Lemma nothing_between_1 u : connect u ∉ ([] : list Input).
Proof. apply not_elem_of_nil. Qed.

Lemma nothing_between_2 : from carol_socket disconnect ∉ ([] : list Input).
Proof. apply not_elem_of_nil. Qed.

Lemma alice_and_carol :
  sockets (run (from carol_socket (join_rooms [general_id]) :: []) sv_joined).1
    !! alice_socket = Some alice_connected.
Proof. vm_compute. reflexivity. Qed.

Lemma hello_is_accepted :
  sendMessage
    (message_data (user alice_connected) general_id (js "hello")
       (default "text" None) None)
    (world (run (from carol_socket (join_rooms [general_id]) :: []) sv_joined).1)
  = (Ok hello_message, w_sent).
Proof. vm_compute. reflexivity. Qed.

Lemma X20_join_is_unchecked_witness :
  sockets sv_joined !! carol_socket = Some carol_connected
  /\ (id carol ∉ ChatRoom.participants general_room)
  /\ (carol_socket ∈ joined general_id (sockets sv_carol_joined))
  /\ exists d,
       (step (from alice_socket alice_says_hello) sv_carol_joined).2 = [d]
       /\ event d = new_message hello_message
       /\ carol_socket ∈ reached d.
Proof.
  split; [exact carol_is_connected|].
  split.
  { intros Hin. apply list_elem_of_singleton in Hin. discriminate. }
  destruct (X20_join_is_unchecked carol_socket carol_connected [general_id]
              general_id sv_joined [] carol_is_connected general_is_asked
              nothing_between_1 nothing_between_2)
    as (Hin & Hsend & _).
  split; [exact Hin|].
  exact (Hsend alice_socket alice_connected (js "hello") None None
           hello_message w_sent alice_and_carol hello_is_accepted).
Defined.

End MoreExamples.
